(** * ACME transaction system: ingestion and reporting core.

    Shallow embedding of [csv_importer.py], [queue_consumer.py] and
    [reporting.py] (with the parts of [models.py] they use).  Python
    strings are modelled by their UTF-8 encoding, as Rocq [string]s
    (one [ascii] per byte); a Python exception is modelled by its text
    [str(e)], which is all the code ever uses of it. *)

From Stdlib Require Import ZArith NArith Bool List Ascii String Lia.
From Stdlib Require Import Sorting.Sorted Sorting.Permutation.
Import ListNotations.
Open Scope string_scope.
Set Warnings "-register-all".

(** ** The Python runtime fragment used by the code *)
Module Py.

(** A computation that returns a value or raises an exception (its text). *)
Inductive exc (A : Type) : Type :=
| Ok (a : A)
| Raise (msg : string).
Arguments Ok {A} a.
Arguments Raise {A} msg.

Definition bind {A B} (m : exc A) (f : A -> exc B) : exc B :=
  match m with
  | Ok a => f a
  | Raise e => Raise e
  end.

Notation "x <- m ;; k" := (bind m (fun x => k))
  (at level 61, m at next level, right associativity).

(** Characters and byte strings. *)
Definition chr (n : nat) : ascii := ascii_of_nat n.
Definition ord (c : ascii) : nat := nat_of_ascii c.
(** The double-quote character (code 34). *)
Definition quote : ascii := chr 34.

Definition is_digit (c : ascii) : bool := (48 <=? ord c)%nat && (ord c <=? 57)%nat.

Definition is_space (c : ascii) : bool :=
  (* str.isspace on the ASCII range: ' ', \t, \n, \x0b, \x0c, \r *)
  (ord c =? 32)%nat || ((9 <=? ord c)%nat && (ord c <=? 13)%nat).

Definition lower (c : ascii) : ascii :=
  if (65 <=? ord c)%nat && (ord c <=? 90)%nat then chr (ord c + 32) else c.

Definition digit_val (c : ascii) : Z := Z.of_nat (ord c - 48).

Fixpoint digits_value (acc : Z) (l : list ascii) : Z :=
  match l with
  | [] => acc
  | c :: r => digits_value (10 * acc + digit_val c) r
  end.

Fixpoint strip_left (l : list ascii) : list ascii :=
  match l with
  | c :: r => if is_space c then strip_left r else l
  | [] => []
  end.

Definition strip (l : list ascii) : list ascii := rev (strip_left (rev (strip_left l))).

Fixpoint span_digits (l : list ascii) : list ascii * list ascii :=
  match l with
  | c :: r =>
      if is_digit c then let (ds, t) := span_digits r in (c :: ds, t) else ([], l)
  | [] => ([], [])
  end.

Definition lstr (l : list ascii) : string := string_of_list_ascii l.
Definition chars (s : string) : list ascii := list_ascii_of_string s.

Fixpoint is_prefix (p l : list ascii) : bool :=
  match p, l with
  | [], _ => true
  | c :: p', d :: l' => Ascii.eqb c d && is_prefix p' l'
  | _ :: _, [] => false
  end.

(** [needle in haystack] for two str objects. *)
Fixpoint contains (needle hay : list ascii) : bool :=
  is_prefix needle hay ||
  match hay with
  | [] => false
  | _ :: h => contains needle h
  end.

(** [s.replace(old, new)]: every non-overlapping occurrence, left to right
    ([old] non-empty here). *)
Fixpoint replace_fuel (fuel : nat) (old new l : list ascii) : list ascii :=
  match fuel with
  | O => l
  | S f =>
      match l with
      | [] => []
      | c :: r =>
          if is_prefix old l then app new (replace_fuel f old new (skipn (List.length old) l))
          else c :: replace_fuel f old new r
      end
  end.

Definition str_replace (s old new : string) : string :=
  lstr (replace_fuel (String.length s) (chars old) (chars new) (chars s)).

(** Decimal rendering of an integer, as [str(int)]. *)
Fixpoint nat_digits (fuel : nat) (n : N) (acc : list ascii) : list ascii :=
  match fuel with
  | O => acc
  | S f =>
      let d := chr (48 + N.to_nat (N.modulo n 10)) in
      let q := N.div n 10 in
      if (q =? 0)%N then d :: acc else nat_digits f q (d :: acc)
  end.

Definition str_of_Z (z : Z) : string :=
  let ds := nat_digits 64 (Z.abs_N z) [] in
  lstr (if (z <? 0)%Z then "-"%char :: ds else ds).

(** ** Python floats.  A finite float is kept as its exact decimal value
    [m * 10^e]; rounding to binary64 is not modelled, and with it the
    overflow of a huge literal such as [1e400] to [inf]. *)
Inductive pyfloat : Type :=
| PFin (m : Z) (e : Z)
| PInf (neg : bool)
| PNaN.

(** [x > n] for a float and an int, as Python compares them. *)
Definition float_gt_int (x : pyfloat) (n : Z) : bool :=
  match x with
  | PFin m e =>
      if (0 <=? e)%Z then (n <? m * 10 ^ e)%Z else (n * 10 ^ (- e) <? m)%Z
  | PInf neg => negb neg
  | PNaN => false
  end.

Definition is_finite (x : pyfloat) : bool :=
  match x with PFin _ _ => true | _ => false end.

(** Python values as the two transports deliver them: csv rows hold
    [str] (and [None] for short rows), JSON messages any JSON value.
    A dict is its list of items in insertion order, keys unique. *)
Inductive pyval : Type :=
| VNone
| VBool (b : bool)
| VInt (z : Z)
| VFloat (f : pyfloat)
| VStr (s : string)
| VList (l : list pyval)
| VDict (kv : list (pyval * pyval)).

Definition type_name (v : pyval) : string :=
  match v with
  | VNone => "NoneType" | VBool _ => "bool" | VInt _ => "int"
  | VFloat _ => "float" | VStr _ => "str" | VList _ => "list" | VDict _ => "dict"
  end.

(** Truth value, as [not v] tests it. *)
Definition truthy (v : pyval) : bool :=
  match v with
  | VNone => false
  | VBool b => b
  | VInt z => negb (z =? 0)%Z
  | VFloat (PFin m _) => negb (m =? 0)%Z
  | VFloat _ => true
  | VStr s => negb (String.eqb s "")
  | VList l => match l with [] => false | _ => true end
  | VDict kv => match kv with [] => false | _ => true end
  end.

(** [k == v] for a str [k]. *)
Definition str_eq_val (k : string) (v : pyval) : bool :=
  match v with VStr t => String.eqb k t | _ => false end.

Fixpoint dict_get (kv : list (pyval * pyval)) (k : string) : option pyval :=
  match kv with
  | [] => None
  | (k', v) :: r => if str_eq_val k k' then Some v else dict_get r k
  end.

(** [d[k] = v] on a dict: an existing key keeps its position. *)
Fixpoint dict_set (kv : list (pyval * pyval)) (k v : pyval) (eqk : pyval -> bool)
  : list (pyval * pyval) :=
  match kv with
  | [] => [(k, v)]
  | (k', v') :: r => if eqk k' then (k', v) :: r else (k', v') :: dict_set r k v eqk
  end.

(** [k in v] for a str [k]. *)
Definition py_in (k : string) (v : pyval) : exc bool :=
  match v with
  | VDict kv => Ok (match dict_get kv k with Some _ => true | None => false end)
  | VList l => Ok (existsb (str_eq_val k) l)
  | VStr s => Ok (contains (chars k) (chars s))
  | _ => Raise ("argument of type '" ++ type_name v ++ "' is not iterable")
  end.

(** [str(KeyError(k))] is the repr of the key; keys here are plain field names. *)
Definition py_getitem (v : pyval) (k : string) : exc pyval :=
  match v with
  | VDict kv =>
      match dict_get kv k with
      | Some x => Ok x
      | None => Raise ("'" ++ k ++ "'")
      end
  | VList _ => Raise "list indices must be integers or slices, not str"
  | VStr _ => Raise "string indices must be integers, not 'str'"
  | _ => Raise ("'" ++ type_name v ++ "' object is not subscriptable")
  end.

(** ** [repr] and [str] *)
Definition hexdig (n : nat) : ascii := if (n <? 10)%nat then chr (48 + n) else chr (87 + n).

Definition escape_char (q : ascii) (c : ascii) : list ascii :=
  let n := ord c in
  if Ascii.eqb c q then ["\"%char; c]
  else if Ascii.eqb c "\"%char then ["\"%char; "\"%char]
  else if (n =? 9)%nat then ["\"%char; "t"%char]
  else if (n =? 10)%nat then ["\"%char; "n"%char]
  else if (n =? 13)%nat then ["\"%char; "r"%char]
  else if (n <? 32)%nat || (n =? 127)%nat
  then ["\"%char; "x"%char; hexdig (n / 16); hexdig (n mod 16)]
  else [c].

(** [repr(s)]: single quotes unless the text has a single quote and no
    double quote.  Bytes of multi-byte UTF-8 sequences are kept as they
    are (the model treats every non-ASCII character as printable). *)
Definition repr_str (s : string) : string :=
  let l := chars s in
  let q := if existsb (Ascii.eqb "'"%char) l && negb (existsb (Ascii.eqb quote) l)
           then quote else "'"%char in
  lstr (q :: app (flat_map (escape_char q) l) [q]).

(** Drop trailing zeros of the fraction: [m * 10^e] with [e < 0] and [m]
    not a multiple of 10, or [e = 0]. *)
Fixpoint normalize (fuel : nat) (m e : Z) : Z * Z :=
  match fuel with
  | O => (m, e)
  | S f =>
      if (e <? 0)%Z && (Z.rem m 10 =? 0)%Z then normalize f (Z.quot m 10) (e + 1) else (m, e)
  end.

(** [repr(x)] in positional notation (the switch to exponent notation
    for very large or small magnitudes is not modelled). *)
Definition repr_float (x : pyfloat) : string :=
  match x with
  | PInf neg => if neg then "-inf" else "inf"
  | PNaN => "nan"
  | PFin m0 e0 =>
      let (m, e) := normalize (Z.to_nat (- e0)) m0 e0 in
      if (0 <=? e)%Z then str_of_Z (m * 10 ^ e) ++ ".0"
      else
        let p := (10 ^ (- e))%Z in
        let ip := Z.quot m p in
        let fp := Z.abs (Z.rem m p) in
        let fs := str_of_Z fp in
        let pad := String.concat "" (repeat "0" (Z.to_nat (- e) - String.length fs)) in
        (if (m <? 0)%Z && (ip =? 0)%Z then "-" else "") ++ str_of_Z ip ++ "." ++ pad ++ fs
  end.

Fixpoint repr (v : pyval) : string :=
  match v with
  | VNone => "None"
  | VBool b => if b then "True" else "False"
  | VInt z => str_of_Z z
  | VFloat x => repr_float x
  | VStr s => repr_str s
  | VList l => "[" ++ String.concat ", " (map repr l) ++ "]"
  | VDict kv =>
      "{" ++ String.concat ", " (map (fun p => repr (fst p) ++ ": " ++ repr (snd p)) kv) ++ "}"
  end.

(** [str(v)]: the text itself for a str, the repr otherwise. *)
Definition py_str (v : pyval) : string :=
  match v with VStr s => s | _ => repr v end.

(** ** [float(x)] *)

(** CPython's [_Py_string_to_number_with_underscores]: an underscore must
    sit between two digits. *)
Fixpoint underscores_ok (prev_digit : bool) (l : list ascii) : bool :=
  match l with
  | [] => true
  | c :: r =>
      if Ascii.eqb c "_"%char then
        prev_digit && match r with d :: _ => is_digit d | [] => false end
        && underscores_ok false r
      else underscores_ok (is_digit c) r
  end.

Definition lowers (l : list ascii) : list ascii := map lower l.

(** The body after the optional sign: [inf], [infinity], [nan] in any
    case, or a decimal literal [d*[.d*][(e|E)[+-]d+]] with a digit in the
    mantissa. *)
Definition parse_unsigned (l : list ascii) : option pyfloat :=
  let w := lstr (lowers l) in
  if String.eqb w "inf" || String.eqb w "infinity" then Some (PInf false)
  else if String.eqb w "nan" then Some PNaN
  else
    let (ip, r1) := span_digits l in
    let '(fp, r2) :=
      match r1 with
      | "."%char :: r => span_digits r
      | _ => ([], r1)
      end in
    match app ip fp with
    | [] => None
    | mant =>
        let m := digits_value 0 mant in
        let e0 := (- Z.of_nat (List.length fp))%Z in
        match r2 with
        | [] => Some (PFin m e0)
        | c :: r3 =>
            if Ascii.eqb (lower c) "e"%char then
              let '(sg, r4) :=
                match r3 with
                | "+"%char :: r => (1%Z, r)
                | "-"%char :: r => ((-1)%Z, r)
                | _ => (1%Z, r3)
                end in
              let (ed, r5) := span_digits r4 in
              match ed, r5 with
              | _ :: _, [] => Some (PFin m (e0 + sg * digits_value 0 ed))
              | _, _ => None
              end
            else None
        end
    end.

Definition neg_float (x : pyfloat) : pyfloat :=
  match x with
  | PFin m e => PFin (- m) e
  | PInf n => PInf (negb n)
  | PNaN => PNaN
  end.

(** [float(s)] for a str [s]: surrounding whitespace is stripped. *)
Definition float_of_str (s : string) : exc pyfloat :=
  let err := Raise ("could not convert string to float: " ++ repr_str s) in
  let l := strip (chars s) in
  if negb (underscores_ok false l) then err
  else
    let l' := filter (fun c => negb (Ascii.eqb c "_"%char)) l in
    let r :=
      match l' with
      | "-"%char :: b => option_map neg_float (parse_unsigned b)
      | "+"%char :: b => parse_unsigned b
      | _ => parse_unsigned l'
      end in
    match r with
    | Some x => Ok x
    | None => err
    end.

Definition py_float (v : pyval) : exc pyfloat :=
  match v with
  | VStr s => float_of_str s
  | VInt z => Ok (PFin z 0)
  | VFloat x => Ok x
  | VBool b => Ok (PFin (if b then 1 else 0) 0)
  | _ => Raise ("float() argument must be a string or a real number, not '"
                ++ type_name v ++ "'")
  end.

End Py.

(** ** [bytes.decode()]: strict UTF-8 *)
Module Utf8.
Import Py.

Definition hex2 (n : nat) : string := lstr [hexdig (n / 16); hexdig (n mod 16)].

Definition cont (c : ascii) : bool := (128 <=? ord c)%nat && (ord c <=? 191)%nat.
Definition in_range (lo hi : nat) (c : ascii) : bool := (lo <=? ord c)%nat && (ord c <=? hi)%nat.

(** Check one encoded character starting at the head of [l]: [inl k] is the
    number of bytes it takes, [inr (why, j)] the decoder's complaint about
    the [j] bytes it looked at. *)
Definition check_char (surrogatepass : bool) (l : list ascii) : nat + (string * nat) :=
  match l with
  | [] => inl 0
  | b :: r =>
      let n := ord b in
      let need (k : nat) (second : ascii -> bool) :=
        match r with
        | [] => inr ("unexpected end of data", 1)
        | c1 :: r1 =>
            if negb (second c1) then inr ("invalid continuation byte", 1)
            else
              let fix more (j : nat) (seen : nat) (r' : list ascii) :=
                match j with
                | O => inl k
                | S j' =>
                    match r' with
                    | [] => inr ("unexpected end of data", seen)
                    | c :: r'' =>
                        if cont c then more j' (S seen) r'' else inr ("invalid continuation byte", 1)
                    end
                end in
              more (k - 2) 2 r1
        end in
      if (n <? 128)%nat then inl 1
      else if in_range 194 223 b then need 2 cont
      else if (n =? 224)%nat then need 3 (in_range 160 191)
      else if in_range 225 236 b || in_range 238 239 b then need 3 cont
      else if (n =? 237)%nat then need 3 (in_range 128 (if surrogatepass then 191 else 159))
      else if (n =? 240)%nat then need 4 (in_range 144 191)
      else if in_range 241 243 b then need 4 cont
      else if (n =? 244)%nat then need 4 (in_range 128 143)
      else inr ("invalid start byte", 1)
  end.

Definition nat_str (n : nat) : string := str_of_Z (Z.of_nat n).

Fixpoint check_from (sp : bool) (fuel pos : nat) (l : list ascii) : option string :=
  match fuel with
  | O => None
  | S f =>
      match l with
      | [] => None
      | b :: _ =>
          match check_char sp l with
          | inl k => check_from sp f (pos + k) (skipn k l)
          | inr (why, j) =>
              Some ("'utf-8' codec can't decode "
                    ++ (if (j <=? 1)%nat then "byte 0x" ++ hex2 (ord b) ++ " in position " ++ nat_str pos
                        else "bytes in position " ++ nat_str pos ++ "-" ++ nat_str (pos + j - 1))
                    ++ ": " ++ why)
          end
      end
  end.

(** [body.decode(encoding, errors)] for UTF-8, strict or with
    ['surrogatepass'] (which lets encoded surrogates through).  A Python
    str is modelled by its UTF-8 bytes, so a successful decode returns the
    bytes themselves. *)
Definition decode_with (surrogatepass : bool) (body : string) : exc string :=
  match check_from surrogatepass (S (String.length body)) 0 (chars body) with
  | None => Ok body
  | Some e => Raise e
  end.

(** [body.decode()] *)
Definition decode (body : string) : exc string :=
  match check_from false (S (String.length body)) 0 (chars body) with
  | None => Ok body
  | Some e => Raise e
  end.

End Utf8.

(** ** [datetime.fromisoformat] on the extended ISO 8601 forms
    [YYYY-MM-DD[<sep>HH[:MM[:SS[.f{1,6}]]][(+|-)HH:MM[:SS]]]], [<sep>] any
    single character.  The other forms Python 3.11 accepts (basic format,
    week dates, ordinal dates, a [Z] suffix, ...) are taken as rejected
    here. *)
Module DateTime.
Import Py.
Local Open Scope Z_scope.

Record datetime : Type := mkDT {
  dt_day : Z;            (* days since 1970-01-01 *)
  dt_sec : Z;            (* seconds since midnight *)
  dt_us : Z;             (* microseconds *)
  dt_off : option Z      (* UTC offset in seconds, for an aware datetime *)
}.

Fixpoint take_digits (n : nat) (l : list ascii) : option (Z * list ascii) :=
  match n with
  | O => Some (0, l)
  | S n' =>
      match l with
      | c :: r =>
          if is_digit c then
            match take_digits n' r with
            | Some (v, t) => Some (digit_val c * 10 ^ Z.of_nat n' + v, t)
            | None => None
            end
          else None
      | [] => None
      end
  end.

Definition is_leap (y : Z) : bool :=
  ((Z.rem y 4 =? 0) && negb (Z.rem y 100 =? 0)) || (Z.rem y 400 =? 0).

Definition days_in_month (y m : Z) : Z :=
  if (m =? 2) then (if is_leap y then 29 else 28)
  else if (m =? 4) || (m =? 6) || (m =? 9) || (m =? 11) then 30 else 31.

(** Days from 1970-01-01 to a proleptic Gregorian date. *)
Definition days_from_civil (y m d : Z) : Z :=
  let y' := if (m <=? 2) then y - 1 else y in
  let era := Z.div y' 400 in
  let yoe := y' - era * 400 in
  let mp := Z.modulo (m + 9) 12 in
  let doy := Z.div (153 * mp + 2) 5 + d - 1 in
  let doe := yoe * 365 + Z.div yoe 4 - Z.div yoe 100 + doy in
  era * 146097 + doe - 719468.

Definition expect (c : ascii) (l : list ascii) : option (list ascii) :=
  match l with
  | d :: r => if Ascii.eqb c d then Some r else None
  | [] => None
  end.

Definition parse_date (l : list ascii) : option (Z * Z * Z * list ascii) :=
  match take_digits 4 l with
  | Some (y, l1) =>
      match expect "-" l1 with
      | Some l2 =>
          match take_digits 2 l2 with
          | Some (m, l3) =>
              match expect "-" l3 with
              | Some l4 =>
                  match take_digits 2 l4 with
                  | Some (d, l5) => Some (y, m, d, l5)
                  | None => None
                  end
              | None => None
              end
          | None => None
          end
      | None => None
      end
  | None => None
  end.

(** [:NN] components after the hour, at most [k] of them. *)
Fixpoint colon_fields (k : nat) (l : list ascii) : list Z * list ascii :=
  match k with
  | O => ([], l)
  | S k' =>
      match l with
      | ":"%char :: r =>
          match take_digits 2 r with
          | Some (v, t) => let (vs, t') := colon_fields k' t in (v :: vs, t')
          | None => ([], l)
          end
      | _ => ([], l)
      end
  end.

Definition fraction (l : list ascii) : option (Z * list ascii) :=
  match l with
  | "."%char :: r =>
      let (ds, t) := span_digits r in
      let n := List.length ds in
      if (1 <=? n)%nat && (n <=? 6)%nat
      then Some (digits_value 0 ds * 10 ^ (6 - Z.of_nat n), t) else None
  | _ => Some (0, l)
  end.

(** hour, minute, second of a time part (absent ones are 0). *)
Definition hms (vs : list Z) : Z * Z * Z :=
  match vs with
  | [h] => (h, 0, 0)
  | [h; m] => (h, m, 0)
  | [h; m; s] => (h, m, s)
  | _ => (0, 0, 0)
  end.

Definition parse_tz (l : list ascii) : option (option Z) :=
  match l with
  | [] => Some None
  | c :: r =>
      let sg := if Ascii.eqb c "+" then Some 1 else if Ascii.eqb c "-" then Some (-1) else None in
      match sg, take_digits 2 r with
      | Some g, Some (h, r1) =>
          match colon_fields 2 r1 with
          | (vs, []) =>
              match vs with
              | [_] | [_; _] =>
                  let '(hh, mm, ss) := hms (h :: vs) in
                  if (hh <? 24) && (mm <? 60) && (ss <? 60)
                  then Some (Some (g * (hh * 3600 + mm * 60 + ss))) else None
              | _ => None
              end
          | _ => None
          end
      | _, _ => None
      end
  end.

(** The time part: hour, minute, second, microsecond, offset. *)
Definition parse_time (l : list ascii) : option (Z * Z * Z * Z * option Z) :=
  match take_digits 2 l with
  | Some (h, l1) =>
      let (vs, l2) := colon_fields 2 l1 in
      match (if (List.length vs =? 2)%nat then fraction l2 else Some (0, l2)) with
      | Some (us, l3) =>
          match parse_tz l3 with
          | Some off => let '(hh, mm, ss) := hms (h :: vs) in Some (hh, mm, ss, us, off)
          | None => None
          end
      | None => None
      end
  | None => None
  end.

(** The range checks of the [datetime] constructor, in its order. *)
Definition check_fields (y m d hh mm ss : Z) : option string :=
  if negb ((1 <=? y) && (y <=? 9999)) then Some ("year " ++ str_of_Z y ++ " is out of range")
  else if negb ((1 <=? m) && (m <=? 12)) then Some "month must be in 1..12"
  else if negb ((1 <=? d) && (d <=? days_in_month y m)) then Some "day is out of range for month"
  else if negb (hh <? 24) then Some "hour must be in 0..23"
  else if negb (mm <? 60) then Some "minute must be in 0..59"
  else if negb (ss <? 60) then Some "second must be in 0..59"
  else None.

Definition fromisoformat (s : string) : exc datetime :=
  let err := Raise ("Invalid isoformat string: " ++ repr_str s) in
  let build y m d hh mm ss us off :=
    match check_fields y m d hh mm ss with
    | Some e => Raise e
    | None => Ok (mkDT (days_from_civil y m d) (hh * 3600 + mm * 60 + ss) us off)
    end in
  match parse_date (chars s) with
  | Some (y, m, d, []) => build y m d 0 0 0 0 None
  | Some (y, m, d, _ :: rest) =>
      match parse_time rest with
      | Some (hh, mm, ss, us, off) => build y m d hh mm ss us off
      | None => err
      end
  | None => err
  end.

End DateTime.

(** ** [json.loads(body)] for a message body, after CPython's C scanner.
    Error positions are counted in bytes of the UTF-8 text. *)
Module Json.
Import Py.

Definition is_ws (c : ascii) : bool :=
  let n := ord c in ((n =? 32) || (n =? 9) || (n =? 10) || (n =? 13))%nat.

Fixpoint skip_ws (l : list ascii) : list ascii :=
  match l with
  | c :: r => if is_ws c then skip_ws r else l
  | [] => []
  end.

(** Scanning one JSON value: a value and the rest of the text, no value
    at all ([StopIteration]), or a decode error at a position. *)
Inductive scan : Type :=
| Got (v : pyval) (rest : list ascii)
| Stop (rest : list ascii)
| Fail (msg : string) (rest : list ascii).

Inductive sscan : Type :=
| SGot (s : list ascii) (rest : list ascii)
| SFail (msg : string) (rest : list ascii).

Definition hex_val (c : ascii) : option Z :=
  let n := ord c in
  if is_digit c then Some (Z.of_nat (n - 48))
  else if ((97 <=? n) && (n <=? 102))%nat then Some (Z.of_nat (n - 87))
  else if ((65 <=? n) && (n <=? 70))%nat then Some (Z.of_nat (n - 55))
  else None.

Definition hex4 (l : list ascii) : option (Z * list ascii) :=
  match l with
  | a :: b :: c :: d :: r =>
      match hex_val a, hex_val b, hex_val c, hex_val d with
      | Some x, Some y, Some z, Some w => Some ((x * 4096 + y * 256 + z * 16 + w)%Z, r)
      | _, _, _, _ => None
      end
  | _ => None
  end.

Definition zchr (z : Z) : ascii := chr (Z.to_nat z).

(** The UTF-8 bytes of a code point (a lone surrogate gets its three-byte
    form, as ['surrogatepass'] writes it). *)
Definition utf8_encode (cp : Z) : list ascii :=
  if (cp <? 128)%Z then [zchr cp]
  else if (cp <? 2048)%Z then [zchr (192 + cp / 64); zchr (128 + cp mod 64)]
  else if (cp <? 65536)%Z then
    [zchr (224 + cp / 4096); zchr (128 + (cp / 64) mod 64); zchr (128 + cp mod 64)]
  else [zchr (240 + cp / 262144); zchr (128 + (cp / 4096) mod 64);
        zchr (128 + (cp / 64) mod 64); zchr (128 + cp mod 64)].

Definition simple_escape (e : ascii) : option ascii :=
  match ord e with
  | 34 => Some e | 92 => Some e | 47 => Some e
  | 98 => Some (chr 8) | 102 => Some (chr 12) | 110 => Some (chr 10)
  | 114 => Some (chr 13) | 116 => Some (chr 9)
  | _ => None
  end%nat.

Definition is_high (u : Z) : bool := ((55296 <=? u) && (u <=? 56319))%Z.
Definition is_low (u : Z) : bool := ((56320 <=? u) && (u <=? 57343))%Z.

(** The body of a string literal, after its opening quote [begin]. *)
Fixpoint scan_str (fuel : nat) (begin acc l : list ascii) : sscan :=
  match fuel with
  | O => SFail "Unterminated string starting at" begin
  | S f =>
      match l with
      | [] => SFail "Unterminated string starting at" begin
      | c :: r =>
          if Ascii.eqb c Py.quote then SGot (rev acc) r
          else if Ascii.eqb c "\" then
            match r with
            | [] => SFail "Unterminated string starting at" begin
            | e :: r' =>
                if Ascii.eqb e "u" then
                  match hex4 r' with
                  | Some (u, (_ :: _) as r'') =>
                      let single := scan_str f begin (rev (utf8_encode u) ++ acc)%list r'' in
                      if is_high u then
                        match r'' with
                        | "\"%char :: "u"%char :: r3 =>
                            match hex4 r3 with
                            | Some (u2, _ :: _) =>
                                if is_low u2 then
                                  let cp := (65536 + (u - 55296) * 1024 + (u2 - 56320))%Z in
                                  scan_str f begin (rev (utf8_encode cp) ++ acc)%list (skipn 4 r3)
                                else single
                            | Some (_, []) => single
                            | None => SFail "Invalid \uXXXX escape" (tl r'')
                            end
                        | _ => single
                        end
                      else single
                  | _ => SFail "Invalid \uXXXX escape" r
                  end
                else
                  match simple_escape e with
                  | Some ch => scan_str f begin (ch :: acc) r'
                  | None => SFail "Invalid \escape" l
                  end
            end
          else if (ord c <? 32)%nat then SFail "Invalid control character at" l
          else scan_str f begin (c :: acc) r
      end
  end.

(** A number literal: optional minus, [0] or digits not starting with [0],
    optional [.] and digits, optional exponent; an int without fraction
    and exponent, else [float] of the literal. *)
Definition scan_number (l : list ascii) : option (pyval * list ascii) :=
  let '(neg, l1) := match l with "-"%char :: r => (true, r) | _ => (false, l) end in
  let ip :=
    match l1 with
    | "0"%char :: r => Some (["0"%char], r)
    | c :: _ => if is_digit c then Some (span_digits l1) else None
    | [] => None
    end in
  match ip with
  | None => None
  | Some (ids, r1) =>
      let '(fr, r2) :=
        match r1 with
        | "."%char :: ((d :: _) as r) => if is_digit d then let (fs, t) := span_digits r in ("."%char :: fs, t) else ([], r1)
        | _ => ([], r1)
        end in
      let '(ex, r3) :=
        match r2 with
        | e :: r =>
            if Ascii.eqb (lower e) "e" then
              let '(sg, r') :=
                match r with
                | s :: t => if Ascii.eqb s "+" || Ascii.eqb s "-" then ([s], t) else ([], r)
                | [] => ([], r)
                end in
              let (ds, t) := span_digits r' in
              match ds with
              | [] => ([], r2)
              | _ => (e :: sg ++ ds, t)%list
              end
            else ([], r2)
        | [] => ([], r2)
        end in
      let lexeme := ((if neg then ["-"%char] else []) ++ ids ++ fr ++ ex)%list in
      match fr, ex with
      | [], [] => Some (VInt ((if neg then -1 else 1) * digits_value 0 ids)%Z, r3)
      | _, _ =>
          match float_of_str (lstr lexeme) with
          | Ok x => Some (VFloat x, r3)
          | Raise _ => None
          end
      end
  end.

Definition starts (p : string) (l : list ascii) : bool := is_prefix (chars p) l.

Fixpoint scan_once (fuel : nat) (l : list ascii) : scan :=
  match fuel with
  | O => Stop l
  | S f =>
      match l with
      | [] => Stop l
      | c :: r =>
          if Ascii.eqb c Py.quote then
            match scan_str (S (List.length r)) l [] r with
            | SGot s t => Got (VStr (lstr s)) t
            | SFail m t => Fail m t
            end
          else if Ascii.eqb c "{" then
            let l0 := skip_ws r in
            match l0 with
            | "}"%char :: t => Got (VDict []) t
            | _ => scan_members f [] l0
            end
          else if Ascii.eqb c "[" then
            let l0 := skip_ws r in
            match l0 with
            | "]"%char :: t => Got (VList []) t
            | _ => scan_elems f [] l0
            end
          else if starts "null" l then Got VNone (skipn 4 l)
          else if starts "true" l then Got (VBool true) (skipn 4 l)
          else if starts "false" l then Got (VBool false) (skipn 5 l)
          else if starts "NaN" l then Got (VFloat PNaN) (skipn 3 l)
          else if starts "Infinity" l then Got (VFloat (PInf false)) (skipn 8 l)
          else if starts "-Infinity" l then Got (VFloat (PInf true)) (skipn 9 l)
          else
            match scan_number l with
            | Some (v, t) => Got v t
            | None => Stop l
            end
      end
  end
(** Members of an object, from the expected opening quote of a key; a
    repeated key keeps its first position and takes the last value. *)
with scan_members (fuel : nat) (acc : list (pyval * pyval)) (l : list ascii) : scan :=
  match fuel with
  | O => Stop l
  | S f =>
      match l with
      | c :: r =>
          if Ascii.eqb c Py.quote then
            match scan_str (S (List.length r)) l [] r with
            | SFail m t => Fail m t
            | SGot k t =>
                let t1 := skip_ws t in
                match t1 with
                | ":"%char :: t2 =>
                    match scan_once f (skip_ws t2) with
                    | Got v t4 =>
                        let key := lstr k in
                        let acc' := dict_set acc (VStr key) v (str_eq_val key) in
                        let t5 := skip_ws t4 in
                        match t5 with
                        | "}"%char :: t6 => Got (VDict acc') t6
                        | ","%char :: t6 => scan_members f acc' (skip_ws t6)
                        | _ => Fail "Expecting ',' delimiter" t5
                        end
                    | other => other
                    end
                | _ => Fail "Expecting ':' delimiter" t1
                end
            end
          else Fail "Expecting property name enclosed in double quotes" l
      | [] => Fail "Expecting property name enclosed in double quotes" l
      end
  end
(** Elements of an array, from the first element. *)
with scan_elems (fuel : nat) (acc : list pyval) (l : list ascii) : scan :=
  match fuel with
  | O => Stop l
  | S f =>
      match scan_once f l with
      | Got v t =>
          let t1 := skip_ws t in
          match t1 with
          | "]"%char :: t2 => Got (VList (rev (v :: acc))) t2
          | ","%char :: t2 => scan_elems f (v :: acc) (skip_ws t2)
          | _ => Fail "Expecting ',' delimiter" t1
          end
      | other => other
      end
  end.

(** [JSONDecodeError(msg, doc, pos)] text: [msg: line L column C (char P)]. *)
Definition decode_error (src rest : list ascii) (msg : string) : string :=
  let pos := (List.length src - List.length rest)%nat in
  let before := firstn pos src in
  let nls := List.length (filter (fun c => (ord c =? 10)%nat) before) in
  let last_nl :=
    fold_left (fun (acc : option nat) (p : nat * ascii) =>
                 if (ord (snd p) =? 10)%nat then Some (fst p) else acc)
              (combine (seq 0 pos) before) None in
  let col := match last_nl with None => S pos | Some k => (pos - k)%nat end in
  msg ++ ": line " ++ Utf8.nat_str (S nls) ++ " column " ++ Utf8.nat_str col
      ++ " (char " ++ Utf8.nat_str pos ++ ")".

(** [JSONDecoder.decode] on text. *)
Definition loads_text (src : list ascii) : exc pyval :=
  match scan_once (S (List.length src)) (skip_ws src) with
  | Got v t =>
      match skip_ws t with
      | [] => Ok v
      | t' => Raise (decode_error src t' "Extra data")
      end
  | Stop t => Raise (decode_error src t "Expecting value")
  | Fail m t => Raise (decode_error src t m)
  end.

(** [json.detect_encoding] *)
Definition detect_encoding (b : list ascii) : string :=
  let z (c : ascii) := (ord c =? 0)%nat in
  if starts (lstr (map chr [0; 0; 254; 255]%nat)) b
     || starts (lstr (map chr [255; 254; 0; 0]%nat)) b then "utf-32"
  else if starts (lstr (map chr [254; 255]%nat)) b
          || starts (lstr (map chr [255; 254]%nat)) b then "utf-16"
  else if starts (lstr (map chr [239; 187; 191]%nat)) b then "utf-8-sig"
  else
    match b with
    | b0 :: b1 :: b2 :: b3 :: _ =>
        if z b0 then (if z b1 then "utf-32-be" else "utf-16-be")
        else if z b1 then (if z b2 && z b3 then "utf-32-le" else "utf-16-le")
        else "utf-8"
    | [b0; b1] =>
        if z b0 then "utf-16-be" else if z b1 then "utf-16-le" else "utf-8"
    | _ => "utf-8"
    end.

(** [json.loads(body)] for a bytes body: decode with ['surrogatepass'],
    then parse.  Bodies in a UTF-16 or UTF-32 encoding are outside the
    model, which fails on them with a text saying so. *)
Definition loads (body : string) : exc pyval :=
  let b := chars body in
  let enc := detect_encoding b in
  if String.eqb enc "utf-8" then
    text <- Utf8.decode_with true body ;; loads_text (chars text)
  else if String.eqb enc "utf-8-sig" then
    text <- Utf8.decode_with true (lstr (skipn 3 b)) ;; loads_text (chars text)
  else Raise ("json.loads of a " ++ enc ++ " body (not modelled)").

End Json.

(** ** [models.py]: the rows the core writes *)
Module Models.
Import Py DateTime.

Inductive TransactionStatus : Type := pending | completed | failed.

Definition value (s : TransactionStatus) : string :=
  match s with pending => "pending" | completed => "completed" | failed => "failed" end.

(** [[s.value for s in TransactionStatus]] *)
Definition status_values : list string := map value [pending; completed; failed].

(** [TransactionStatus(v)]: lookup by value. *)
Definition TransactionStatus_of (v : pyval) : exc TransactionStatus :=
  match v with
  | VStr s =>
      if String.eqb s "pending" then Ok pending
      else if String.eqb s "completed" then Ok completed
      else if String.eqb s "failed" then Ok failed
      else Raise (repr v ++ " is not a valid TransactionStatus")
  | _ => Raise (repr v ++ " is not a valid TransactionStatus")
  end.

(** A [transactions] row; the string columns hold whatever value the
    ingestion code assigned. *)
Record Transaction : Type := mkTransaction {
  id : pyval;
  sender_id : pyval;
  receiver_id : pyval;
  amount : pyfloat;
  currency : pyval;
  timestamp : datetime;
  status : TransactionStatus
}.

(** A [rejected_records] row ([id] and [received_at] are filled in by the
    database and the clock, and are not modelled). *)
Record RejectedRecord : Type := mkRejectedRecord {
  reason : string;
  payload : string;
  source : string
}.

(** The tables the core reads and writes: the keys of [users] and
    [currency] (targets of the foreign keys of [transactions]), and the
    rows of [transactions] and [rejected_records]. *)
Record db : Type := mkDB {
  users : list string;
  currencies : list string;
  transactions : list Transaction;
  rejected_records : list RejectedRecord
}.

End Models.

(** ** The SQLAlchemy session over PostgreSQL *)
Module Store.
Import Py Models.

Definition has_nul (s : string) : bool := existsb (fun c => (ord c =? 0)%nat) (chars s).

Definition nul_error : string := "A string literal cannot contain NUL (0x00) characters.".

Definition str_in (v : pyval) (l : list string) : bool :=
  match v with VStr s => existsb (String.eqb s) l | _ => false end.

Definition same_id (k : pyval) (t : Transaction) : bool :=
  match k, id t with VStr a, VStr b => String.eqb a b | _, _ => false end.

(** The run of lone surrogates at the head of a text: each is kept as its
    three-byte form [ED x y], [x] in [A0..BF]. *)
Fixpoint surrogate_run (l : list ascii) : nat :=
  match l with
  | b :: x :: y :: r =>
      if (ord b =? 237)%nat && Utf8.in_range 160 191 x then S (surrogate_run r) else O
  | _ => O
  end.

(** The four hex digits of the surrogate [ED x y]. *)
Definition surrogate_hex (x y : ascii) : string :=
  let v := ((ord x - 128) * 64 + (ord y - 128))%nat in
  lstr ["d"%char; hexdig (v / 256); hexdig ((v / 16) mod 16); hexdig (v mod 16)].

(** [s.encode('utf-8')] as the driver does it before sending a text
    parameter: the first run of lone surrogates raises [UnicodeEncodeError],
    located by character positions. *)
Fixpoint encode_error_from (pos : nat) (l : list ascii) : option string :=
  match l with
  | [] => None
  | b :: r =>
      if Utf8.cont b then encode_error_from pos r
      else match surrogate_run l, l with
           | S O, _ :: x :: y :: _ =>
               Some ("'utf-8' codec can't encode character '\u" ++ surrogate_hex x y
                     ++ "' in position " ++ Utf8.nat_str pos ++ ": surrogates not allowed")
           | S (S k), _ =>
               Some ("'utf-8' codec can't encode characters in position " ++ Utf8.nat_str pos
                     ++ "-" ++ Utf8.nat_str (pos + S k) ++ ": surrogates not allowed")
           | _, _ => encode_error_from (S pos) r
           end
  end.

Definition encode_error (s : string) : option string := encode_error_from 0 (chars s).

(** What adapting one text parameter raises: the encoding comes first,
    then the check for NUL bytes. *)
Definition text_error (s : string) : option string :=
  match encode_error s with
  | Some e => Some e
  | None => if has_nul s then Some nul_error else None
  end.

(** The parameters of a statement, in the order they are adapted. *)
Fixpoint params_error (l : list pyval) : option string :=
  match l with
  | [] => None
  | VStr s :: r => match text_error s with Some e => Some e | None => params_error r end
  | _ :: r => params_error r
  end.

(** [INSERT INTO transactions]: text the driver can send, a string primary
    key not yet present, and sender, receiver and currency rows that exist.
    The error texts are the first words of what the driver reports. *)
Definition insert_transaction_row (d : db) (t : Transaction) : exc db :=
  match params_error [id t; sender_id t; receiver_id t; currency t] with
  | Some e => Raise e
  | None =>
    match id t with
    | VStr _ =>
        if existsb (same_id (id t)) (transactions d)
        then Raise "(psycopg2.errors.UniqueViolation) duplicate key value violates unique constraint transactions_pkey"
        else if str_in (sender_id t) (users d) && str_in (receiver_id t) (users d)
                && str_in (currency t) (currencies d)
        then Ok (mkDB (users d) (currencies d) (transactions d ++ [t])%list (rejected_records d))
        else Raise "(psycopg2.errors.ForeignKeyViolation) insert or update on table transactions violates a foreign key constraint"
    | VNone => Raise "Instance <Transaction> has a NULL identity key."
    | _ => Raise "(psycopg2.errors.ForeignKeyViolation) insert or update on table transactions violates a foreign key constraint"
    end
  end.

(** [INSERT INTO rejected_records] *)
Definition insert_rejected_row (d : db) (r : RejectedRecord) : exc db :=
  match params_error [VStr (reason r); VStr (payload r); VStr (source r)] with
  | Some e => Raise e
  | None => Ok (mkDB (users d) (currencies d) (transactions d) (rejected_records d ++ [r])%list)
  end.

(** Objects given to [session.add]. *)
Inductive obj : Type :=
| OTx (t : Transaction)
| ORej (r : RejectedRecord).

(** A session: the committed database it was opened on, the rows written
    in its open database transaction, and the objects added but not yet
    flushed. *)
Record session : Type := mkSession {
  committed : db;
  work : db;
  pending : list obj
}.

Definition open_session (d : db) : session := mkSession d d [].

(** [session.add(o)] *)
Definition add (s : session) (o : obj) : session :=
  mkSession (committed s) (work s) (pending s ++ [o])%list.

Fixpoint flush_objs (w : db) (os : list obj) : exc db :=
  match os with
  | [] => Ok w
  | OTx t :: r => w' <- insert_transaction_row w t ;; flush_objs w' r
  | ORej x :: r => w' <- insert_rejected_row w x ;; flush_objs w' r
  end.

(** [session.flush()]: pending objects are inserted in the order they were added. *)
Definition flush (s : session) : exc session :=
  w <- flush_objs (work s) (pending s) ;; Ok (mkSession (committed s) w []).

(** [session.get(Transaction, k)]: autoflush, then a lookup by primary
    key.  A [None] key finds nothing; a key that is not a string cannot
    be compared with the [varchar] column; a string key the driver cannot
    send raises. *)
Definition get_transaction (s : session) (k : pyval) : exc (option Transaction * session) :=
  s' <- flush s ;;
  match k with
  | VStr t =>
      match text_error t with
      | Some e => Raise e
      | None => Ok (find (same_id k) (transactions (work s')), s')
      end
  | VNone => Ok (None, s')
  | VInt _ => Raise "(psycopg2.errors.UndefinedFunction) operator does not exist: character varying = integer"
  | VFloat _ => Raise "(psycopg2.errors.UndefinedFunction) operator does not exist: character varying = numeric"
  | VBool _ => Raise "(psycopg2.errors.UndefinedFunction) operator does not exist: character varying = boolean"
  | _ => Raise ("(psycopg2.ProgrammingError) can't adapt type '" ++ type_name k ++ "'")
  end.

(** [session.commit()]: the database after it. *)
Definition commit (s : session) : exc db :=
  s' <- flush s ;; Ok (work s').

End Store.

(** ** The two validators.  Their result [(True, None)] is [None] here and
    [(False, reason)] is [Some reason]. *)
Module Validation.
Import Py DateTime Models.

Definition required_fields : list string :=
  ["transaction_id"; "sender_id"; "receiver_id"; "amount"; "currency"; "timestamp"; "status"].

(** [v.replace("Z", "+00:00")] *)
Definition replace_Z (v : pyval) : exc string :=
  match v with
  | VStr s => Ok (str_replace s "Z" "+00:00")
  | _ => Raise ("'" ++ type_name v ++ "' object has no attribute 'replace'")
  end.

(** The [try] block shared by both validators: amount, timestamp, status. *)
Definition check_values (data : pyval) : exc (option string) :=
  a <- py_getitem data "amount" ;;
  _ <- py_float a ;;
  t <- py_getitem data "timestamp" ;;
  t' <- replace_Z t ;;
  _ <- fromisoformat t' ;;
  st <- py_getitem data "status" ;;
  if negb (existsb (fun v => str_eq_val v st) status_values)
  then Ok (Some ("Invalid status: " ++ py_str st))
  else Ok None.

(** [except Exception as e: return False, str(e)] *)
Definition catch_all (r : exc (option string)) : option string :=
  match r with
  | Ok res => res
  | Raise e => Some e
  end.

(** [csv_importer.validate_row] on a csv row (a dict). *)
Definition validate_row (row : list (pyval * pyval)) : option string :=
  let fix fields (fs : list string) : option string :=
    match fs with
    | [] => catch_all (check_values (VDict row))
    | f :: rest =>
        match dict_get row f with
        | None => Some ("Missing field: " ++ f)
        | Some v => if negb (truthy v) then Some ("Missing field: " ++ f) else fields rest
        end
    end in
  fields required_fields.

(** [queue_consumer.validate_message] on a decoded JSON message; the
    membership tests run outside the [try], so they may raise. *)
Definition validate_message (data : pyval) : exc (option string) :=
  let fix fields (fs : list string) : exc (option string) :=
    match fs with
    | [] => Ok (catch_all (check_values data))
    | f :: rest =>
        b <- py_in f data ;;
        if negb b then Ok (Some ("Missing field: " ++ f)) else fields rest
    end in
  fields required_fields.

End Validation.

(** ** [csv.DictReader] over a file opened with [newline=''] (the
    C reader of [_csv.c], default dialect: comma delimiter, double-quote
    quote character written twice inside a quoted field, not strict). *)
Module Csv.
Import Py.

(** The file's lines, each with its terminator ([\n], [\r] or [\r\n]). *)
Fixpoint split_lines (cur : list ascii) (l : list ascii) : list (list ascii) :=
  match l with
  | [] => match cur with [] => [] | _ => [rev cur] end
  | c :: r =>
      if (ord c =? 10)%nat then rev (c :: cur) :: split_lines [] r
      else if (ord c =? 13)%nat then
        match r with
        | d :: r' => if (ord d =? 10)%nat then rev (d :: c :: cur) :: split_lines [] r'
                     else rev (c :: cur) :: split_lines [] r
        | [] => [rev (c :: cur)]
        end
      else split_lines (c :: cur) r
  end.

Inductive pstate : Type :=
| START_RECORD | START_FIELD | IN_FIELD | IN_QUOTED_FIELD
| QUOTE_IN_QUOTED_FIELD | EAT_CRNL.

(** A character of a line, or the end of the line. *)
Inductive pchar : Type := Ch (c : ascii) | EOL.

Record parser : Type := mkParser {
  state : pstate;
  fields : list string;        (* saved fields, last first *)
  field : list ascii;          (* current field, last byte first *)
  field_len : N                (* its length in characters *)
}.

Definition field_limit : N := 131072.

Definition is_nl (c : ascii) : bool := (ord c =? 10)%nat || (ord c =? 13)%nat.

(** [parse_add_char]; a continuation byte of a UTF-8 sequence belongs to
    the character already counted. *)
Definition parse_add_char (p : parser) (c : ascii) : exc parser :=
  if Utf8.cont c then Ok (mkParser (state p) (fields p) (c :: field p) (field_len p))
  else if (field_limit <=? field_len p)%N
  then Raise ("field larger than field limit (" ++ str_of_Z (Z.of_N field_limit) ++ ")")
  else Ok (mkParser (state p) (fields p) (c :: field p) (field_len p + 1)).

Definition parse_save_field (p : parser) : parser :=
  mkParser (state p) (lstr (rev (field p)) :: fields p) [] 0.

Definition set_state (s : pstate) (p : parser) : parser :=
  mkParser s (fields p) (field p) (field_len p).

Definition end_state (x : pchar) : pstate :=
  match x with EOL => START_RECORD | Ch _ => EAT_CRNL end.

Definition line_end (x : pchar) : bool :=
  match x with EOL => true | Ch c => is_nl c end.

(** [parse_process_char] *)
Definition start_field (p : parser) (x : pchar) : exc parser :=
  if line_end x then Ok (set_state (end_state x) (parse_save_field p))
  else match x with
       | Ch c =>
           if Ascii.eqb c Py.quote then Ok (set_state IN_QUOTED_FIELD p)
           else if Ascii.eqb c "," then Ok (set_state START_FIELD (parse_save_field p))
           else p' <- parse_add_char p c ;; Ok (set_state IN_FIELD p')
       | EOL => Ok p
       end.

Definition process_char (p : parser) (x : pchar) : exc parser :=
  match state p with
  | START_RECORD =>
      match x with
      | EOL => Ok p
      | Ch c => if is_nl c then Ok (set_state EAT_CRNL p) else start_field (set_state START_FIELD p) x
      end
  | START_FIELD => start_field p x
  | IN_FIELD =>
      if line_end x then Ok (set_state (end_state x) (parse_save_field p))
      else match x with
           | Ch c =>
               if Ascii.eqb c "," then Ok (set_state START_FIELD (parse_save_field p))
               else parse_add_char p c
           | EOL => Ok p
           end
  | IN_QUOTED_FIELD =>
      match x with
      | EOL => Ok p
      | Ch c =>
          if Ascii.eqb c Py.quote then Ok (set_state QUOTE_IN_QUOTED_FIELD p)
          else parse_add_char p c
      end
  | QUOTE_IN_QUOTED_FIELD =>
      match x with
      | Ch c =>
          if Ascii.eqb c Py.quote then p' <- parse_add_char p c ;; Ok (set_state IN_QUOTED_FIELD p')
          else if Ascii.eqb c "," then Ok (set_state START_FIELD (parse_save_field p))
          else if is_nl c then Ok (set_state EAT_CRNL (parse_save_field p))
          else p' <- parse_add_char p c ;; Ok (set_state IN_FIELD p')
      | EOL => Ok (set_state START_RECORD (parse_save_field p))
      end
  | EAT_CRNL =>
      match x with
      | EOL => Ok (set_state START_RECORD p)
      | Ch c =>
          if is_nl c then Ok p
          else Raise "new-line character seen in unquoted field - do you need to open the file with newline=''?"
      end
  end.

Fixpoint process_line (p : parser) (l : list ascii) : exc parser :=
  match l with
  | [] => process_char p EOL
  | c :: r => p' <- process_char p (Ch c) ;; process_line p' r
  end.

Definition reset : parser := mkParser START_RECORD [] [] 0.

(** [Reader.__next__] run to the end: the records read, then the error
    that stopped the reading, if any. *)
Fixpoint read_records (p : parser) (ls : list (list ascii)) : list (list string) * option string :=
  match ls with
  | [] =>
      match state p, field_len p with
      | IN_QUOTED_FIELD, _ => ([rev (fields (parse_save_field p))], None)
      | _, 0%N => ([], None)
      | _, _ => ([rev (fields (parse_save_field p))], None)
      end
  | l :: rest =>
      match process_line p l with
      | Raise e => ([], Some e)
      | Ok p' =>
          match state p' with
          | START_RECORD =>
              let (recs, err) := read_records reset rest in (rev (fields p') :: recs, err)
          | _ => read_records p' rest
          end
      end
  end.

(** One DictReader row: [dict(zip(fieldnames, row))], the surplus under
    the key [None], missing keys set to [None]. *)
Definition make_row (names : list string) (rec : list string) : list (pyval * pyval) :=
  let set d k v := dict_set d k v (fun k' => match k, k' with
                                            | VStr a, VStr b => String.eqb a b
                                            | VNone, VNone => true
                                            | _, _ => false end) in
  let d0 := fold_left (fun d '(k, v) => set d (VStr k) (VStr v)) (combine names rec) [] in
  let lf := List.length names in
  let lr := List.length rec in
  if (lf <? lr)%nat then set d0 VNone (VList (map VStr (skipn lf rec)))
  else if (lr <? lf)%nat then fold_left (fun d k => set d (VStr k) VNone) (skipn lr names) d0
  else d0.

(** The rows [csv.DictReader] yields for a text: the first record names
    the fields, empty records are skipped. *)
Definition dict_rows (text : string) : list (list (pyval * pyval)) * option string :=
  let (recs, err) := read_records reset (split_lines [] (chars text)) in
  match recs with
  | [] => ([], err)
  | names :: rest =>
      (map (make_row names) (filter (fun r => match r with [] => false | _ => true end) rest), err)
  end.

End Csv.

(** ** The ingestion pipeline: [csv_importer.import_csv] and
    [queue_consumer.callback] *)
Module Ingest.
Import Py DateTime Models Store Validation.

Definition SUSPICIOUS_AMOUNT : Z := 10000.

(** Which branch a record took. *)
Inductive outcome : Type := Accepted | Quarantined | Duplicate.

(** The logging calls, by what they report. *)
Inductive event : Type :=
| InvalidRow (error : string) (row : pyval)
| DuplicateTransaction (tid : pyval)
| SuspiciousTransaction (tid : pyval) (amount : pyval)
| ImportComplete
| InvalidMessage (error : string) (body : string)
| InsertedTransaction (tid : pyval)
| MalformedMessage (error : string) (body : string)
| SavedRejectedRecord (reason : string).

(** [Transaction(id=..., ...)] from a validated record. *)
Definition build_transaction (data : pyval) : exc Transaction :=
  tid <- py_getitem data "transaction_id" ;;
  snd <- py_getitem data "sender_id" ;;
  rcv <- py_getitem data "receiver_id" ;;
  a <- py_getitem data "amount" ;;
  amt <- py_float a ;;
  cur <- py_getitem data "currency" ;;
  t <- py_getitem data "timestamp" ;;
  t' <- replace_Z t ;;
  ts <- fromisoformat t' ;;
  st <- py_getitem data "status" ;;
  status <- TransactionStatus_of st ;;
  Ok (mkTransaction tid snd rcv amt cur ts status).

(** One iteration of the [for row in reader] loop of [import_csv]
    (lines 64-85), in the session of the run. *)
Definition csv_step (s : session) (row : list (pyval * pyval))
  : exc (outcome * session * list event) :=
  match validate_row row with
  | Some error =>
      Ok (Quarantined,
          add s (ORej (mkRejectedRecord error (repr (VDict row)) "csv")),
          [InvalidRow error (VDict row)])
  | None =>
      tid <- py_getitem (VDict row) "transaction_id" ;;
      r <- get_transaction s tid ;;
      let (found, s1) := r in
      match found with
      | Some _ => Ok (Duplicate, s1, [DuplicateTransaction tid])
      | None =>
          a <- py_getitem (VDict row) "amount" ;;
          amt <- py_float a ;;
          let suspicious := float_gt_int amt SUSPICIOUS_AMOUNT in
          tx <- build_transaction (VDict row) ;;
          Ok (Accepted, add s1 (OTx tx),
              if suspicious then [SuspiciousTransaction tid a] else [])
      end
  end.

(** The loop over the rows, then the reader's error if it stopped on one. *)
Fixpoint csv_loop (s : session) (rows : list (list (pyval * pyval))) (err : option string)
  : exc (session * list outcome * list event) :=
  match rows with
  | [] =>
      match err with
      | Some e => Raise e
      | None => Ok (s, [], [])
      end
  | row :: rest =>
      r <- csv_step s row ;;
      let '(o, s1, ev) := r in
      r' <- csv_loop s1 rest err ;;
      let '(s2, os, ev') := r' in
      Ok (s2, o :: os, ev ++ ev')%list
  end.

(** [import_csv(filename)] on the bytes of the file and the database: the
    database after the run, the outcome of each row and the log.  The file
    is decoded as UTF-8 (the locale encoding) before its rows are read;
    Python decodes it chunk by chunk, and either way an undecodable file
    ends the run with an exception before the commit.  When the run
    raises, the session is rolled back and the database is left as it was. *)
Definition import_csv (file : string) (d : db) : exc (db * list outcome * list event) :=
  text <- Utf8.decode file ;;
  let (rows, err) := Csv.dict_rows text in
  r <- csv_loop (open_session d) rows err ;;
  let '(s, os, ev) := r in
  d' <- commit s ;;
  Ok (d', os, ev ++ [ImportComplete])%list.


(** [queue_consumer.insert_transaction(data)]: its own session. *)
Definition insert_transaction (d : db) (data : pyval) : exc (db * outcome * list event) :=
  tid <- py_getitem data "transaction_id" ;;
  r <- get_transaction (open_session d) tid ;;
  let (found, s1) := r in
  match found with
  | Some _ => Ok (d, Duplicate, [DuplicateTransaction tid])
  | None =>
      tx <- build_transaction data ;;
      d' <- commit (add s1 (OTx tx)) ;;
      Ok (d', Accepted, [InsertedTransaction tid])
  end.

(** [queue_consumer.save_rejected_record(reason, payload, source)] *)
Definition save_rejected_record (d : db) (reason payload source : string) : exc db :=
  commit (add (open_session d) (ORej (mkRejectedRecord reason payload source))).

(** [queue_consumer.callback] on a message body (pika delivers bytes, so
    the payload is [body.decode()]). *)
Definition callback (d : db) (body : string) : exc (db * outcome * list event) :=
  let attempt :=
    data <- Json.loads body ;;
    v <- validate_message data ;;
    match v with
    | Some error =>
        payload <- Utf8.decode body ;;
        d' <- save_rejected_record d error payload "queue" ;;
        Ok (d', Quarantined, [InvalidMessage error body; SavedRejectedRecord error])
    | None => insert_transaction d data
    end in
  match attempt with
  | Ok r => Ok r
  | Raise e =>
      payload <- Utf8.decode body ;;
      d' <- save_rejected_record d e payload "queue" ;;
      Ok (d', Quarantined, [MalformedMessage e body; SavedRejectedRecord e])
  end.

End Ingest.

(** ** [reporting.py].  A stored transaction as the queries read it: the
    timestamp in seconds of the store's (naive) clock and the amount as an
    exact number (the rounding of the [SUM] of floats is not modelled).
    A [date] bound is a day number; the database compares it with a
    timestamp as that day's midnight. *)
Module Reporting.
Local Open Scope Z_scope.

Record Tx : Type := mkTx {
  tx_id : string;
  sender_id : string;
  receiver_id : string;
  amount : Z;
  currency : string;
  timestamp : Z;
  status : string
}.

Definition midnight (day : Z) : Z := day * 86400.

(** [func.date(Transaction.timestamp)] *)
Definition date_of (ts : Z) : Z := ts / 86400.

(** The session a query runs in: [Session()] has no bind, [db] is a
    session on the database holding the given transactions. *)
Inductive session : Type :=
| Unbound
| Bound (table : list Tx).

Definition unbound_error : string :=
  "Could not locate a bind configured on mapper Mapper[Transaction(transactions)], SQL expression or this Session.".

(** [query(Transaction).filter(...).all()] *)
Definition query (s : session) (p : Tx -> bool) : Py.exc (list Tx) :=
  match s with
  | Unbound => Py.Raise unbound_error
  | Bound table => Py.Ok (filter p table)
  end.

(** [order_by(Transaction.timestamp)]: a stable sort on the timestamp
    (rows with equal timestamps come in some order; this is one of them). *)
Fixpoint insert_by_ts (t : Tx) (l : list Tx) : list Tx :=
  match l with
  | [] => [t]
  | u :: r => if timestamp t <? timestamp u then t :: l else u :: insert_by_ts t r
  end.

Definition order_by_timestamp (l : list Tx) : list Tx := fold_right insert_by_ts [] l.

Definition involves (user_id : string) (t : Tx) : bool :=
  String.eqb (sender_id t) user_id || String.eqb (receiver_id t) user_id.

Definition opt_filter (b : option Z) (p : Z -> Z -> bool) (t : Tx) : bool :=
  match b with
  | Some d => p (timestamp t) (midnight d)
  | None => true
  end.

(** What [Session()] gives in [reporting.py]: [Session] is the class
    imported from [sqlalchemy.orm], and an instance made without
    arguments has no bind (the [engine] imported from [db] is not used).
    The tests replace [reporting.Session] by a factory of bound sessions;
    the [_with] forms below take that session as a parameter. *)
Definition Session : session := Unbound.

(** [get_payments_by_user(user_id, start_date, end_date, db)], with
    [Session()] giving [new_session]; the returned dicts carry the fields
    of each row in order. *)
Definition get_payments_by_user_with (new_session : session) (user_id : string)
  (start_date end_date : option Z) (db : option (list Tx)) : Py.exc (list Tx) :=
  match db with
  | None =>
      (* with Session() as session: ... Transaction.timestamp < end_date *)
      Py.bind (query new_session (fun t => involves user_id t
                                  && opt_filter start_date Z.geb t
                                  && opt_filter end_date Z.ltb t))
              (fun rows => Py.Ok (order_by_timestamp rows))
  | Some table =>
      (* db.query(...): Transaction.timestamp <= end_date *)
      Py.bind (query (Bound table) (fun t => involves user_id t
                                          && opt_filter start_date Z.geb t
                                          && opt_filter end_date Z.leb t))
              (fun rows => Py.Ok (order_by_timestamp rows))
  end.

Definition get_payments_by_user : string -> option Z -> option Z -> option (list Tx) -> Py.exc (list Tx) :=
  get_payments_by_user_with Session.

(** [SELECT date(timestamp), sum(amount) ... GROUP BY date(timestamp)]:
    one row per day, days in order of first appearance. *)
Fixpoint add_to_day (day a : Z) (acc : list (Z * Z)) : list (Z * Z) :=
  match acc with
  | [] => [(day, a)]
  | (d, s) :: r => if d =? day then (d, s + a) :: r else (d, s) :: add_to_day day a r
  end.

Definition group_sum_by_day (rows : list Tx) : list (Z * Z) :=
  fold_left (fun acc t => add_to_day (date_of (timestamp t)) (amount t) acc) rows [].

(** The [totals] dict: day to its optional [total_sent] and
    [total_received] entries. *)
Definition entry : Type := (option Z * option Z)%type.

Fixpoint setdefault_update (day : Z) (f : entry -> entry) (m : list (Z * entry)) : list (Z * entry) :=
  match m with
  | [] => [(day, f (None, None))]
  | (d, e) :: r => if d =? day then (d, f e) :: r else (d, e) :: setdefault_update day f r
  end.

Definition set_sent (v : Z) (e : entry) : entry := (Some v, snd e).
Definition set_received (v : Z) (e : entry) : entry := (fst e, Some v).

Fixpoint insert_Z (x : Z) (l : list Z) : list Z :=
  match l with
  | [] => [x]
  | y :: r => if x <=? y then x :: l else y :: insert_Z x r
  end.

(** [sorted(totals.keys())] *)
Definition sorted_keys (m : list (Z * entry)) : list Z := fold_right insert_Z [] (map fst m).

Fixpoint lookup_entry (day : Z) (m : list (Z * entry)) : entry :=
  match m with
  | [] => (None, None)
  | (d, e) :: r => if d =? day then e else lookup_entry day r
  end.

Record DailyTotal : Type := mkDailyTotal {
  day : Z;
  total_sent : Z;
  total_received : Z
}.

Definition get_or_zero (o : option Z) : Z := match o with Some v => v | None => 0 end.

(** The part after the two queries: merge by day, then one entry per
    sorted day. *)
Definition merge_totals (sent received : list (Z * Z)) : list DailyTotal :=
  let totals := fold_left (fun m '(d, v) => setdefault_update d (set_sent v) m) sent [] in
  let totals := fold_left (fun m '(d, v) => setdefault_update d (set_received v) m) received totals in
  map (fun d => let e := lookup_entry d totals in
                mkDailyTotal d (get_or_zero (fst e)) (get_or_zero (snd e)))
      (sorted_keys totals).

(** [get_daily_totals(user_id, start_date, end_date, db)], with
    [Session()] giving [new_session]: both branches
    filter with [timestamp >= start_date] and [timestamp < end_date]. *)
Definition get_daily_totals_with (new_session : session) (user_id : string)
  (start_date end_date : option Z) (db : option (list Tx)) : Py.exc (list DailyTotal) :=
  let s := match db with None => new_session | Some table => Bound table end in
  let in_range t := opt_filter start_date Z.geb t && opt_filter end_date Z.ltb t in
  Py.bind (query s (fun t => String.eqb (sender_id t) user_id && in_range t)) (fun sent_rows =>
  Py.bind (query s (fun t => String.eqb (receiver_id t) user_id && in_range t)) (fun received_rows =>
  Py.Ok (merge_totals (group_sum_by_day sent_rows) (group_sum_by_day received_rows)))).

Definition get_daily_totals : string -> option Z -> option Z -> option (list Tx) -> Py.exc (list DailyTotal) :=
  get_daily_totals_with Session.

End Reporting.

(** ** Concrete inputs: a database with two users and one currency, csv
    files and queue message bodies. *)
Module Examples.
Import Py Models.

Definition nl : string := String (chr 10) EmptyString.
Definition dq : string := String quote EmptyString.

Definition d0 : db := mkDB ["user1"; "user2"] ["USD"] [] [].

Definition header : string :=
  "transaction_id,sender_id,receiver_id,amount,currency,timestamp,status" ++ nl.

(** A csv line with the seven fields in the order of the header. *)
Definition csv_line (tid snd rcv amt cur ts st : string) : string :=
  tid ++ "," ++ snd ++ "," ++ rcv ++ "," ++ amt ++ "," ++ cur ++ "," ++ ts ++ "," ++ st ++ nl.

(** The row [csv.DictReader] yields for such a line. *)
Definition csv_row (tid snd rcv amt cur ts st : string) : list (pyval * pyval) :=
  [(VStr "transaction_id", VStr tid); (VStr "sender_id", VStr snd);
   (VStr "receiver_id", VStr rcv); (VStr "amount", VStr amt);
   (VStr "currency", VStr cur); (VStr "timestamp", VStr ts); (VStr "status", VStr st)].

(** A JSON object with string members, as [json.dumps] writes it. *)
Definition jstr (s : string) : string := dq ++ s ++ dq.

Definition json_object (kv : list (string * string)) : string :=
  "{" ++ String.concat ", " (map (fun '(k, v) => jstr k ++ ": " ++ v) kv) ++ "}".

(** A queue message; [amt] is written as given (a JSON number or a
    quoted string). *)
Definition message (tid snd rcv amt cur ts st : string) : string :=
  json_object [("transaction_id", jstr tid); ("sender_id", jstr snd);
               ("receiver_id", jstr rcv); ("amount", amt); ("currency", jstr cur);
               ("timestamp", jstr ts); ("status", jstr st)].

Definition ts1 : string := "2025-05-01T12:00:00Z".

(** A well-formed row and the line it comes from. *)
Definition line_ok (tid amt : string) : string := csv_line tid "user1" "user2" amt "USD" ts1 "completed".
Definition row_ok (tid amt : string) : list (pyval * pyval) :=
  csv_row tid "user1" "user2" amt "USD" ts1 "completed".
Definition message_ok (tid amt : string) : string :=
  message tid "user1" "user2" amt "USD" ts1 "completed".

(** The dict [json.loads] gives for [message_ok tid amt] with an integer amount. *)
Definition message_ok_data (tid : string) (amt : Z) : pyval :=
  VDict [(VStr "transaction_id", VStr tid); (VStr "sender_id", VStr "user1");
         (VStr "receiver_id", VStr "user2"); (VStr "amount", VInt amt);
         (VStr "currency", VStr "USD"); (VStr "timestamp", VStr ts1);
         (VStr "status", VStr "completed")].

(** The transaction built from [row_ok "tx1" "100"] (2025-05-01 is day
    20209; 12:00 is second 43200; the offset of [Z] is 0), and the
    database once it is stored. *)
Definition tx_ok : Transaction :=
  mkTransaction (VStr "tx1") (VStr "user1") (VStr "user2") (PFin 100 0) (VStr "USD")
                (DateTime.mkDT 20209 43200 0 (Some 0%Z)) completed.

Definition d1 : db := mkDB ["user1"; "user2"] ["USD"] [tx_ok] [].

(** A line whose sender is written in Latin-1 ([caf] and the byte 0xe9). *)
Definition line_latin1 : string :=
  csv_line "tx2" ("caf" ++ String (chr 233) EmptyString) "user2" "5" "USD" ts1 "completed".


(** A stored transaction at midnight starting 2025-05-02 (day 20210). *)
Definition stored_tx : Reporting.Tx :=
  Reporting.mkTx "tx1" "user1" "user2" 100%Z "USD" (Reporting.midnight 20210) "completed".

End Examples.

(** Both validators read a record only through [dict_get] of the seven
    field names; [agree_except] says two records give the same answers
    for every name but one. *)
Definition agree_except (k : string) (r1 r2 : list (Py.pyval * Py.pyval)) : Prop :=
  forall f, f <> k -> Py.dict_get r1 f = Py.dict_get r2 f.

(** The rejected records a session will have written once flushed:
    those already inserted, then the pending ones in order. *)
Definition rej_of_objs (os : list Store.obj) : list Models.RejectedRecord :=
  flat_map (fun o => match o with Store.ORej r => [r] | Store.OTx _ => [] end) os.

Definition rej_view (s : Store.session) : list Models.RejectedRecord :=
  (Models.rejected_records (Store.work s) ++ rej_of_objs (Store.pending s))%list.

(** The rejected records of a list of csv rows: one per row the validator
    refuses, with its reason, the row's [str] and the source [csv]. *)
Definition csv_rejects (rows : list (list (Py.pyval * Py.pyval))) : list Models.RejectedRecord :=
  flat_map (fun row => match Validation.validate_row row with
                       | Some e => [Models.mkRejectedRecord e (Py.repr (Py.VDict row)) "csv"]
                       | None => []
                       end) rows.

Ltac rewrite_agreeing H :=
  repeat match goal with
         | |- context [Py.dict_get ?r1 ?f] =>
             match f with
             | "amount" => fail 1
             | _ => rewrite (H f) by discriminate
             end
         end.

(** The reports as the spec describes them, over the rows of a bound
    session. *)
Module ReportingSpec.
Import Reporting.
Local Open Scope Z_scope.

(** The rows of the two [get_daily_totals] queries. *)
Definition sent_rows (user_id : string) (start_date end_date : option Z) (table : list Tx) : list Tx :=
  filter (fun t => String.eqb (sender_id t) user_id
                   && (opt_filter start_date Z.geb t && opt_filter end_date Z.ltb t)) table.

Definition received_rows (user_id : string) (start_date end_date : option Z) (table : list Tx) : list Tx :=
  filter (fun t => String.eqb (receiver_id t) user_id
                   && (opt_filter start_date Z.geb t && opt_filter end_date Z.ltb t)) table.

(** The sum of the amounts of the rows dated [d] (0 when there is none). *)
Definition day_sum (rows : list Tx) (d : Z) : Z :=
  fold_right (fun t acc => (if date_of (timestamp t) =? d then amount t else 0) + acc) 0 rows.

(** The value a [(day, sum)] list holds for [d]. *)
Fixpoint day_lookup (d : Z) (l : list (Z * Z)) : option Z :=
  match l with
  | [] => None
  | (k, v) :: r => if k =? d then Some v else day_lookup d r
  end.

(** Rows in timestamp order. *)
Definition ts_le (a b : Tx) : Prop := (timestamp a <= timestamp b)%Z.

(** One step of each fold of the code: [group_sum_by_day] and the two
    loops of [merge_totals]. *)
Definition group_step (acc : list (Z * Z)) (t : Tx) : list (Z * Z) :=
  add_to_day (date_of (timestamp t)) (amount t) acc.

Definition sent_step (m : list (Z * entry)) (p : Z * Z) : list (Z * entry) :=
  setdefault_update (fst p) (set_sent (snd p)) m.

Definition received_step (m : list (Z * entry)) (p : Z * Z) : list (Z * entry) :=
  setdefault_update (fst p) (set_received (snd p)) m.

End ReportingSpec.

(** Descriptions of what the ingestion code builds and stores. *)
Module IngestSpec.
Import Py DateTime Models Store Validation Ingest.

(** What [build_transaction] makes of a record: each column is the
    record's value for it, the amount through [float], the timestamp
    through [fromisoformat] after the [Z] replacement, the status
    through [TransactionStatus]. *)
Definition built_from (data : pyval) (tx : Transaction) : Prop :=
  py_getitem data "transaction_id" = Ok (id tx)
  /\ py_getitem data "sender_id" = Ok (sender_id tx)
  /\ py_getitem data "receiver_id" = Ok (receiver_id tx)
  /\ (exists a, py_getitem data "amount" = Ok a /\ py_float a = Ok (amount tx))
  /\ py_getitem data "currency" = Ok (currency tx)
  /\ (exists t t', py_getitem data "timestamp" = Ok t /\ replace_Z t = Ok t'
                   /\ fromisoformat t' = Ok (timestamp tx))
  /\ py_getitem data "status" = Ok (VStr (value (status tx))).

(** A rejected record the database accepts: no NUL byte in its text columns. *)
Definition nul_free (r : RejectedRecord) : Prop :=
  has_nul (reason r) = false /\ has_nul (payload r) = false.

(** The rejected records of [w] are those of [d0] followed by records
    without NUL bytes. *)
Definition rej_ok (d0 w : db) : Prop :=
  exists X, rejected_records w = (rejected_records d0 ++ X)%list /\ Forall nul_free X.

(** A queue body made of one NUL byte. *)
Definition nul_body : string := String (chr 0) EmptyString.

(** A status holding a NUL byte, and a csv file with one row carrying it. *)
Definition st_nul : string := "x" ++ String (chr 0) EmptyString.

Definition file_nul_status : string :=
  Examples.header ++ Examples.csv_line "tx1" "user1" "user2" "5" "USD" Examples.ts1 st_nul.

Definition row_nul_status : list (pyval * pyval) :=
  Examples.csv_row "tx1" "user1" "user2" "5" "USD" Examples.ts1 st_nul.

End IngestSpec.

(** [scheduled_reports.py]: the month range and the reports of a run. *)
Module Sched.
Import Py DateTime.
Local Open Scope Z_scope.

Definition ascii_only (l : list ascii) : bool := forallb (fun c => (ord c <? 128)%nat) l.

Definition digit_in (lo hi : nat) (c : ascii) : bool := (lo <=? ord c)%nat && (ord c <=? hi)%nat.

(** The three alternatives of the [%m] pattern, [1[0-2]|0[1-9]|[1-9]],
    tried in this order. *)
Definition month_part (l : list ascii) : option (Z * list ascii) :=
  match l with
  | "1"%char :: c :: r => if digit_in 48 50 c then Some (10 + digit_val c, r) else
                            Some (1, c :: r)
  | "0"%char :: c :: r => if digit_in 49 57 c then Some (digit_val c, r) else None
  | c :: r => if digit_in 49 57 c then Some (digit_val c, r) else None
  | [] => None
  end.

Definition strptime_not_modelled : string := "strptime: non-ASCII input is not modelled".

(** [datetime.strptime(s, "%Y-%m")], giving year and month. *)
Definition strptime_ym (s : string) : exc (Z * Z) :=
  let l := chars s in
  let nomatch := Raise ("time data " ++ repr_str s ++ " does not match format '%Y-%m'") in
  if negb (ascii_only l) then Raise strptime_not_modelled else
  match take_digits 4 l with
  | Some (y, "-"%char :: l2) =>
      match month_part l2 with
      | Some (m, []) => if y =? 0 then Raise "year 0 is out of range" else Ok (y, m)
      | Some (_, rest) => Raise ("unconverted data remains: " ++ lstr rest)
      | None => nomatch
      end
  | _ => nomatch
  end.

(** [get_month_range(target_month)], with [date.today()] given as
    [(year, month, day)]; a date is its day number. *)
Definition get_month_range (today : Z * Z * Z) (target_month : option string) : exc (Z * Z) :=
  let '(ty, tm, _) := today in
  ym <- match target_month with
        | Some s => if String.eqb s "" then Ok (ty, tm) else strptime_ym s
        | None => Ok (ty, tm)
        end ;;
  let '(y, m) := ym in
  let first_day := days_from_civil y m 1 in
  if m =? 12 then
    if y + 1 <=? 9999 then Ok (first_day, days_from_civil (y + 1) 1 1)
    else Raise ("year " ++ str_of_Z (y + 1) ++ " is out of range")
  else Ok (first_day, days_from_civil y (m + 1) 1).

(** The reports [generate_monthly_reports] writes for each user: the
    payments and the daily totals of the month, both queried with the
    job's session.  Files and printing are left out. *)
Fixpoint reports_for (s e : Z) (table : list Reporting.Tx) (users : list string)
  : exc (list (string * list Reporting.Tx * list Reporting.DailyTotal)) :=
  match users with
  | [] => Ok []
  | u :: us =>
      payments <- Reporting.get_payments_by_user u (Some s) (Some e) (Some table) ;;
      daily <- Reporting.get_daily_totals u (Some s) (Some e) (Some table) ;;
      rest <- reports_for s e table us ;;
      Ok ((u, payments, daily) :: rest)
  end.

Definition monthly_reports (today : Z * Z * Z) (target_month : option string)
  (users : list string) (table : list Reporting.Tx)
  : exc (list (string * list Reporting.Tx * list Reporting.DailyTotal)) :=
  r <- get_month_range today target_month ;;
  let '(start_date, end_date) := r in
  reports_for start_date end_date table users.

(** The month after [(y, m)]. *)
Definition next_month (y m : Z) : Z * Z := if m =? 12 then (y + 1, 1) else (y, m + 1).

(** [n] decimal digits of [v], the most significant first. *)
Fixpoint pad_digits (n : nat) (v : Z) : list ascii :=
  match n with
  | O => []
  | S n' => chr (48 + Z.to_nat ((v / 10 ^ Z.of_nat n') mod 10)) :: pad_digits n' v
  end.

(** The text [YYYY-MM] of a month. *)
Definition ym_text (y m : Z) : string := lstr (pad_digits 4 y ++ "-"%char :: pad_digits 2 m)%list.

(** The part of [days_from_civil] that depends on the (shifted) year. *)
Definition civil_year_days (y : Z) : Z :=
  let era := y / 400 in let yoe := y - era * 400 in era * 146097 + (yoe * 365 + yoe / 4 - yoe / 100).

End Sched.

(** Close [lhs = rhs], where [rhs] may hold holes, by evaluating [lhs]. *)
Ltac eval_eq :=
  match goal with
  | |- ?lhs = _ => let v := eval vm_compute in lhs in
                   transitivity v; [vm_compute; exact eq_refl | exact eq_refl]
  end.

(** Name [H : t = v], with [v] the value of [t]. *)
Ltac eval_as t H :=
  let v := eval vm_compute in t in
  assert (H : t = v) by (vm_compute; exact eq_refl).

(** [models.User] and [models.Currency], the admin endpoints of [api.py],
    the commands of [manage_cli.py] and [seed.py]. *)
Module Admin.
Import Py.

Module User.
Record t : Type := mk { id : string; name : string; deleted : bool }.
End User.

Module Currency.
Record t : Type := mk { code : string; name : string; deleted : bool }.
End Currency.

(** The [users] and [currency] tables, rows in insertion order. *)
Record tables : Type := mkTables {
  user_rows : list User.t;
  currency_rows : list Currency.t
}.

(** The outcome of a request: a response with its status and JSON body,
    an [HTTPException], or another exception (a 500 response). *)
Inductive api_result : Type :=
| Done (status : Z) (body : pyval)
| HTTPError (status : Z) (detail : string)
| Failure (msg : string).

(** What the driver raises on the text parameters of a statement, taken
    in order ([Store.text_error]: a lone surrogate, then a NUL byte). *)
Fixpoint texts_error (l : list string) : option string :=
  match l with
  | [] => None
  | s :: r => match Store.text_error s with Some e => Some e | None => texts_error r end
  end.

(** A UTF-8 continuation byte, [10xxxxxx]. *)
Definition continues (c : ascii) : bool := (128 <=? ord c)%nat && (ord c <? 192)%nat.

(** The number of characters of a UTF-8 text: its bytes that do not
    continue a character. *)
Definition char_count (l : list ascii) : nat :=
  List.length (filter (fun c => negb (continues c)) l).

(** The first [n] characters of a UTF-8 text and the rest. *)
Fixpoint split_chars (n : nat) (l : list ascii) : list ascii * list ascii :=
  match l with
  | [] => ([], [])
  | c :: r =>
      if continues c then
        let '(a, b) := split_chars n r in (c :: a, b)
      else match n with
           | O => ([], l)
           | S n' => let '(a, b) := split_chars n' r in (c :: a, b)
           end
  end.

(** Errors the database reports are named by the first line of their
    message. *)
Definition varchar3_error : string :=
  "(psycopg2.errors.StringDataRightTruncation) value too long for type character varying(3)".

(** The value a [String(3)] column stores: longer text is an error,
    unless the excess characters are all spaces, which are cut off. *)
Definition varchar3 (s : string) : exc string :=
  let l := chars s in
  if (char_count l <=? 3)%nat then Ok s
  else let '(a, b) := split_chars 3 l in
       if forallb (fun c => Ascii.eqb c " "%char) b then Ok (lstr a) else Raise varchar3_error.

(** [session.get(User, k)] and [session.get(Currency, k)]: a key the
    driver cannot send (a lone surrogate or a NUL byte) raises; deleted
    rows are found too. *)
Definition get_user (d : tables) (k : string) : exc (option User.t) :=
  match texts_error [k] with
  | Some e => Raise e
  | None => Ok (find (fun u => String.eqb (User.id u) k) (user_rows d))
  end.

Definition get_currency (d : tables) (k : string) : exc (option Currency.t) :=
  match texts_error [k] with
  | Some e => Raise e
  | None => Ok (find (fun c => String.eqb (Currency.code c) k) (currency_rows d))
  end.

(** [INSERT INTO users] *)
Definition insert_user (d : tables) (u : User.t) : exc tables :=
  match texts_error [User.id u; User.name u] with
  | Some e => Raise e
  | None =>
      if existsb (fun v => String.eqb (User.id v) (User.id u)) (user_rows d)
      then Raise "(psycopg2.errors.UniqueViolation) duplicate key value violates unique constraint users_pkey"
      else Ok (mkTables (user_rows d ++ [u]) (currency_rows d))
  end.

(** [INSERT INTO currency]: the parameters are encoded before the
    statement is sent; the server then stores the code as [String(3)]
    keeps it. *)
Definition insert_currency (d : tables) (c : Currency.t) : exc tables :=
  match texts_error [Currency.code c; Currency.name c] with
  | Some e => Raise e
  | None =>
    code <- varchar3 (Currency.code c) ;;
    if existsb (fun v => String.eqb (Currency.code v) code) (currency_rows d)
    then Raise "(psycopg2.errors.UniqueViolation) duplicate key value violates unique constraint currency_pkey"
    else Ok (mkTables (user_rows d) (currency_rows d ++ [Currency.mk code (Currency.name c) (Currency.deleted c)]))
  end.

Definition set_user_name (n : string) (u : User.t) : User.t := User.mk (User.id u) n (User.deleted u).
Definition set_user_deleted (u : User.t) : User.t := User.mk (User.id u) (User.name u) true.
Definition set_currency_name (n : string) (c : Currency.t) : Currency.t :=
  Currency.mk (Currency.code c) n (Currency.deleted c).
Definition set_currency_deleted (c : Currency.t) : Currency.t :=
  Currency.mk (Currency.code c) (Currency.name c) true.

(** [UPDATE users SET ... WHERE id = k]: each row with the key becomes
    [f u]; [params] are the texts the statement sends. *)
Definition update_user_row (d : tables) (k : string) (f : User.t -> User.t) (params : list string) : exc tables :=
  match texts_error params with
  | Some e => Raise e
  | None => Ok (mkTables (map (fun u => if String.eqb (User.id u) k then f u else u) (user_rows d))
                         (currency_rows d))
  end.

Definition update_currency_row (d : tables) (k : string) (f : Currency.t -> Currency.t) (params : list string) : exc tables :=
  match texts_error params with
  | Some e => Raise e
  | None => Ok (mkTables (user_rows d)
                         (map (fun c => if String.eqb (Currency.code c) k then f c else c) (currency_rows d)))
  end.

(** The commit after [u.name = n]: no statement when the name is
    unchanged. *)
Definition write_user_name (d : tables) (u : User.t) (n : string) : exc tables :=
  if String.eqb n (User.name u) then Ok d
  else update_user_row d (User.id u) (set_user_name n) [n; User.id u].

Definition write_currency_name (d : tables) (c : Currency.t) (n : string) : exc tables :=
  if String.eqb n (Currency.name c) then Ok d
  else update_currency_row d (Currency.code c) (set_currency_name n) [n; Currency.code c].

Definition user_json (id name : string) : pyval := VDict [(VStr "id", VStr id); (VStr "name", VStr name)].
Definition currency_json (code name : string) : pyval := VDict [(VStr "code", VStr code); (VStr "name", VStr name)].

(** What reading [c.code] after the commit raises when no row has the
    code the object was added with ([0x...] stands for the object's
    address). *)
Definition object_deleted_error : string :=
  "Instance '<Currency at 0x...>' has been deleted, or its row is otherwise not present.".

(** The endpoints: the tables after the request, and its outcome.  The
    list queries have no [ORDER BY]: they return the rows in the table's
    scan order, modelled as the order of the list; a property that
    depends on where a new row is listed is stated up to permutation. *)
Definition list_users (d : tables) : tables * api_result :=
  (d, Done 200 (VList (map (fun u => user_json (User.id u) (User.name u))
                           (filter (fun u => negb (User.deleted u)) (user_rows d))))).

Definition create_user (d : tables) (id name : string) : tables * api_result :=
  match get_user d id with
  | Raise e => (d, Failure e)
  | Ok (Some _) => (d, HTTPError 409 "User already exists")
  | Ok None =>
      match insert_user d (User.mk id name false) with
      | Raise e => (d, Failure e)
      | Ok d' => (d', Done 201 (user_json id name))
      end
  end.

(** [user] is [None] when the request has no body. *)
Definition update_user (d : tables) (user_id : string) (user : option string) : tables * api_result :=
  match get_user d user_id with
  | Raise e => (d, Failure e)
  | Ok None => (d, HTTPError 404 "User not found or deleted")
  | Ok (Some u) =>
      if User.deleted u then (d, HTTPError 404 "User not found or deleted")
      else match user with
           | None => (d, Failure "'NoneType' object has no attribute 'name'")
           | Some n =>
               match write_user_name d u n with
               | Raise e => (d, Failure e)
               | Ok d' => (d', Done 200 (user_json (User.id u) n))
               end
           end
  end.

Definition delete_user (d : tables) (user_id : string) : tables * api_result :=
  match get_user d user_id with
  | Raise e => (d, Failure e)
  | Ok None => (d, HTTPError 404 "User not found or already deleted")
  | Ok (Some u) =>
      if User.deleted u then (d, HTTPError 404 "User not found or already deleted")
      else match update_user_row d (User.id u) set_user_deleted [User.id u] with
           | Raise e => (d, Failure e)
           | Ok d' => (d', Done 204 VNone)
           end
  end.

Definition list_currencies (d : tables) : tables * api_result :=
  (d, Done 200 (VList (map (fun c => currency_json (Currency.code c) (Currency.name c))
                           (filter (fun c => negb (Currency.deleted c)) (currency_rows d))))).

Definition create_currency (d : tables) (code name : string) : tables * api_result :=
  match get_currency d code with
  | Raise e => (d, Failure e)
  | Ok (Some _) => (d, HTTPError 409 "Currency already exists")
  | Ok None =>
      match insert_currency d (Currency.mk code name false) with
      | Raise e => (d, Failure e)
      | Ok d' =>
          (* the response reloads the row by the code it was added with *)
          match get_currency d' code with
          | Ok (Some c) => (d', Done 201 (currency_json (Currency.code c) (Currency.name c)))
          | _ => (d', Failure object_deleted_error)
          end
      end
  end.

Definition update_currency (d : tables) (code : string) (currency : option string) : tables * api_result :=
  match get_currency d code with
  | Raise e => (d, Failure e)
  | Ok None => (d, HTTPError 404 "Currency not found or deleted")
  | Ok (Some c) =>
      if Currency.deleted c then (d, HTTPError 404 "Currency not found or deleted")
      else match currency with
           | None => (d, Failure "'NoneType' object has no attribute 'name'")
           | Some n =>
               match write_currency_name d c n with
               | Raise e => (d, Failure e)
               | Ok d' => (d', Done 200 (currency_json (Currency.code c) n))
               end
           end
  end.

Definition delete_currency (d : tables) (code : string) : tables * api_result :=
  match get_currency d code with
  | Raise e => (d, Failure e)
  | Ok None => (d, HTTPError 404 "Currency not found or already deleted")
  | Ok (Some c) =>
      if Currency.deleted c then (d, HTTPError 404 "Currency not found or already deleted")
      else match update_currency_row d (Currency.code c) set_currency_deleted [Currency.code c] with
           | Raise e => (d, Failure e)
           | Ok d' => (d', Done 204 VNone)
           end
  end.
(** The commands of [manage_cli.py]: the tables after the command, the
    lines it prints, and the exception it re-raises. *)
Definition cli_result : Type := tables * list string * option string.

Definition cli_error (d : tables) (e : string) : cli_result := (d, ["Error: " ++ e], Some e).

Definition cli_list_users (d : tables) : cli_result :=
  (d, map (fun u => User.id u ++ ": " ++ User.name u)
          (filter (fun u => negb (User.deleted u)) (user_rows d)), None).

Definition cli_add_user (d : tables) (user_id name : string) : cli_result :=
  match get_user d user_id with
  | Raise e => cli_error d e
  | Ok (Some _) => (d, ["User " ++ user_id ++ " already exists."], None)
  | Ok None =>
      match insert_user d (User.mk user_id name false) with
      | Raise e => cli_error d e
      | Ok d' => (d', ["Added user " ++ user_id ++ ": " ++ name], None)
      end
  end.

Definition cli_edit_user (d : tables) (user_id name : string) : cli_result :=
  match get_user d user_id with
  | Raise e => cli_error d e
  | Ok None => (d, ["User " ++ user_id ++ " not found or deleted."], None)
  | Ok (Some u) =>
      if User.deleted u then (d, ["User " ++ user_id ++ " not found or deleted."], None)
      else match write_user_name d u name with
           | Raise e => cli_error d e
           | Ok d' => (d', ["Updated user " ++ user_id ++ " name to " ++ name], None)
           end
  end.

Definition cli_delete_user (d : tables) (user_id : string) : cli_result :=
  match get_user d user_id with
  | Raise e => cli_error d e
  | Ok None => (d, ["User " ++ user_id ++ " not found or already deleted."], None)
  | Ok (Some u) =>
      if User.deleted u then (d, ["User " ++ user_id ++ " not found or already deleted."], None)
      else match update_user_row d (User.id u) set_user_deleted [User.id u] with
           | Raise e => cli_error d e
           | Ok d' => (d', ["Soft-deleted user " ++ user_id], None)
           end
  end.

Definition cli_list_currencies (d : tables) : cli_result :=
  (d, map (fun c => Currency.code c ++ ": " ++ Currency.name c)
          (filter (fun c => negb (Currency.deleted c)) (currency_rows d)), None).

Definition cli_add_currency (d : tables) (code name : string) : cli_result :=
  match get_currency d code with
  | Raise e => cli_error d e
  | Ok (Some _) => (d, ["Currency " ++ code ++ " already exists."], None)
  | Ok None =>
      match insert_currency d (Currency.mk code name false) with
      | Raise e => cli_error d e
      | Ok d' => (d', ["Added currency " ++ code ++ ": " ++ name], None)
      end
  end.

Definition cli_edit_currency (d : tables) (code name : string) : cli_result :=
  match get_currency d code with
  | Raise e => cli_error d e
  | Ok None => (d, ["Currency " ++ code ++ " not found or deleted."], None)
  | Ok (Some c) =>
      if Currency.deleted c then (d, ["Currency " ++ code ++ " not found or deleted."], None)
      else match write_currency_name d c name with
           | Raise e => cli_error d e
           | Ok d' => (d', ["Updated currency " ++ code ++ " name to " ++ name], None)
           end
  end.

Definition cli_delete_currency (d : tables) (code : string) : cli_result :=
  match get_currency d code with
  | Raise e => cli_error d e
  | Ok None => (d, ["Currency " ++ code ++ " not found or already deleted."], None)
  | Ok (Some c) =>
      if Currency.deleted c then (d, ["Currency " ++ code ++ " not found or already deleted."], None)
      else match update_currency_row d (Currency.code c) set_currency_deleted [Currency.code c] with
           | Raise e => cli_error d e
           | Ok d' => (d', ["Soft-deleted currency " ++ code], None)
           end
  end.

(** [seed.py] *)
Definition seed_users : list (string * string) :=
  [("user1", "Alice"); ("user2", "Bob"); ("user3", "Charlie")].

Definition seed_currencies : list (string * string) :=
  [("USD", "US Dollar"); ("EUR", "Euro"); ("GBP", "British Pound")].

(** Each missing row is added; the [get] of the next one flushes it
    (the session autoflushes), the commit flushes the last. *)
Fixpoint seed_user_rows (d : tables) (l : list (string * string)) : exc tables :=
  match l with
  | [] => Ok d
  | (k, n) :: r =>
      found <- get_user d k ;;
      d1 <- match found with Some _ => Ok d | None => insert_user d (User.mk k n false) end ;;
      seed_user_rows d1 r
  end.

Fixpoint seed_currency_rows (d : tables) (l : list (string * string)) : exc tables :=
  match l with
  | [] => Ok d
  | (k, n) :: r =>
      found <- get_currency d k ;;
      d1 <- match found with Some _ => Ok d | None => insert_currency d (Currency.mk k n false) end ;;
      seed_currency_rows d1 r
  end.

Definition seed (d : tables) : exc tables :=
  d1 <- seed_user_rows d seed_users ;; seed_currency_rows d1 seed_currencies.

End Admin.

(** * Properties *)

(** ** Validation *)
Module ValidationFacts.
Import Py Models Validation Ingest Examples.

(** C3: the queue path does not quarantine a record with an empty
    required field: a message whose [transaction_id] is the empty string
    is stored, while the csv validator names the field. *)
Lemma queue_accepts_empty_transaction_id :
  (exists d', callback d0 (message_ok "" "100")
              = Ok (d', Accepted, [InsertedTransaction (VStr "")])
              /\ map id (transactions d') = [VStr ""])
  /\ validate_row (row_ok "" "100") = Some "Missing field: transaction_id".
Proof.
  split; [eexists; split | ]; vm_compute; reflexivity.
Qed.

Lemma check_values_amount_irrelevant (r1 r2 : list (pyval * pyval)) (v1 v2 : pyval) (x1 x2 : pyfloat) :
  agree_except "amount" r1 r2 ->
  dict_get r1 "amount" = Some v1 -> dict_get r2 "amount" = Some v2 ->
  py_float v1 = Ok x1 -> py_float v2 = Ok x2 ->
  check_values (VDict r1) = check_values (VDict r2).
Proof.
  intros Hag H1 H2 F1 F2.
  unfold check_values; cbn [py_getitem bind].
  rewrite H1, H2; cbn [bind]; rewrite F1, F2; cbn [bind].
  rewrite (Hag "timestamp"), (Hag "status") by discriminate.
  reflexivity.
Qed.

Lemma check_values_amount_error (r : list (pyval * pyval)) (v : pyval) (e : string) :
  dict_get r "amount" = Some v -> py_float v = Raise e -> check_values (VDict r) = Raise e.
Proof.
  intros H F; unfold check_values; cbn [py_getitem bind]; rewrite H; cbn [bind]; rewrite F; reflexivity.
Qed.

(** With every required field present and truthy, [validate_row] is the
    [try] block. *)
Lemma validate_row_all_present (r : list (pyval * pyval)) :
  (forall f, In f required_fields -> exists v, dict_get r f = Some v /\ truthy v = true) ->
  validate_row r = catch_all (check_values (VDict r)).
Proof.
  intros H; unfold validate_row, required_fields.
  repeat match goal with
         | |- context [dict_get r ?f] =>
             let v := fresh "v" in let E := fresh "E" in let T := fresh "T" in
             destruct (H f ltac:(cbn; tauto)) as (v & E & T);
             rewrite E; cbn [negb]; rewrite T; cbn [negb]
         end.
  reflexivity.
Qed.

(** [validate_row] names the first required field that is absent or
    falsy, the required fields before it being present and truthy. *)
Lemma validate_row_first_missing (r : list (pyval * pyval)) (pre post : list string) (f : string) :
  required_fields = (pre ++ f :: post)%list ->
  (forall g, In g pre -> exists v, dict_get r g = Some v /\ truthy v = true) ->
  (dict_get r f = None \/ exists v, dict_get r f = Some v /\ truthy v = false) ->
  validate_row r = Some ("Missing field: " ++ f).
Proof.
  intros Hs Hpre Hf; unfold validate_row; rewrite Hs; clear Hs.
  induction pre as [|g pre IH]; cbn [app]; lazy beta iota fix.
  - destruct Hf as [E|(v & E & T)]; rewrite E; [reflexivity|].
    rewrite T; reflexivity.
  - destruct (Hpre g (or_introl eq_refl)) as (v & E & T); rewrite E, T; cbn [negb].
    apply IH; intros g' Hg'; apply Hpre; right; exact Hg'.
Qed.

Lemma validate_message_all_present (r : list (pyval * pyval)) :
  (forall f, In f required_fields -> exists v, dict_get r f = Some v) ->
  validate_message (VDict r) = Ok (catch_all (check_values (VDict r))).
Proof.
  intros H; unfold validate_message, required_fields; cbn [py_in bind].
  repeat match goal with
         | |- context [dict_get r ?f] =>
             let v := fresh "v" in let E := fresh "E" in
             destruct (H f ltac:(cbn; tauto)) as (v & E);
             rewrite E; cbn [negb bind]
         end.
  reflexivity.
Qed.

(** No error text of the [try] block, nor its [Invalid status] reason,
    starts with an [M]: it is never a [Missing field] reason. *)
Lemma check_values_never_missing (data : pyval) (g : string) :
  catch_all (check_values data) <> Some ("Missing field: " ++ g).
Proof.
  change ("Missing field: " ++ g) with (String "M" ("issing field: " ++ g)).
  generalize ("issing field: " ++ g); intros t.
  unfold check_values, catch_all, py_getitem, py_float, float_of_str, replace_Z,
    DateTime.fromisoformat, DateTime.check_fields.
  cbv zeta.
  repeat (first [ progress cbn [bind]
                | match goal with
                  | |- context [match ?x with _ => _ end] =>
                      lazymatch x with context [match _ with _ => _ end] => fail | _ => destruct x end
                  end ]);
    discriminate.
Qed.

(** C2 (code bug): the two validators do not agree on every record.
    For any record with all seven required keys, one of whose values is
    falsy (an empty string, [None], [0], ...), [validate_row] reports
    [Missing field: f] for the first such field [f], while
    [validate_message] only tests that each key is present: its verdict
    is the [try] block's alone, it never reports a missing field, and so
    it differs from [validate_row]'s. *)
Theorem validators_disagree_on_falsy_field (r : list (pyval * pyval)) (pre post : list string)
    (f : string) (v : pyval) :
  (forall g, In g required_fields -> exists w, dict_get r g = Some w) ->
  required_fields = (pre ++ f :: post)%list ->
  (forall g, In g pre -> exists w, dict_get r g = Some w /\ truthy w = true) ->
  dict_get r f = Some v -> truthy v = false ->
  validate_row r = Some ("Missing field: " ++ f)
  /\ validate_message (VDict r) = Ok (catch_all (check_values (VDict r)))
  /\ (forall g, validate_message (VDict r) <> Ok (Some ("Missing field: " ++ g)))
  /\ validate_message (VDict r) <> Ok (validate_row r).
Proof.
  intros Hall Hs Hpre Hf Hv.
  pose proof (validate_row_first_missing r pre post f Hs Hpre (or_intror (ex_intro _ v (conj Hf Hv)))) as Hr.
  pose proof (validate_message_all_present r Hall) as Hm.
  assert (Hn : forall g, validate_message (VDict r) <> Ok (Some ("Missing field: " ++ g))).
  { intros g E. rewrite Hm in E. injection E as E. exact (check_values_never_missing _ g E). }
  split; [exact Hr|]. split; [exact Hm|]. split; [exact Hn|].
  rewrite Hr. apply Hn.
Qed.

(** [validators_disagree_on_falsy_field] on a record whose
    [transaction_id] is the empty string: the queue validator accepts
    it. *)
Lemma validators_disagree_on_falsy_field_witness :
  validate_row (row_ok "" "100") = Some "Missing field: transaction_id"
  /\ validate_message (VDict (row_ok "" "100")) = Ok None
  /\ validate_message (VDict (row_ok "" "100")) <> Ok (validate_row (row_ok "" "100")).
Proof.
  assert (Hall : forall g, In g required_fields -> exists w, dict_get (row_ok "" "100") g = Some w).
  { intros g Hg; cbn in Hg;
      repeat (destruct Hg as [<-|Hg]; [eexists; reflexivity|]); contradiction. }
  destruct (validators_disagree_on_falsy_field (row_ok "" "100") []
              ["sender_id"; "receiver_id"; "amount"; "currency"; "timestamp"; "status"]
              "transaction_id" (VStr "") Hall eq_refl
              ltac:(intros g []) eq_refl eq_refl) as (Hr & Hm & _ & Hd).
  split; [exact Hr|]. split; [rewrite Hm; vm_compute; reflexivity|exact Hd].
Defined.

(** C10: the amount is judged by Python's [float()] alone.  Two records
    that differ only in their amounts, both non-empty and both accepted
    by [float()], get the same verdict and reason from each validator
    (so no sign, magnitude or finiteness test is made); with all fields
    present, an amount that [float()] refuses makes the record invalid
    with [float()]'s error text. *)
Theorem amount_judged_by_float :
  (forall r1 r2 v1 v2 x1 x2,
      agree_except "amount" r1 r2 ->
      dict_get r1 "amount" = Some v1 -> dict_get r2 "amount" = Some v2 ->
      truthy v1 = true -> truthy v2 = true ->
      py_float v1 = Ok x1 -> py_float v2 = Ok x2 ->
      validate_row r1 = validate_row r2
      /\ validate_message (VDict r1) = validate_message (VDict r2))
  /\ (forall r v e,
      (forall f, In f required_fields -> exists w, dict_get r f = Some w /\ truthy w = true) ->
      dict_get r "amount" = Some v -> py_float v = Raise e ->
      validate_row r = Some e /\ validate_message (VDict r) = Ok (Some e)).
Proof.
  split.
  - intros r1 r2 v1 v2 x1 x2 Hag H1 H2 T1 T2 F1 F2.
    pose proof (check_values_amount_irrelevant r1 r2 v1 v2 x1 x2 Hag H1 H2 F1 F2) as C.
    unfold validate_row, validate_message, required_fields; cbn [py_in bind].
    rewrite C, H1, H2, T1, T2.
    rewrite_agreeing Hag.
    split; reflexivity.
  - intros r v e Hall H F.
    rewrite validate_row_all_present, validate_message_all_present by
      (intros f Hf; destruct (Hall f Hf) as (w & E & _); eauto).
    rewrite (check_values_amount_error r v e H F).
    split; reflexivity.
Qed.

(** [amount_judged_by_float] on records with the amounts [-5] and [inf],
    and on one with the amount [abc]. *)
Lemma amount_judged_by_float_witness :
  (validate_row (row_ok "t" "-5") = validate_row (row_ok "t" "inf")
   /\ validate_message (VDict (row_ok "t" "-5")) = validate_message (VDict (row_ok "t" "inf")))
  /\ (validate_row (row_ok "t" "abc") = Some "could not convert string to float: 'abc'"
      /\ validate_message (VDict (row_ok "t" "abc")) = Ok (Some "could not convert string to float: 'abc'")).
Proof.
  split.
  - apply (proj1 amount_judged_by_float (row_ok "t" "-5") (row_ok "t" "inf")
             (VStr "-5") (VStr "inf") (PFin (-5) 0) (PInf false));
      try reflexivity.
    intros f Hf; cbn [row_ok csv_row dict_get str_eq_val].
    repeat match goal with
           | |- context [String.eqb f ?k] => destruct (String.eqb_spec f k) as [->|?]
           end;
      first [reflexivity | congruence].
  - apply (proj2 amount_judged_by_float (row_ok "t" "abc") (VStr "abc")); try reflexivity.
    intros f Hf; cbn in Hf;
      repeat (destruct Hf as [<-|Hf]; [eexists; split; reflexivity|]); contradiction.
Defined.

(** C10: an amount of [inf] or [nan] passes both validators, and the queue
    path stores a message whose amount is the JSON constant [Infinity]. *)
Lemma non_finite_amounts_accepted :
  validate_row (row_ok "t" "inf") = None
  /\ validate_row (row_ok "t" "nan") = None
  /\ validate_message (VDict (row_ok "t" "-infinity")) = Ok None
  /\ (exists d', callback d0 (message_ok "t" "Infinity")
                 = Ok (d', Accepted, [InsertedTransaction (VStr "t")])
                 /\ map amount (transactions d') = [PInf false]).
Proof. repeat split; try (eexists; split); vm_compute; reflexivity. Qed.

End ValidationFacts.

(** ** Reporting *)
Module ReportingFacts.
Import Reporting Examples ReportingSpec.

(** C4: [get_payments_by_user] called without [db] fails: [Session()]
    has no bind.  Run in a bound session (as the tests arrange) that
    branch excludes a transaction at the end date, which the [db] branch
    includes. *)
Lemma payments_by_user_without_db :
  get_payments_by_user "user1" None None None = Py.Raise unbound_error
  /\ get_payments_by_user_with (Bound [stored_tx]) "user1" None (Some 20210%Z) None = Py.Ok []
  /\ get_payments_by_user "user1" None (Some 20210%Z) (Some [stored_tx]) = Py.Ok [stored_tx].
Proof. repeat split; vm_compute; reflexivity. Qed.

(** C5: [get_daily_totals] called without [db] fails: [Session()] has
    no bind, so even a user with activity gets an exception. *)
Lemma daily_totals_without_db :
  get_daily_totals "user1" None None None = Py.Raise unbound_error.
Proof. vm_compute; reflexivity. Qed.

(** The [db] branch of [get_payments_by_user]: the rows of the user
    within the bounds, both inclusive (each bound a day's midnight),
    each row as often as it is stored, ordered by timestamp. *)
Lemma insert_by_ts_perm (t : Tx) (l : list Tx) : Permutation (insert_by_ts t l) (t :: l).
Proof.
  induction l as [|u l IH]; cbn; [reflexivity|].
  destruct (timestamp t <? timestamp u)%Z; [reflexivity|].
  rewrite IH; apply perm_swap.
Qed.

Lemma order_by_timestamp_perm (l : list Tx) : Permutation (order_by_timestamp l) l.
Proof.
  unfold order_by_timestamp; induction l as [|t l IH]; cbn; [reflexivity|].
  rewrite insert_by_ts_perm, IH; reflexivity.
Qed.

Lemma order_by_timestamp_In (t : Tx) (l : list Tx) : In t (order_by_timestamp l) <-> In t l.
Proof.
  split; apply Permutation_in; [|symmetry]; apply order_by_timestamp_perm.
Qed.

Lemma insert_by_ts_sorted (t : Tx) (l : list Tx) :
  Sorted ts_le l -> Sorted ts_le (insert_by_ts t l).
Proof.
  induction l as [|u l IH]; intros H; cbn; [repeat constructor|].
  destruct (timestamp t <? timestamp u)%Z eqn:E.
  - apply Z.ltb_lt in E; constructor; [exact H | constructor; unfold ts_le; lia].
  - apply Z.ltb_ge in E; inversion H as [|? ? Hl Hd]; subst.
    constructor; [exact (IH Hl)|].
    destruct l as [|w l]; cbn; [constructor; unfold ts_le; lia|].
    destruct (timestamp t <? timestamp w)%Z; constructor; unfold ts_le in *; [lia|].
    inversion Hd; assumption.
Qed.

Lemma order_by_timestamp_sorted (l : list Tx) : Sorted ts_le (order_by_timestamp l).
Proof.
  unfold order_by_timestamp; induction l as [|t l IH]; cbn; [constructor|].
  apply insert_by_ts_sorted, IH.
Qed.

Lemma payments_by_user_with_db (user_id : string) (start_date end_date : option Z) (table : list Tx) :
  exists res,
    get_payments_by_user user_id start_date end_date (Some table) = Py.Ok res
    /\ Sorted ts_le res
    /\ Permutation res (filter (fun t => involves user_id t && opt_filter start_date Z.geb t
                                         && opt_filter end_date Z.leb t) table)
    /\ (forall t, In t res <->
          In t table
          /\ (sender_id t = user_id \/ receiver_id t = user_id)
          /\ (forall d, start_date = Some d -> (midnight d <= timestamp t)%Z)
          /\ (forall d, end_date = Some d -> (timestamp t <= midnight d)%Z)).
Proof.
  eexists; split; [reflexivity|].
  split; [apply order_by_timestamp_sorted|].
  split; [apply order_by_timestamp_perm|].
  intros t; rewrite order_by_timestamp_In, filter_In.
  unfold involves, opt_filter.
  rewrite !andb_true_iff, orb_true_iff, !String.eqb_eq.
  destruct start_date as [a|], end_date as [b|];
    rewrite ?Z.geb_le, ?Z.leb_le; split;
    intros H; repeat match goal with H : _ /\ _ |- _ => destruct H end;
    repeat split; try intros d Hd;
    try match goal with Hd : Some _ = Some _ |- _ => injection Hd as <- end;
    try discriminate; try tauto;
    match goal with H : forall d, Some ?x = Some d -> _ |- _ => exact (H x eq_refl) end.
Qed.

End ReportingFacts.

(** ** The [db] branch of [get_daily_totals] *)
Module ReportingDbFacts.
Import Reporting ReportingSpec.
Local Open Scope Z_scope.

Lemma existsb_Z_false (k : Z) (l : list Z) : existsb (Z.eqb k) l = false -> ~ In k l.
Proof.
  intros H Hin.
  assert (existsb (Z.eqb k) l = true) as Ht
    by (apply existsb_exists; exists k; split; [exact Hin | apply Z.eqb_refl]).
  congruence.
Qed.

Lemma NoDup_snoc (k : Z) (l : list Z) : ~ In k l -> NoDup l -> NoDup ((l ++ [k])%list).
Proof.
  intros Hk Hl; apply Permutation_NoDup with (k :: l); [apply Permutation_cons_append|].
  constructor; assumption.
Qed.

Lemma existsb_Z_In (k : Z) (l : list Z) (d : Z) :
  In d (if existsb (Z.eqb k) l then l else (l ++ [k])%list) <-> d = k \/ In d l.
Proof.
  destruct (existsb (Z.eqb k) l) eqn:E.
  - apply existsb_exists in E as (x & Hx & Hkx); apply Z.eqb_eq in Hkx; subst x.
    split; [tauto|]; intros [->|H]; assumption.
  - rewrite in_app_iff; cbn; split; intros; intuition congruence.
Qed.

Lemma existsb_Z_NoDup (k : Z) (l : list Z) :
  NoDup l -> NoDup (if existsb (Z.eqb k) l then l else (l ++ [k])%list).
Proof.
  intros H; destruct (existsb (Z.eqb k) l) eqn:E; [exact H|].
  apply NoDup_snoc; [apply existsb_Z_false, E | exact H].
Qed.

Lemma add_to_day_keys (k a : Z) (acc : list (Z * Z)) :
  map fst (add_to_day k a acc) = if existsb (Z.eqb k) (map fst acc) then map fst acc else (map fst acc ++ [k])%list.
Proof.
  induction acc as [|[d s] r IH]; cbn; [reflexivity|].
  destruct (Z.eqb_spec d k) as [->|Hne]; cbn.
  - rewrite Z.eqb_refl; reflexivity.
  - destruct (Z.eqb_spec k d); [congruence|]; cbn; rewrite IH.
    destruct (existsb (Z.eqb k) (map fst r)); reflexivity.
Qed.

Lemma add_to_day_value (k a d : Z) (acc : list (Z * Z)) :
  get_or_zero (day_lookup d (add_to_day k a acc))
  = get_or_zero (day_lookup d acc) + (if k =? d then a else 0).
Proof.
  induction acc as [|[d' s] r IH]; cbn.
  - destruct (k =? d); cbn; lia.
  - destruct (Z.eqb_spec d' k) as [->|Hne]; cbn.
    + destruct (k =? d); cbn; lia.
    + destruct (Z.eqb_spec d' d) as [->|Hne']; cbn.
      * destruct (Z.eqb_spec k d); [congruence|]; lia.
      * exact IH.
Qed.

Lemma group_fold_keys (rows : list Tx) (acc : list (Z * Z)) :
  NoDup (map fst acc) ->
  NoDup (map fst (fold_left group_step rows acc))
  /\ forall d, In d (map fst (fold_left group_step rows acc))
               <-> In d (map fst acc) \/ exists t, In t rows /\ date_of (timestamp t) = d.
Proof.
  revert acc; induction rows as [|t rows IH]; intros acc Hacc; cbn.
  - split; [exact Hacc|]; intros d; split; [tauto|]; intros [H|(t & [] & _)]; exact H.
  - destruct (IH (group_step acc t)) as [Hn Hk].
    { unfold group_step; rewrite add_to_day_keys; apply existsb_Z_NoDup, Hacc. }
    split; [exact Hn|]; intros d; rewrite Hk; unfold group_step; rewrite add_to_day_keys, existsb_Z_In.
    split.
    + intros [[->|H]|(u & Hu & Hd)]; [right; exists t; tauto | tauto | right; exists u; tauto].
    + intros [H|(u & [->|Hu] & Hd)]; [tauto | left; left; congruence | right; exists u; tauto].
Qed.

Lemma day_sum_cons (t : Tx) (rows : list Tx) (d : Z) :
  day_sum (t :: rows) d = (if date_of (timestamp t) =? d then amount t else 0) + day_sum rows d.
Proof. reflexivity. Qed.

Lemma group_fold_value (rows : list Tx) (acc : list (Z * Z)) (d : Z) :
  get_or_zero (day_lookup d (fold_left group_step rows acc))
  = get_or_zero (day_lookup d acc) + day_sum rows d.
Proof.
  revert acc; induction rows as [|t rows IH]; intros acc; cbn [fold_left]; [cbn; lia|].
  rewrite IH, day_sum_cons; unfold group_step; rewrite add_to_day_value; lia.
Qed.

Lemma group_sum_by_day_fold (rows : list Tx) : group_sum_by_day rows = fold_left group_step rows [].
Proof. reflexivity. Qed.

Lemma setdefault_update_keys (k : Z) (f : entry -> entry) (m : list (Z * entry)) :
  map fst (setdefault_update k f m)
  = if existsb (Z.eqb k) (map fst m) then map fst m else (map fst m ++ [k])%list.
Proof.
  induction m as [|[d e] r IH]; cbn; [reflexivity|].
  destruct (Z.eqb_spec d k) as [->|Hne]; cbn.
  - rewrite Z.eqb_refl; reflexivity.
  - destruct (Z.eqb_spec k d); [congruence|]; cbn; rewrite IH.
    destruct (existsb (Z.eqb k) (map fst r)); reflexivity.
Qed.

Lemma setdefault_update_lookup (k d : Z) (f : entry -> entry) (m : list (Z * entry)) :
  lookup_entry d (setdefault_update k f m)
  = if k =? d then f (lookup_entry d m) else lookup_entry d m.
Proof.
  induction m as [|[d' e] r IH]; cbn; [reflexivity|].
  destruct (Z.eqb_spec d' k) as [->|Hne]; cbn.
  - destruct (k =? d); reflexivity.
  - destruct (Z.eqb_spec d' d) as [->|Hne']; cbn.
    + destruct (Z.eqb_spec k d); [congruence|reflexivity].
    + exact IH.
Qed.

Lemma day_lookup_not_in (d : Z) (l : list (Z * Z)) : ~ In d (map fst l) -> day_lookup d l = None.
Proof.
  induction l as [|[k v] r IH]; cbn; intros H; [reflexivity|].
  destruct (Z.eqb_spec k d); [tauto|]; apply IH; tauto.
Qed.

Lemma sent_fold_lookup (l : list (Z * Z)) (m : list (Z * entry)) (d : Z) :
  NoDup (map fst l) ->
  lookup_entry d (fold_left sent_step l m)
  = (match day_lookup d l with Some v => Some v | None => fst (lookup_entry d m) end,
     snd (lookup_entry d m)).
Proof.
  revert m; induction l as [|[k v] r IH]; intros m Hn; cbn.
  - destruct (lookup_entry d m); reflexivity.
  - inversion Hn as [|? ? Hk Hr]; subst.
    rewrite (IH _ Hr); unfold sent_step; cbn [fst snd]; rewrite setdefault_update_lookup.
    destruct (Z.eqb_spec k d) as [->|Hne]; cbn.
    + rewrite (day_lookup_not_in d r Hk); reflexivity.
    + reflexivity.
Qed.

Lemma received_fold_lookup (l : list (Z * Z)) (m : list (Z * entry)) (d : Z) :
  NoDup (map fst l) ->
  lookup_entry d (fold_left received_step l m)
  = (fst (lookup_entry d m),
     match day_lookup d l with Some v => Some v | None => snd (lookup_entry d m) end).
Proof.
  revert m; induction l as [|[k v] r IH]; intros m Hn; cbn.
  - destruct (lookup_entry d m); reflexivity.
  - inversion Hn as [|? ? Hk Hr]; subst.
    rewrite (IH _ Hr); unfold received_step; cbn [fst snd]; rewrite setdefault_update_lookup.
    destruct (Z.eqb_spec k d) as [->|Hne]; cbn.
    + rewrite (day_lookup_not_in d r Hk); reflexivity.
    + reflexivity.
Qed.

Lemma setdefault_fold_keys (g : Z -> entry -> entry) (l : list (Z * Z)) (m : list (Z * entry)) :
  NoDup (map fst m) ->
  NoDup (map fst (fold_left (fun m p => setdefault_update (fst p) (g (snd p)) m) l m))
  /\ forall d, In d (map fst (fold_left (fun m p => setdefault_update (fst p) (g (snd p)) m) l m))
               <-> In d (map fst m) \/ In d (map fst l).
Proof.
  revert m; induction l as [|[k v] r IH]; intros m Hm; cbn.
  - split; [exact Hm | tauto].
  - destruct (IH (setdefault_update k (g v) m)) as [Hn Hk].
    { rewrite setdefault_update_keys; apply existsb_Z_NoDup, Hm. }
    split; [exact Hn|]; intros d; rewrite Hk, setdefault_update_keys, existsb_Z_In.
    split; intros; intuition congruence.
Qed.

Lemma sent_fold_eq (l : list (Z * Z)) (m : list (Z * entry)) :
  fold_left (fun m '(d, v) => setdefault_update d (set_sent v) m) l m = fold_left sent_step l m.
Proof. revert m; induction l as [|[d v] r IH]; intros m; cbn; [reflexivity | apply IH]. Qed.

Lemma received_fold_eq (l : list (Z * Z)) (m : list (Z * entry)) :
  fold_left (fun m '(d, v) => setdefault_update d (set_received v) m) l m = fold_left received_step l m.
Proof. revert m; induction l as [|[d v] r IH]; intros m; cbn; [reflexivity | apply IH]. Qed.

Lemma insert_Z_perm (x : Z) (l : list Z) : Permutation (insert_Z x l) (x :: l).
Proof.
  induction l as [|y l IH]; cbn; [reflexivity|].
  destruct (x <=? y); [reflexivity|].
  rewrite IH; apply perm_swap.
Qed.

Lemma sorted_keys_perm (m : list (Z * entry)) : Permutation (sorted_keys m) (map fst m).
Proof.
  unfold sorted_keys; induction (map fst m) as [|x l IH]; cbn; [reflexivity|].
  rewrite insert_Z_perm, IH; reflexivity.
Qed.

Lemma insert_Z_sorted (x : Z) (l : list Z) : Sorted Z.le l -> Sorted Z.le (insert_Z x l).
Proof.
  induction l as [|y l IH]; intros H; cbn; [repeat constructor|].
  destruct (Z.leb_spec x y).
  - constructor; [exact H | constructor; assumption].
  - inversion H as [|? ? Hl Hd]; subst.
    constructor; [exact (IH Hl)|].
    destruct l as [|w l]; cbn; [constructor; lia|].
    destruct (x <=? w); constructor; [lia|].
    inversion Hd; assumption.
Qed.

Lemma sorted_keys_sorted (m : list (Z * entry)) : Sorted Z.le (sorted_keys m).
Proof.
  unfold sorted_keys; induction (map fst m) as [|x l IH]; cbn; [constructor|].
  apply insert_Z_sorted, IH.
Qed.

Lemma merge_totals_steps (sent received : list (Z * Z)) :
  merge_totals sent received
  = map (fun d => mkDailyTotal d
                    (get_or_zero (fst (lookup_entry d (fold_left received_step received (fold_left sent_step sent [])))))
                    (get_or_zero (snd (lookup_entry d (fold_left received_step received (fold_left sent_step sent []))))))
        (sorted_keys (fold_left received_step received (fold_left sent_step sent []))).
Proof.
  unfold merge_totals; cbv zeta; rewrite sent_fold_eq, received_fold_eq; reflexivity.
Qed.

(** [get_daily_totals] with [db]: one entry per day on which the user
    sent or received (within the bounds, end exclusive), in increasing
    order of day, with the sums of that day's sent and received
    amounts. *)
Lemma daily_totals_with_db (user_id : string) (start_date end_date : option Z) (table : list Tx) :
  exists res,
    get_daily_totals user_id start_date end_date (Some table) = Py.Ok res
    /\ Sorted Z.le (map day res) /\ NoDup (map day res)
    /\ (forall d, In d (map day res) <->
          exists t, (In t (sent_rows user_id start_date end_date table)
                     \/ In t (received_rows user_id start_date end_date table))
                    /\ date_of (timestamp t) = d)
    /\ (forall r, In r res ->
          total_sent r = day_sum (sent_rows user_id start_date end_date table) (day r)
          /\ total_received r = day_sum (received_rows user_id start_date end_date table) (day r)).
Proof.
  set (srows := sent_rows user_id start_date end_date table).
  set (rrows := received_rows user_id start_date end_date table).
  exists (merge_totals (group_sum_by_day srows) (group_sum_by_day rrows)).
  split; [reflexivity|].
  rewrite merge_totals_steps, !group_sum_by_day_fold.
  set (gs := fold_left group_step srows []).
  set (gr := fold_left group_step rrows []).
  set (T := fold_left received_step gr (fold_left sent_step gs [])).
  destruct (group_fold_keys srows [] (NoDup_nil _)) as [Hgs Kgs].
  destruct (group_fold_keys rrows [] (NoDup_nil _)) as [Hgr Kgr].
  fold gs in Hgs, Kgs; fold gr in Hgr, Kgr.
  destruct (setdefault_fold_keys set_sent gs [] (NoDup_nil _)) as [H1 K1].
  destruct (setdefault_fold_keys set_received gr _ H1) as [HT KT].
  change (fold_left (fun m p => setdefault_update (fst p) (set_sent (snd p)) m) gs [])
    with (fold_left sent_step gs []) in H1, K1, HT, KT.
  change (fold_left (fun m p => setdefault_update (fst p) (set_received (snd p)) m) gr
            (fold_left sent_step gs [])) with T in HT, KT.
  assert (Hmap : forall l : list Z,
             map day (map (fun d => mkDailyTotal d (get_or_zero (fst (lookup_entry d T)))
                                      (get_or_zero (snd (lookup_entry d T)))) l) = l).
  { induction l as [|x l IH]; cbn; [reflexivity | rewrite IH; reflexivity]. }
  rewrite Hmap.
  split; [apply sorted_keys_sorted|].
  split; [apply (Permutation_NoDup (Permutation_sym (sorted_keys_perm T)) HT)|].
  split.
  - intros d; split.
    + intros Hd; apply (Permutation_in _ (sorted_keys_perm T)), KT in Hd.
      destruct Hd as [Hd|Hd]; [apply K1 in Hd as [[]|Hd]; apply Kgs in Hd | apply Kgr in Hd];
        (destruct Hd as [[]|(t & Ht & Htd)]); exists t; tauto.
    + intros (t & [Ht|Ht] & Htd); apply (Permutation_in _ (Permutation_sym (sorted_keys_perm T))), KT.
      * left; apply K1; right; apply Kgs; right; exists t; tauto.
      * right; apply Kgr; right; exists t; tauto.
  - intros r Hr; apply in_map_iff in Hr as (d & <- & _); cbn [day total_sent total_received].
    unfold T; rewrite received_fold_lookup, sent_fold_lookup by assumption; cbn [lookup_entry fst snd].
    pose proof (group_fold_value srows [] d) as Vs; pose proof (group_fold_value rrows [] d) as Vr.
    fold gs in Vs; fold gr in Vr; cbn [day_lookup get_or_zero] in Vs, Vr.
    destruct (day_lookup d gs), (day_lookup d gr); cbn in *; split; lia.
Qed.

End ReportingDbFacts.

(** ** Failures during ingestion *)
Module FailureFacts.
Import Py Models Ingest Examples.

(** C6: a body that is not UTF-8 makes [callback] raise: [json.loads]
    fails to decode it, and the handler's own [body.decode()] fails
    again.  In a csv file, one line with a Latin-1 byte ends the whole
    run with an exception, and the well-formed lines around it are not
    stored. *)
Lemma malformed_input_raises :
  callback d0 (String (chr 255) EmptyString)
    = Raise "'utf-8' codec can't decode byte 0xff in position 0: invalid start byte"
  /\ import_csv (header ++ line_ok "tx1" "5" ++ line_latin1 ++ line_ok "tx3" "5") d0
    = Raise "'utf-8' codec can't decode byte 0xe9 in position 130: invalid continuation byte".
Proof. split; vm_compute; reflexivity. Qed.

(** C9: the queue path logs no suspicious signal: a message with amount
    25000 is stored and reported only as inserted, while the csv path
    reports the same record as suspicious. *)
Lemma queue_path_no_suspicious_signal :
  (exists d', callback d0 (message_ok "tx1" "25000")
              = Ok (d', Accepted, [InsertedTransaction (VStr "tx1")]))
  /\ (exists d', import_csv (header ++ line_ok "tx1" "25000") d0
                 = Ok (d', [Accepted], [SuspiciousTransaction (VStr "tx1") (VStr "25000"); ImportComplete])).
Proof. split; eexists; vm_compute; reflexivity. Qed.

End FailureFacts.

(** ** The session and the duplicate check *)
Module StoreFacts.
Import Py Models Store Validation Ingest.

Lemma bind_ok {A B} (m : exc A) (k : A -> exc B) (b : B) :
  bind m k = Ok b -> exists a, m = Ok a /\ k a = Ok b.
Proof. destruct m as [a|e]; cbn; [eauto | discriminate]. Qed.

Ltac inv_binds :=
  repeat match goal with
         | H : bind _ _ = Ok _ |- _ =>
             let a := fresh "a" in let E := fresh "E" in
             apply bind_ok in H; destruct H as (a & E & H)
         end.





(** A successful insert: the key is a fresh string and the row is appended. *)
Lemma insert_transaction_row_ok (d d' : db) (t : Transaction) :
  insert_transaction_row d t = Ok d' ->
  exists k, id t = VStr k
            /\ text_error k = None
            /\ existsb (same_id (id t)) (transactions d) = false
            /\ d' = mkDB (users d) (currencies d) (transactions d ++ [t]) (rejected_records d).
Proof.
  unfold insert_transaction_row.
  destruct (params_error _) eqn:Ep; [discriminate|].
  destruct (id t) eqn:Eid; try discriminate.
  cbn [params_error] in Ep; destruct (text_error s) eqn:Et; [discriminate|].
  destruct (existsb (same_id (VStr s)) (transactions d)) eqn:Ex; [discriminate|].
  destruct (_ && _ && _); [|discriminate].
  intros H; injection H as <-; eauto.
Qed.





End StoreFacts.

(** ** A csv run with a failing write *)
Module BatchFacts.
Import Py Models Store Validation Ingest.










End BatchFacts.

(** ** What is quarantined *)
Module QuarantineFacts.
Import Py Models Store Validation Ingest.

Lemma insert_transaction_row_rej (w w' : db) (t : Transaction) :
  insert_transaction_row w t = Ok w' -> rejected_records w' = rejected_records w.
Proof.
  intros H; destruct (StoreFacts.insert_transaction_row_ok _ _ _ H) as (k & _ & _ & _ & ->).
  reflexivity.
Qed.

Lemma insert_rejected_row_rej (w w' : db) (r : RejectedRecord) :
  insert_rejected_row w r = Ok w' -> rejected_records w' = (rejected_records w ++ [r])%list.
Proof.
  unfold insert_rejected_row; destruct (params_error _); [discriminate|].
  intros H; injection H as <-; reflexivity.
Qed.

Lemma flush_objs_rej (w w' : db) (os : list obj) :
  flush_objs w os = Ok w' -> rejected_records w' = (rejected_records w ++ rej_of_objs os)%list.
Proof.
  revert w; induction os as [|o os IH]; intros w H; cbn [flush_objs rej_of_objs flat_map] in *.
  - injection H as <-; rewrite app_nil_r; reflexivity.
  - destruct o as [t|r]; cbn [app].
    + destruct (insert_transaction_row w t) as [w1|e] eqn:Ei; cbn [bind] in H; [|discriminate].
      rewrite (IH _ H), (insert_transaction_row_rej _ _ _ Ei); reflexivity.
    + destruct (insert_rejected_row w r) as [w1|e] eqn:Ei; cbn [bind] in H; [|discriminate].
      rewrite (IH _ H), (insert_rejected_row_rej _ _ _ Ei), <- app_assoc; reflexivity.
Qed.

Lemma flush_rej (s s' : session) : flush s = Ok s' -> rej_view s' = rej_view s.
Proof.
  unfold flush, rej_view.
  destruct (flush_objs (work s) (pending s)) as [w|e] eqn:E; cbn [bind]; [|discriminate].
  intros H; injection H as <-; cbn [work pending rej_of_objs flat_map].
  rewrite app_nil_r; exact (flush_objs_rej _ _ _ E).
Qed.

Lemma add_rej (s : session) (o : obj) : rej_view (add s o) = (rej_view s ++ rej_of_objs [o])%list.
Proof.
  unfold rej_view, add, rej_of_objs; cbn [work pending].
  rewrite flat_map_app, app_assoc; reflexivity.
Qed.

Lemma get_transaction_rej (s s' : session) (k : pyval) (f : option Transaction) :
  get_transaction s k = Ok (f, s') -> rej_view s' = rej_view s.
Proof.
  unfold get_transaction.
  destruct (flush s) as [s1|e] eqn:Ef; cbn [bind]; [|discriminate].
  destruct k; try discriminate; try (destruct (text_error _); [discriminate|]);
    intros H; injection H as _ <-; exact (flush_rej _ _ Ef).
Qed.

Lemma csv_step_rej (s s1 : session) (row : list (pyval * pyval)) (o : outcome) (ev : list event) :
  csv_step s row = Ok (o, s1, ev) -> rej_view s1 = (rej_view s ++ csv_rejects [row])%list.
Proof.
  unfold csv_step, csv_rejects; cbn [flat_map].
  destruct (validate_row row) as [error|] eqn:Hv.
  - intros H; injection H as _ <- _; rewrite add_rej, app_nil_r; reflexivity.
  - rewrite app_nil_r; intros H.
    destruct (py_getitem (VDict row) "transaction_id") as [tid|e]; cbn [bind] in H; [|discriminate].
    destruct (get_transaction s tid) as [[found s2]|e] eqn:Eg; cbn [bind] in H; [|discriminate].
    rewrite <- (get_transaction_rej _ _ _ _ Eg).
    destruct found as [t|].
    + injection H as _ <- _; reflexivity.
    + StoreFacts.inv_binds; injection H as _ <- _.
      rewrite add_rej; cbn [rej_of_objs flat_map]; rewrite !app_nil_r; reflexivity.
Qed.

Lemma csv_loop_rej (s s2 : session) (rows : list (list (pyval * pyval))) (err : option string)
      (os : list outcome) (ev : list event) :
  csv_loop s rows err = Ok (s2, os, ev) -> rej_view s2 = (rej_view s ++ csv_rejects rows)%list.
Proof.
  revert s os ev; induction rows as [|row rows IH]; intros s os ev H; cbn [csv_loop] in H.
  - destruct err; [discriminate|]; injection H as <- _ _.
    cbn; rewrite app_nil_r; reflexivity.
  - destruct (csv_step s row) as [[[o s1] ev1]|e] eqn:Es; cbn [bind] in H; [|discriminate].
    destruct (csv_loop s1 rows err) as [[[s3 os3] ev3]|e] eqn:El; cbn [bind] in H; [|discriminate].
    injection H as <- _ _.
    rewrite (IH _ _ _ El), (csv_step_rej _ _ _ _ _ Es), <- app_assoc.
    unfold csv_rejects; cbn [flat_map]; rewrite app_nil_r; reflexivity.
Qed.

Lemma commit_rej (s : session) (d' : db) : commit s = Ok d' -> rejected_records d' = rej_view s.
Proof.
  unfold commit; destruct (flush s) as [s'|e] eqn:Ef; cbn [bind]; [|discriminate].
  intros H; injection H as <-.
  rewrite <- (flush_rej _ _ Ef).
  unfold flush in Ef; destruct (flush_objs (work s) (pending s)); cbn [bind] in Ef; [|discriminate].
  injection Ef as <-; unfold rej_view; cbn; rewrite app_nil_r; reflexivity.
Qed.

Lemma decode_same (body payload : string) : Utf8.decode body = Ok payload -> payload = body.
Proof.
  unfold Utf8.decode; destruct (Utf8.check_from _ _ _ _); [discriminate|].
  intros H; injection H as <-; reflexivity.
Qed.

Lemma save_rejected_record_rej (d d' : db) (reason payload source : string) :
  save_rejected_record d reason payload source = Ok d' ->
  rejected_records d' = (rejected_records d ++ [mkRejectedRecord reason payload source])%list.
Proof.
  unfold save_rejected_record; intros H.
  rewrite (commit_rej _ _ H), add_rej.
  unfold rej_view; cbn; rewrite app_nil_r; reflexivity.
Qed.

Lemma insert_transaction_rej (d d' : db) (data : pyval) (o : outcome) (ev : list event) :
  insert_transaction d data = Ok (d', o, ev) -> o <> Quarantined /\ rejected_records d' = rejected_records d.
Proof.
  unfold insert_transaction; intros H.
  destruct (py_getitem data "transaction_id") as [tid|e]; cbn [bind] in H; [|discriminate].
  destruct (get_transaction (open_session d) tid) as [[found s1]|e] eqn:Eg; cbn [bind] in H; [|discriminate].
  destruct found as [t|].
  - injection H as <- <- _; split; [discriminate | reflexivity].
  - StoreFacts.inv_binds; injection H as <- <- _; split; [discriminate|].
    rewrite (commit_rej _ _ E0), add_rej, (get_transaction_rej _ _ _ _ Eg).
    unfold rej_view; cbn; rewrite !app_nil_r; reflexivity.
Qed.

(** C8 (amended): on the csv path, a successful run adds to
    [rejected_records] exactly one record per row the validator refuses,
    in order, with that reason, the payload [str(row)] (the repr of the
    dict [csv.DictReader] made, not the line of the file) and the source
    [csv].  On the queue path, a quarantined message adds one record whose
    payload is the body byte for byte and whose source is [queue]; a
    message that is not quarantined adds none. *)
Theorem rejected_record_payloads :
  (forall (file : string) (d : db) (text : string) (rows : list (list (pyval * pyval)))
          (err : option string) (d' : db) (os : list outcome) (ev : list event),
      Utf8.decode file = Ok text ->
      Csv.dict_rows text = (rows, err) ->
      import_csv file d = Ok (d', os, ev) ->
      rejected_records d' = (rejected_records d ++ csv_rejects rows)%list)
  /\ (forall (d : db) (body : string) (d' : db) (o : outcome) (ev : list event),
      callback d body = Ok (d', o, ev) ->
      (o = Quarantined
       /\ exists reason, rejected_records d'
                         = (rejected_records d ++ [mkRejectedRecord reason body "queue"])%list)
      \/ (o <> Quarantined /\ rejected_records d' = rejected_records d)).
Proof.
  split.
  - intros file d text rows err d' os ev Hd Hr H.
    unfold import_csv in H; rewrite Hd in H; cbn [bind] in H; rewrite Hr in H.
    destruct (csv_loop (open_session d) rows err) as [[[s os1] ev1]|e] eqn:El;
      cbn [bind] in H; [|discriminate].
    destruct (commit s) as [d1|e] eqn:Ec; cbn [bind] in H; [|discriminate].
    injection H as <- _ _.
    rewrite (commit_rej _ _ Ec), (csv_loop_rej _ _ _ _ _ _ El).
    unfold rej_view; cbn; rewrite app_nil_r; reflexivity.
  - intros d body d' o ev H.
    unfold callback in H; cbv zeta in H.
    lazymatch type of H with
    | match ?a with Ok _ => _ | Raise _ => _ end = _ => destruct a as [[[d1 o1] ev1]|e] eqn:Ea
    end.
    + injection H as -> -> ->.
      StoreFacts.inv_binds.
      destruct a0 as [error|].
      * StoreFacts.inv_binds; injection Ea as <- <- _.
        left; split; [reflexivity|]; exists error.
        rewrite (decode_same _ _ E1) in E2; exact (save_rejected_record_rej _ _ _ _ _ E2).
      * right; exact (insert_transaction_rej _ _ _ _ _ Ea).
    + StoreFacts.inv_binds; injection H as <- <- _.
      left; split; [reflexivity|]; exists e.
      rewrite (decode_same _ _ E) in E0; exact (save_rejected_record_rej _ _ _ _ _ E0).
Qed.

(** [rejected_record_payloads] on a file with a row whose amount is
    [not_a_number], and on a message whose amount is the string [abc]. *)
Lemma rejected_record_payloads_witness :
  match import_csv (Examples.header ++ Examples.line_ok "tx1" "not_a_number") Examples.d0 with
  | Ok (d', _, _) =>
      rejected_records d'
      = (rejected_records Examples.d0 ++ csv_rejects [Examples.row_ok "tx1" "not_a_number"])%list
  | Raise _ => False
  end
  /\ match callback Examples.d0 (Examples.message_ok "tx1" (Examples.jstr "abc")) with
     | Ok (d', o, _) =>
         (o = Quarantined
          /\ exists reason, rejected_records d'
                            = (rejected_records Examples.d0
                               ++ [mkRejectedRecord reason (Examples.message_ok "tx1" (Examples.jstr "abc")) "queue"])%list)
         \/ (o <> Quarantined /\ rejected_records d' = rejected_records Examples.d0)
     | Raise _ => False
     end.
Proof.
  split.
  - eval_as (import_csv (Examples.header ++ Examples.line_ok "tx1" "not_a_number") Examples.d0) Hi.
    rewrite Hi.
    lazymatch type of Hi with
    | _ = Ok (?d', ?os, ?ev) =>
        apply (proj1 rejected_record_payloads
                 (Examples.header ++ Examples.line_ok "tx1" "not_a_number") Examples.d0
                 (Examples.header ++ Examples.line_ok "tx1" "not_a_number")
                 [Examples.row_ok "tx1" "not_a_number"] None d' os ev);
        [vm_compute; exact eq_refl | vm_compute; exact eq_refl | exact Hi]
    end.
  - eval_as (callback Examples.d0 (Examples.message_ok "tx1" (Examples.jstr "abc"))) Hc.
    rewrite Hc.
    lazymatch type of Hc with
    | _ = Ok (?d', ?o, ?ev) =>
        apply (proj2 rejected_record_payloads
                 Examples.d0 (Examples.message_ok "tx1" (Examples.jstr "abc")) d' o ev);
        exact Hc
    end.
Defined.

(** C8: the csv payload is not the raw record: a row refused for its
    amount is stored with the repr of its dict, which differs from its
    line in the file. *)
Lemma csv_payload_is_dict_repr :
  exists d' ev,
    import_csv (Examples.header ++ Examples.line_ok "tx1" "not_a_number") Examples.d0
      = Ok (d', [Quarantined], ev)
    /\ map payload (rejected_records d')
       = ["{'transaction_id': 'tx1', 'sender_id': 'user1', 'receiver_id': 'user2', 'amount': 'not_a_number', 'currency': 'USD', 'timestamp': '2025-05-01T12:00:00Z', 'status': 'completed'}"]
    /\ map payload (rejected_records d') <> [Examples.line_ok "tx1" "not_a_number"]
    /\ map payload (rejected_records d') <> ["tx1,user1,user2,not_a_number,USD,2025-05-01T12:00:00Z,completed"].
Proof.
  do 2 eexists; split; [eval_eq|].
  split; [vm_compute; exact eq_refl|].
  split; vm_compute; congruence.
Qed.

End QuarantineFacts.

(** ** Ingestion: validation, building and quarantine *)

Module IngestExtras.
Import Py DateTime Models Store Validation Ingest IngestSpec.
Lemma bind_ok_ex {A B} (m : exc A) (k : A -> exc B) (b : B) :
  bind m k = Ok b -> exists a, m = Ok a /\ k a = Ok b.
Proof. destruct m as [a|e]; cbn; [eauto | discriminate]. Qed.

Ltac inv_ok :=
  repeat match goal with
         | H : bind _ _ = Ok _ |- _ =>
             let a := fresh "a" in let E := fresh "E" in
             apply bind_ok_ex in H; destruct H as (a & E & H)
         end.

(** The [try] block passes exactly when the amount converts, the
    timestamp parses and the status is one of the three values. *)
Lemma check_values_ok (data : pyval) :
  check_values data = Ok None <->
  (exists a x, py_getitem data "amount" = Ok a /\ py_float a = Ok x)
  /\ (exists t t' dt, py_getitem data "timestamp" = Ok t /\ replace_Z t = Ok t'
                      /\ fromisoformat t' = Ok dt)
  /\ (py_getitem data "status" = Ok (VStr "pending")
      \/ py_getitem data "status" = Ok (VStr "completed")
      \/ py_getitem data "status" = Ok (VStr "failed")).
Proof.
  unfold check_values; split.
  - intros H; inv_ok.
    destruct (existsb _ status_values) eqn:Es; cbn [negb] in H; [|discriminate].
    split; [eauto|]; split; [eauto 7|].
    rewrite E4; destruct a4 as [| | | | s | |];
      try (cbn [existsb status_values map value str_eq_val orb] in Es; discriminate).
    destruct (String.eqb_spec "pending" s) as [<-|N1]; [left; reflexivity|].
    destruct (String.eqb_spec "completed" s) as [<-|N2]; [right; left; reflexivity|].
    destruct (String.eqb_spec "failed" s) as [<-|N3]; [right; right; reflexivity|].
    exfalso; cbn [existsb status_values map value str_eq_val] in Es.
    apply String.eqb_neq in N1, N2, N3; rewrite N1, N2, N3 in Es; discriminate.
  - intros ((a & x & Ha & Hx) & (t & t' & dt & Ht & Ht' & Hdt) & Hs).
    rewrite Ha; cbn [bind]; rewrite Hx; cbn [bind]; rewrite Ht; cbn [bind]; rewrite Ht'; cbn [bind].
    rewrite Hdt; cbn [bind].
    destruct Hs as [Hs|[Hs|Hs]]; rewrite Hs; reflexivity.
Qed.

Lemma catch_all_none (r : exc (option string)) : catch_all r = None <-> r = Ok None.
Proof. destruct r as [[e|]|e]; cbn; split; congruence. Qed.

Ltac walk_fields H :=
  repeat match type of H with
         | context [dict_get ?row ?f] =>
             let v := fresh "v" in let E := fresh "E" in let T := fresh "T" in
             destruct (dict_get row f) as [v|] eqn:E; [|discriminate];
             try (destruct (truthy v) eqn:T; cbn [negb] in H; [|discriminate])
         end.

Lemma validate_row_none_iff (row : list (pyval * pyval)) :
  validate_row row = None <->
  (forall f, In f required_fields -> exists v, dict_get row f = Some v /\ truthy v = true)
  /\ check_values (VDict row) = Ok None.
Proof.
  split.
  - intros H; unfold validate_row, required_fields in H; walk_fields H.
    split; [|apply catch_all_none, H].
    intros f Hf; cbn in Hf.
    repeat (destruct Hf as [<-|Hf]; [eauto|]); destruct Hf.
  - intros [Hall Hc]; rewrite (ValidationFacts.validate_row_all_present row Hall).
    apply catch_all_none, Hc.
Qed.

Lemma validate_message_dict_none_iff (kv : list (pyval * pyval)) :
  validate_message (VDict kv) = Ok None <->
  (forall f, In f required_fields -> exists v, dict_get kv f = Some v)
  /\ check_values (VDict kv) = Ok None.
Proof.
  unfold validate_message, required_fields; cbn [py_in bind]; split.
  - intros H; walk_fields H.
    injection H as H; split; [|apply catch_all_none, H].
    intros f Hf; cbn in Hf.
    repeat (destruct Hf as [<-|Hf]; [eauto|]); destruct Hf.
  - intros [Hall Hc].
    repeat match goal with
           | |- context [dict_get kv ?f] =>
               let v := fresh "v" in let E := fresh "E" in
               destruct (Hall f ltac:(cbn; tauto)) as (v & E); rewrite E; cbn [negb]
           end.
    rewrite Hc; reflexivity.
Qed.

Lemma validate_message_non_dict_ok (data : pyval) :
  (forall kv, data <> VDict kv) -> validate_message data <> Ok None.
Proof.
  intros Hd; unfold validate_message, required_fields.
  destruct data as [| | | | s | l | kv]; cbn [py_in bind]; try discriminate;
    [| | exact (False_ind _ (Hd kv eq_refl))];
    repeat match goal with
           | |- context [if negb ?b then _ else _] => destruct b; cbn [negb]; [|discriminate]
           end; cbn; discriminate.
Qed.


Lemma build_transaction_checked (data : pyval) :
  (forall f, In f required_fields -> exists v, py_getitem data f = Ok v) ->
  check_values data = Ok None ->
  exists tx, build_transaction data = Ok tx /\ built_from data tx.
Proof.
  intros Hall Hc; apply check_values_ok in Hc.
  destruct Hc as ((a & x & Ha & Hx) & (t & t' & dt & Ht & Ht' & Hdt) & Hs).
  destruct (Hall "transaction_id" ltac:(cbn; tauto)) as (tid & Htid).
  destruct (Hall "sender_id" ltac:(cbn; tauto)) as (snd & Hsnd).
  destruct (Hall "receiver_id" ltac:(cbn; tauto)) as (rcv & Hrcv).
  destruct (Hall "currency" ltac:(cbn; tauto)) as (cur & Hcur).
  unfold build_transaction.
  rewrite Htid, Hsnd, Hrcv, Ha; cbn [bind]; rewrite Hx; cbn [bind].
  rewrite Hcur, Ht; cbn [bind]; rewrite Ht'; cbn [bind]; rewrite Hdt; cbn [bind].
  destruct Hs as [Hs|[Hs|Hs]]; rewrite Hs; cbn [bind TransactionStatus_of];
    (eexists; split; [reflexivity|]);
    unfold built_from; cbn [id sender_id receiver_id amount currency timestamp status value];
    repeat split; eauto.
Qed.

Lemma validated_row_builds_ok (row : list (pyval * pyval)) :
  validate_row row = None ->
  exists tx, build_transaction (VDict row) = Ok tx /\ built_from (VDict row) tx.
Proof.
  intros H; apply validate_row_none_iff in H as [Hall Hc].
  apply build_transaction_checked; [|exact Hc].
  intros f Hf; destruct (Hall f Hf) as (v & E & _); exists v; cbn [py_getitem]; rewrite E; reflexivity.
Qed.

Lemma validated_message_builds_ok (data : pyval) :
  validate_message data = Ok None ->
  exists tx, build_transaction data = Ok tx /\ built_from data tx.
Proof.
  intros H.
  destruct data as [| | | | s | l | kv];
    try (exfalso; refine (validate_message_non_dict_ok _ _ H); discriminate).
  apply validate_message_dict_none_iff in H as [Hall Hc].
  apply build_transaction_checked; [|exact Hc].
  intros f Hf; destruct (Hall f Hf) as (v & E); exists v; cbn [py_getitem]; rewrite E; reflexivity.
Qed.

Lemma text_error_nul (s : string) : has_nul s = true -> exists e, text_error s = Some e.
Proof. intros H; unfold text_error; destruct (encode_error s); [eauto|rewrite H; eauto]. Qed.

Lemma text_error_none (s : string) : text_error s = None -> has_nul s = false.
Proof.
  unfold text_error; destruct (encode_error s); [discriminate|].
  destruct (has_nul s); [discriminate|reflexivity].
Qed.

Lemma save_rejected_record_nul (d : db) (reason payload source : string) :
  has_nul payload = true -> exists e, save_rejected_record d reason payload source = Raise e.
Proof.
  intros H.
  assert (Hp : exists e, params_error [VStr reason; VStr payload; VStr source] = Some e).
  { cbn [params_error]; destruct (text_error reason) as [e1|]; [eauto|].
    destruct (text_error_nul _ H) as [e2 He]; rewrite He; eauto. }
  destruct Hp as [e He]; exists e.
  cbv [save_rejected_record commit flush add open_session work pending committed app
       flush_objs insert_rejected_row Models.reason Models.payload Models.source bind].
  rewrite He; reflexivity.
Qed.

Lemma save_rejected_record_tx (d d' : db) (reason payload source : string) :
  save_rejected_record d reason payload source = Ok d' -> transactions d' = transactions d.
Proof.
  unfold save_rejected_record, commit, flush, add, open_session.
  cbn [work pending app flush_objs]; unfold insert_rejected_row; cbn [Models.reason Models.payload].
  destruct (params_error _); cbn; [discriminate|].
  intros H; injection H as <-; reflexivity.
Qed.

(** A queue body holding a NUL byte is never quarantined: either
    [callback] raises (the rejected record cannot be stored, and the
    [except] branch cannot store it either) or the message is stored as
    a transaction or found a duplicate. *)
Theorem callback_nul_body_never_quarantined (d : db) (body : string) :
  has_nul body = true ->
  (exists e, callback d body = Raise e)
  \/ (exists d' o ev, callback d body = Ok (d', o, ev) /\ o <> Quarantined).
Proof.
  intros Hn; unfold callback; cbv zeta.
  lazymatch goal with
  | |- context [match ?a with Ok _ => _ | Raise _ => _ end] => destruct a as [[[d1 o1] ev1]|e] eqn:Ea
  end.
  - right; exists d1, o1, ev1; split; [reflexivity|].
    inv_ok; destruct a0 as [error|].
    + inv_ok; rewrite (QuarantineFacts.decode_same _ _ E1) in E2.
      destruct (save_rejected_record_nul d error body "queue" Hn) as [e He]; rewrite He in E2.
      discriminate.
    + exact (proj1 (QuarantineFacts.insert_transaction_rej _ _ _ _ _ Ea)).
  - left; destruct (Utf8.decode body) as [payload|e'] eqn:Ed; cbn [bind]; [|eauto].
    rewrite (QuarantineFacts.decode_same _ _ Ed).
    destruct (save_rejected_record_nul d e body "queue" Hn) as [e2 He]; rewrite He.
    cbn [bind]; eauto.
Qed.

(** A queue body that parses as JSON but is not an object is never
    stored as a transaction: [callback] either raises or quarantines it,
    leaving the transactions table as it was. *)
Theorem callback_non_object_never_stored (d : db) (body : string) (data : pyval) :
  Json.loads body = Ok data -> (forall kv, data <> VDict kv) ->
  (exists e, callback d body = Raise e)
  \/ (exists d' ev, callback d body = Ok (d', Quarantined, ev) /\ transactions d' = transactions d).
Proof.
  intros Hl Hd; unfold callback; cbv zeta; rewrite Hl; cbn [bind].
  pose proof (validate_message_non_dict_ok data Hd) as Hv.
  destruct (validate_message data) as [[error|]|e]; cbn [bind]; [| congruence |].
  - destruct (Utf8.decode body) as [payload|e'] eqn:Ed; cbn [bind]; [|left; eauto].
    destruct (save_rejected_record d error payload "queue") as [d'|e'] eqn:Es; cbn [bind].
    + right; do 2 eexists; split; [reflexivity|]; exact (save_rejected_record_tx _ _ _ _ _ Es).
    + destruct (save_rejected_record d e' payload "queue") as [d''|e''] eqn:Es'; cbn [bind]; [|left; eauto].
      right; do 2 eexists; split; [reflexivity|]; exact (save_rejected_record_tx _ _ _ _ _ Es').
  - destruct (Utf8.decode body) as [payload|e'] eqn:Ed; cbn [bind]; [|left; eauto].
    destruct (save_rejected_record d e payload "queue") as [d'|e'] eqn:Es; cbn [bind]; [|left; eauto].
    right; do 2 eexists; split; [reflexivity|]; exact (save_rejected_record_tx _ _ _ _ _ Es).
Qed.


Lemma callback_nul_body_never_quarantined_witness :
  has_nul nul_body = true
  /\ ((exists e, callback Examples.d0 nul_body = Raise e)
      \/ (exists d' o ev, callback Examples.d0 nul_body = Ok (d', o, ev) /\ o <> Quarantined)).
Proof.
  split; [vm_compute; reflexivity|].
  apply callback_nul_body_never_quarantined; vm_compute; reflexivity.
Defined.

Lemma callback_non_object_never_stored_witness :
  Json.loads "[1]" = Ok (VList [VInt 1])
  /\ ((exists e, callback Examples.d0 "[1]" = Raise e)
      \/ (exists d' ev, callback Examples.d0 "[1]" = Ok (d', Quarantined, ev)
                        /\ transactions d' = transactions Examples.d0)).
Proof.
  split; [vm_compute; reflexivity|].
  apply (callback_non_object_never_stored Examples.d0 "[1]" (VList [VInt 1]));
    [vm_compute; reflexivity | intros kv; discriminate].
Defined.


Lemma flush_objs_nul_free (w w' : db) (os : list obj) :
  flush_objs w os = Ok w' -> Forall nul_free (rej_of_objs os).
Proof.
  revert w; induction os as [|o os IH]; intros w H; cbn [flush_objs rej_of_objs flat_map] in *.
  - constructor.
  - destruct o as [t|r]; cbn [app].
    + destruct (insert_transaction_row w t) as [w1|e]; cbn [bind] in H; [exact (IH _ H) | discriminate].
    + destruct (insert_rejected_row w r) as [w1|e] eqn:Ei; cbn [bind] in H; [|discriminate].
      constructor; [|exact (IH _ H)].
      unfold insert_rejected_row in Ei; cbn [params_error] in Ei.
      destruct (text_error (reason r)) eqn:E1; [discriminate|].
      destruct (text_error (payload r)) eqn:E2; [discriminate|].
      split; apply text_error_none; assumption.
Qed.

Lemma flush_rej_ok (d0 : db) (s s' : session) :
  rej_ok d0 (work s) -> flush s = Ok s' -> rej_ok d0 (work s').
Proof.
  intros (X & HX & HF); unfold flush.
  destruct (flush_objs (work s) (pending s)) as [w|e] eqn:E; cbn [bind]; [|discriminate].
  intros H; injection H as <-; cbn [work].
  exists (X ++ rej_of_objs (pending s))%list; split.
  - rewrite (QuarantineFacts.flush_objs_rej _ _ _ E), HX, app_assoc; reflexivity.
  - apply Forall_app; split; [exact HF | exact (flush_objs_nul_free _ _ _ E)].
Qed.

Lemma get_transaction_rej_ok (d0 : db) (s s' : session) (k : pyval) (f : option Transaction) :
  rej_ok d0 (work s) -> get_transaction s k = Ok (f, s') -> rej_ok d0 (work s').
Proof.
  intros Hs; unfold get_transaction.
  destruct (flush s) as [s1|e] eqn:Ef; cbn [bind]; [|discriminate].
  pose proof (flush_rej_ok _ _ _ Hs Ef) as H1.
  destruct k; try discriminate; try (destruct (text_error _); [discriminate|]);
    intros H; injection H as _ <-; exact H1.
Qed.

Lemma csv_step_rej_ok (d0 : db) (s s1 : session) (row : list (pyval * pyval)) (o : outcome) (ev : list event) :
  rej_ok d0 (work s) -> csv_step s row = Ok (o, s1, ev) -> rej_ok d0 (work s1).
Proof.
  intros Hs; unfold csv_step.
  destruct (validate_row row) as [error|].
  - intros H; injection H as _ <- _; exact Hs.
  - intros H.
    destruct (py_getitem (VDict row) "transaction_id") as [tid|e]; cbn [bind] in H; [|discriminate].
    destruct (get_transaction s tid) as [[found s2]|e] eqn:Eg; cbn [bind] in H; [|discriminate].
    pose proof (get_transaction_rej_ok _ _ _ _ _ Hs Eg) as H2.
    destruct found as [t|].
    + injection H as _ <- _; exact H2.
    + inv_ok; injection H as _ <- _; exact H2.
Qed.

Lemma csv_loop_rej_ok (d0 : db) (s s2 : session) (rows : list (list (pyval * pyval)))
      (err : option string) (os : list outcome) (ev : list event) :
  rej_ok d0 (work s) -> csv_loop s rows err = Ok (s2, os, ev) -> rej_ok d0 (work s2).
Proof.
  revert s os ev; induction rows as [|row rows IH]; intros s os ev Hs H; cbn [csv_loop] in H.
  - destruct err; [discriminate|]; injection H as <- _ _; exact Hs.
  - destruct (csv_step s row) as [[[o s1] ev1]|e] eqn:Es; cbn [bind] in H; [|discriminate].
    destruct (csv_loop s1 rows err) as [[[s3 os3] ev3]|e] eqn:El; cbn [bind] in H; [|discriminate].
    injection H as <- _ _.
    exact (IH _ _ _ (csv_step_rej_ok _ _ _ _ _ _ Hs Es) El).
Qed.

Lemma commit_rej_ok (d0 : db) (s : session) (d' : db) :
  rej_ok d0 (work s) -> commit s = Ok d' -> rej_ok d0 d'.
Proof.
  intros Hs; unfold commit.
  destruct (flush s) as [s'|e] eqn:Ef; cbn [bind]; [|discriminate].
  intros H; injection H as <-; exact (flush_rej_ok _ _ _ Hs Ef).
Qed.

Lemma import_csv_rejects_nul_free (file : string) (d : db) (text : string)
      (rows : list (list (pyval * pyval))) (err : option string)
      (d' : db) (os : list outcome) (ev : list event) :
  Utf8.decode file = Ok text -> Csv.dict_rows text = (rows, err) ->
  import_csv file d = Ok (d', os, ev) -> Forall nul_free (csv_rejects rows).
Proof.
  intros Hd Hr H.
  unfold import_csv in H; rewrite Hd in H; cbn [bind] in H; rewrite Hr in H.
  destruct (csv_loop (open_session d) rows err) as [[[s os1] ev1]|e] eqn:El;
    cbn [bind] in H; [|discriminate].
  destruct (commit s) as [d1|e] eqn:Ec; cbn [bind] in H; [|discriminate].
  injection H as <- _ _.
  assert (H0 : rej_ok d (work (open_session d))) by (exists []; split; [rewrite app_nil_r|]; constructor).
  destruct (commit_rej_ok _ _ _ (csv_loop_rej_ok _ _ _ _ _ _ _ H0 El) Ec) as (X & HX & HF).
  rewrite (QuarantineFacts.commit_rej _ _ Ec), (QuarantineFacts.csv_loop_rej _ _ _ _ _ _ El) in HX.
  unfold rej_view in HX; cbn [work pending open_session rej_of_objs flat_map] in HX.
  rewrite app_nil_r in HX; apply app_inv_head in HX; rewrite HX; exact HF.
Qed.

(** A csv file with a refused row whose reason holds a NUL byte (here a
    status with a NUL gives one) makes [import_csv] raise: the rejected row cannot
    be stored and nothing of the file is committed. *)
Theorem import_csv_nul_reason_aborts (file : string) (d : db) (text : string)
      (rows : list (list (pyval * pyval))) (err : option string)
      (row : list (pyval * pyval)) (e : string) :
  Utf8.decode file = Ok text -> Csv.dict_rows text = (rows, err) ->
  In row rows -> validate_row row = Some e -> has_nul e = true ->
  exists msg, import_csv file d = Raise msg.
Proof.
  intros Hd Hr Hin Hv Hn.
  destruct (import_csv file d) as [[[d' os] ev]|msg] eqn:H; [exfalso|eauto].
  pose proof (import_csv_rejects_nul_free _ _ _ _ _ _ _ _ Hd Hr H) as HF.
  rewrite Forall_forall in HF.
  assert (Hrec : In (mkRejectedRecord e (repr (VDict row)) "csv") (csv_rejects rows)).
  { unfold csv_rejects; apply in_flat_map; exists row; split; [exact Hin|]; rewrite Hv; left; reflexivity. }
  destruct (HF _ Hrec) as [Hr' _]; cbn [reason] in Hr'; congruence.
Qed.


(** [validate_message] never accepts a message that is not a JSON object. *)
Theorem validate_message_non_dict_refused (data : pyval) :
  (forall kv, data <> VDict kv) -> validate_message data <> Ok None.
Proof. exact (validate_message_non_dict_ok data). Qed.

Lemma validate_message_non_dict_refused_witness :
  (forall kv, VList [VInt 1] <> VDict kv) /\ validate_message (VList [VInt 1]) <> Ok None.
Proof.
  split; [intros kv; discriminate|].
  apply validate_message_non_dict_refused; intros kv; discriminate.
Defined.

(** A csv row that passes [validate_row] always gives a transaction:
    [build_transaction] does not raise and copies the row's values. *)
Theorem validated_row_builds (row : list (pyval * pyval)) :
  validate_row row = None ->
  exists tx, build_transaction (VDict row) = Ok tx /\ built_from (VDict row) tx.
Proof. exact (validated_row_builds_ok row). Qed.

Lemma validated_row_builds_witness :
  validate_row (Examples.row_ok "tx1" "100") = None
  /\ exists tx, build_transaction (VDict (Examples.row_ok "tx1" "100")) = Ok tx
               /\ built_from (VDict (Examples.row_ok "tx1" "100")) tx.
Proof.
  split; [vm_compute; reflexivity|].
  apply validated_row_builds; vm_compute; reflexivity.
Defined.

(** A queue message that passes [validate_message] always gives a
    transaction built from its values. *)
Theorem validated_message_builds (data : pyval) :
  validate_message data = Ok None ->
  exists tx, build_transaction data = Ok tx /\ built_from data tx.
Proof. exact (validated_message_builds_ok data). Qed.

Lemma validated_message_builds_witness :
  validate_message (Examples.message_ok_data "tx1" 100) = Ok None
  /\ exists tx, build_transaction (Examples.message_ok_data "tx1" 100) = Ok tx
               /\ built_from (Examples.message_ok_data "tx1" 100) tx.
Proof.
  split; [vm_compute; reflexivity|].
  apply validated_message_builds; vm_compute; reflexivity.
Defined.


Lemma import_csv_nul_reason_aborts_witness :
  Utf8.decode file_nul_status = Ok (Examples.header ++ Examples.csv_line "tx1" "user1" "user2" "5" "USD" Examples.ts1 st_nul)
  /\ Csv.dict_rows (Examples.header ++ Examples.csv_line "tx1" "user1" "user2" "5" "USD" Examples.ts1 st_nul)
     = ([row_nul_status], None)
  /\ In row_nul_status [row_nul_status]
  /\ validate_row row_nul_status = Some ("Invalid status: " ++ st_nul)
  /\ has_nul ("Invalid status: " ++ st_nul) = true
  /\ exists msg, import_csv file_nul_status Examples.d0 = Raise msg.
Proof.
  split; [vm_compute; reflexivity|]; split; [vm_compute; reflexivity|].
  split; [left; reflexivity|]; split; [vm_compute; reflexivity|]; split; [vm_compute; reflexivity|].
  apply (import_csv_nul_reason_aborts file_nul_status Examples.d0
           (Examples.header ++ Examples.csv_line "tx1" "user1" "user2" "5" "USD" Examples.ts1 st_nul)
           [row_nul_status] None row_nul_status ("Invalid status: " ++ st_nul));
    [vm_compute; reflexivity | vm_compute; reflexivity | left; reflexivity
    | vm_compute; reflexivity | vm_compute; reflexivity].
Defined.

End IngestExtras.

(** ** Reports: the [db] branches, sums and ranges *)

Module ReportingExtras.
Import Reporting ReportingSpec.
Local Open Scope Z_scope.

(** With [db], [get_payments_by_user] returns the rows where the user is
    sender or receiver with both bounds inclusive, each stored row as
    often as it is stored, in timestamp order. *)
Theorem payments_by_user_db_branch (user_id : string) (start_date end_date : option Z) (table : list Tx) :
  exists res,
    get_payments_by_user user_id start_date end_date (Some table) = Py.Ok res
    /\ Sorted ts_le res
    /\ Permutation res (filter (fun t => involves user_id t && opt_filter start_date Z.geb t
                                         && opt_filter end_date Z.leb t) table)
    /\ (forall t, In t res <->
          In t table
          /\ (sender_id t = user_id \/ receiver_id t = user_id)
          /\ (forall d, start_date = Some d -> (midnight d <= timestamp t)%Z)
          /\ (forall d, end_date = Some d -> (timestamp t <= midnight d)%Z)).
Proof. exact (ReportingFacts.payments_by_user_with_db user_id start_date end_date table). Qed.

Lemma daily_totals_days_bounds (user_id : string) (start_date end_date : option Z) (table : list Tx) :
  exists res,
    get_daily_totals user_id start_date end_date (Some table) = Py.Ok res
    /\ forall r, In r res ->
         (forall s, start_date = Some s -> s <= day r)
         /\ (forall e, end_date = Some e -> day r < e).
Proof.
  destruct (ReportingDbFacts.daily_totals_with_db user_id start_date end_date table)
    as (res & Hres & _ & _ & Hk & _).
  exists res; split; [exact Hres|].
  intros r Hr.
  assert (Hd : In (day r) (map day res)) by (apply in_map; exact Hr).
  apply Hk in Hd as (t & Ht & <-).
  assert (Hb : opt_filter start_date Z.geb t && opt_filter end_date Z.ltb t = true).
  { unfold sent_rows, received_rows in Ht; rewrite !filter_In, !andb_true_iff in Ht.
    destruct Ht as [(_ & _ & H1 & H2)|(_ & _ & H1 & H2)]; rewrite H1, H2; reflexivity. }
  apply andb_true_iff in Hb as [H1 H2]; unfold opt_filter, midnight, date_of in *.
  split; intros x ->.
  - apply Z.geb_le in H1; apply Z.div_le_lower_bound; lia.
  - apply Z.ltb_lt in H2; apply Z.div_lt_upper_bound; lia.
Qed.

(** With [db], every entry's day lies in the range: on or after
    [start_date], and strictly before [end_date] (a transaction at the
    midnight of [end_date] is not counted). *)
Theorem daily_totals_days_in_range (user_id : string) (start_date end_date : option Z) (table : list Tx) :
  exists res,
    get_daily_totals user_id start_date end_date (Some table) = Py.Ok res
    /\ forall r, In r res ->
         (forall s, start_date = Some s -> s <= day r)
         /\ (forall e, end_date = Some e -> day r < e).
Proof. exact (daily_totals_days_bounds user_id start_date end_date table). Qed.

(** Without [db] and with a bound [Session()], [get_payments_by_user]
    returns the user's rows in timestamp order with the end bound
    exclusive, unlike the [db] branch. *)
Theorem payments_by_user_session_branch (table : list Tx) (user_id : string) (start_date end_date : option Z) :
  exists res,
    get_payments_by_user_with (Bound table) user_id start_date end_date None = Py.Ok res
    /\ Sorted ts_le res
    /\ (forall t, In t res <->
          In t table
          /\ (sender_id t = user_id \/ receiver_id t = user_id)
          /\ (forall d, start_date = Some d -> midnight d <= timestamp t)
          /\ (forall d, end_date = Some d -> timestamp t < midnight d)).
Proof.
  eexists; split; [reflexivity|].
  split; [apply ReportingFacts.order_by_timestamp_sorted|].
  intros t; rewrite ReportingFacts.order_by_timestamp_In, filter_In.
  unfold involves, opt_filter.
  rewrite !andb_true_iff, orb_true_iff, !String.eqb_eq.
  destruct start_date as [a|], end_date as [b|];
    rewrite ?Z.geb_le, ?Z.ltb_lt; split;
    intros H; repeat match goal with H : _ /\ _ |- _ => destruct H end;
    repeat split; try intros d Hd;
    try match goal with Hd : Some _ = Some _ |- _ => injection Hd as <- end;
    try discriminate; try tauto;
    match goal with H : forall d, Some ?x = Some d -> _ |- _ => exact (H x eq_refl) end.
Qed.

End ReportingExtras.

(** ** The monthly reporting job *)

Module SchedExtras.
Import Py DateTime Sched.
Local Open Scope Z_scope.

Lemma dfc_F (y m d : Z) :
  days_from_civil y m d = civil_year_days (if m <=? 2 then y - 1 else y) + ((153 * ((m + 9) mod 12) + 2) / 5 + d - 1) - 719468.
Proof. unfold days_from_civil, civil_year_days; lia. Qed.

Lemma F_closed (y : Z) : civil_year_days y = 365 * y + y / 4 - y / 100 + y / 400.
Proof.
  unfold civil_year_days.
  pose proof (Z.div_mod y 400 ltac:(lia)) as Hy.
  pose proof (Z.mod_pos_bound y 400 ltac:(lia)) as Hr.
  set (e := y / 400) in *; set (r := y mod 400) in *.
  assert (E4 : y / 4 = 100 * e + r / 4).
  { rewrite Hy, Z.add_comm, (Z.mul_comm 400 e).
    replace (e * 400) with ((100 * e) * 4) by ring.
    rewrite Z.div_add by lia; ring. }
  assert (E100 : y / 100 = 4 * e + r / 100).
  { rewrite Hy, Z.add_comm, (Z.mul_comm 400 e).
    replace (e * 400) with ((4 * e) * 100) by ring.
    rewrite Z.div_add by lia; ring. }
  replace (y - e * 400) with r by lia.
  rewrite E4, E100; lia.
Qed.

Lemma div_step (y k : Z) : 0 < k -> y / k - (y - 1) / k = if y mod k =? 0 then 1 else 0.
Proof.
  intros Hk.
  pose proof (Z.div_mod y k ltac:(lia)) as H1.
  pose proof (Z.mod_pos_bound y k Hk) as B1.
  pose proof (Z.div_mod (y - 1) k ltac:(lia)) as H2.
  pose proof (Z.mod_pos_bound (y - 1) k Hk) as B2.
  set (q := y / k) in *; set (r := y mod k) in *.
  set (q' := (y - 1) / k) in *; set (r' := (y - 1) mod k) in *.
  assert (q' = q \/ q' = q - 1) as [E|E] by nia.
  - destruct (Z.eqb_spec r 0); [subst q'; nia | lia].
  - destruct (Z.eqb_spec r 0); [lia | subst q'; nia].
Qed.

Lemma F_year_step (y : Z) : 0 < y ->
  civil_year_days y - civil_year_days (y - 1) = 365 + (if is_leap y then 1 else 0).
Proof.
  intros Hy; rewrite !F_closed.
  pose proof (div_step y 4 ltac:(lia)) as D4.
  pose proof (div_step y 100 ltac:(lia)) as D100.
  pose proof (div_step y 400 ltac:(lia)) as D400.
  unfold is_leap; rewrite !Z.rem_mod_nonneg by lia.
  pose proof (Z.mod_pos_bound y 400 ltac:(lia)).
  assert (y mod 400 = 0 -> y mod 100 = 0 /\ y mod 4 = 0).
  { intros H0; pose proof (Z.div_mod y 400 ltac:(lia)); split;
      [apply Z.mod_divide; [lia|]; exists (4 * (y / 400)); lia
      |apply Z.mod_divide; [lia|]; exists (100 * (y / 400)); lia]. }
  assert (y mod 100 = 0 -> y mod 4 = 0).
  { intros H9; pose proof (Z.div_mod y 100 ltac:(lia)).
    apply Z.mod_divide; [lia|]; exists (25 * (y / 100)); lia. }
  destruct (Z.eqb_spec (y mod 4) 0), (Z.eqb_spec (y mod 100) 0), (Z.eqb_spec (y mod 400) 0);
    cbn [andb orb negb]; intuition lia.
Qed.

Lemma month_step (y m : Z) : 0 < y -> 1 <= m <= 11 ->
  days_from_civil y (m + 1) 1 = days_from_civil y m 1 + days_in_month y m.
Proof.
  intros Hy Hm; rewrite !dfc_F.
  assert (m = 1 \/ m = 2 \/ m = 3 \/ m = 4 \/ m = 5 \/ m = 6 \/ m = 7 \/ m = 8 \/ m = 9 \/ m = 10 \/ m = 11)
    as Hc by lia.
  pose proof (F_year_step y Hy) as Fs.
  unfold days_in_month.
  repeat destruct Hc as [->|Hc]; subst; cbn -[civil_year_days is_leap]; try lia.
  destruct (is_leap y); lia.
Qed.

Lemma december_step (y : Z) : 0 < y ->
  days_from_civil (y + 1) 1 1 = days_from_civil y 12 1 + 31.
Proof.
  intros Hy; rewrite !dfc_F; cbn -[civil_year_days]; replace (y + 1 - 1) with y by lia; lia.
Qed.

Lemma digit_char (k : Z) : 0 <= k <= 9 ->
  is_digit (chr (48 + Z.to_nat k)) = true /\ digit_val (chr (48 + Z.to_nat k)) = k
  /\ (ord (chr (48 + Z.to_nat k)) < 58)%nat /\ ord (chr (48 + Z.to_nat k)) = (48 + Z.to_nat k)%nat.
Proof.
  intros Hk.
  assert (Ho : ord (chr (48 + Z.to_nat k)) = (48 + Z.to_nat k)%nat).
  { unfold ord, chr; apply nat_ascii_embedding; lia. }
  unfold is_digit, digit_val; rewrite Ho; repeat split.
  - apply andb_true_iff; split; apply Nat.leb_le; lia.
  - lia.
  - lia.
Qed.

Lemma pad_digits_take (n : nat) (v : Z) (r : list ascii) : 0 <= v ->
  take_digits n (pad_digits n v ++ r) = Some (v mod 10 ^ Z.of_nat n, r).
Proof.
  intros Hv; induction n as [|n IH]; cbn [pad_digits app take_digits].
  - rewrite Z.mod_1_r; reflexivity.
  - pose proof (Z.mod_pos_bound (v / 10 ^ Z.of_nat n) 10 ltac:(lia)) as B.
    destruct (digit_char ((v / 10 ^ Z.of_nat n) mod 10) ltac:(lia)) as (D1 & D2 & _).
    rewrite D1, IH, D2.
    assert (P : 0 < 10 ^ Z.of_nat n) by (apply Z.pow_pos_nonneg; lia).
    rewrite Nat2Z.inj_succ, Z.pow_succ_r, (Z.mul_comm 10) by lia.
    rewrite Z.rem_mul_r by lia; f_equal; f_equal; lia.
Qed.

Lemma pad_digits_ascii (n : nat) (v : Z) : forall c, In c (pad_digits n v) -> (ord c < 58)%nat.
Proof.
  induction n as [|n IH]; cbn [pad_digits In]; [tauto|].
  intros c [<-|H]; [|exact (IH c H)].
  pose proof (Z.mod_pos_bound (v / 10 ^ Z.of_nat n) 10 ltac:(lia)).
  apply digit_char; lia.
Qed.

Lemma ym_text_ascii (y m : Z) : ascii_only (chars (ym_text y m)) = true.
Proof.
  unfold ym_text, chars, lstr, ascii_only; rewrite list_ascii_of_string_of_list_ascii.
  apply forallb_forall; intros c Hc; apply Nat.ltb_lt.
  apply in_app_iff in Hc as [Hc|[<-|Hc]];
    [apply pad_digits_ascii in Hc; lia | cbv; lia | apply pad_digits_ascii in Hc; lia].
Qed.

Lemma strptime_ym_text (y m mv : Z) (rest : list ascii) :
  0 <= y <= 9999 -> month_part (pad_digits 2 m) = Some (mv, rest) ->
  strptime_ym (ym_text y m)
  = match rest with
    | [] => if y =? 0 then Raise "year 0 is out of range" else Ok (y, mv)
    | _ => Raise ("unconverted data remains: " ++ lstr rest)
    end.
Proof.
  intros Hy Hm; unfold strptime_ym; cbv zeta; rewrite ym_text_ascii; cbn [negb].
  assert (Hc : chars (ym_text y m) = (pad_digits 4 y ++ "-"%char :: pad_digits 2 m)%list)
    by (unfold ym_text, chars, lstr; apply list_ascii_of_string_of_list_ascii).
  rewrite Hc.
  rewrite pad_digits_take by lia; rewrite Z.mod_small by (cbn; lia).
  rewrite Hm; destruct rest; reflexivity.
Qed.

Lemma month_part_valid (m : Z) : 1 <= m <= 12 -> month_part (pad_digits 2 m) = Some (m, []).
Proof.
  intros Hm.
  assert (m = 1 \/ m = 2 \/ m = 3 \/ m = 4 \/ m = 5 \/ m = 6 \/ m = 7 \/ m = 8 \/ m = 9 \/ m = 10
          \/ m = 11 \/ m = 12) as Hc by lia.
  repeat destruct Hc as [->|Hc]; try reflexivity; subst; reflexivity.
Qed.

Lemma month_part_over (m : Z) : 13 <= m <= 99 ->
  month_part (pad_digits 2 m) = Some (m / 10, [chr (48 + Z.to_nat (m mod 10))]).
Proof.
  intros Hm.
  assert (exists a b, 1 <= a <= 9 /\ 0 <= b <= 9 /\ m = 10 * a + b /\ (a = 1 -> 3 <= b))
    as (a & b & Ha & Hb & -> & Hab).
  { exists (m / 10), (m mod 10).
    pose proof (Z.div_mod m 10 ltac:(lia)); pose proof (Z.mod_pos_bound m 10 ltac:(lia)).
    lia. }
  replace ((10 * a + b) / 10) with a by (rewrite Z.add_comm, Z.mul_comm, Z.div_add by lia;
                                         rewrite Z.div_small by lia; lia).
  replace ((10 * a + b) mod 10) with b by (rewrite Z.add_comm, Z.mul_comm, Z.mod_add by lia;
                                           rewrite Z.mod_small by lia; reflexivity).
  assert (b = 0 \/ b = 1 \/ b = 2 \/ b = 3 \/ b = 4 \/ b = 5 \/ b = 6 \/ b = 7 \/ b = 8 \/ b = 9)
    as Hb' by lia.
  assert (a = 1 \/ a = 2 \/ a = 3 \/ a = 4 \/ a = 5 \/ a = 6 \/ a = 7 \/ a = 8 \/ a = 9)
    as Ha' by lia.
  repeat destruct Ha' as [->|Ha']; repeat destruct Hb' as [->|Hb']; try subst;
    first [reflexivity | exfalso; lia].
Qed.

Lemma ym_text_nonempty (y m : Z) : String.eqb (ym_text y m) "" = false.
Proof. reflexivity. Qed.

Lemma get_month_range_valid (today : Z * Z * Z) (y m : Z) :
  1 <= y <= 9999 -> 1 <= m <= 12 -> ~ (y = 9999 /\ m = 12) ->
  get_month_range today (Some (ym_text y m))
  = Ok (days_from_civil y m 1, days_from_civil y m 1 + days_in_month y m).
Proof.
  intros Hy Hm Hn; destruct today as [[ty tm] td]; unfold get_month_range.
  rewrite ym_text_nonempty, (strptime_ym_text y m m []) by (lia || apply month_part_valid; lia).
  destruct (Z.eqb_spec y 0) as [|_]; [lia|]; cbn [bind].
  destruct (Z.eqb_spec m 12) as [->|Hm12].
  - destruct (Z.leb_spec (y + 1) 9999) as [_|]; [|lia].
    rewrite december_step by lia; reflexivity.
  - rewrite month_step by lia; reflexivity.
Qed.

Lemma days_in_month_pos (y m : Z) : 28 <= days_in_month y m.
Proof.
  unfold days_in_month; destruct (m =? 2); [destruct (is_leap y); lia|].
  destruct (_ || _); lia.
Qed.

Lemma next_month_start (y m : Z) : 1 <= y -> 1 <= m <= 12 ->
  days_from_civil (fst (next_month y m)) (snd (next_month y m)) 1
  = days_from_civil y m 1 + days_in_month y m.
Proof.
  intros Hy Hm; unfold next_month.
  destruct (Z.eqb_spec m 12) as [->|Hm12]; cbn [fst snd].
  - rewrite december_step by lia; reflexivity.
  - rewrite month_step by lia; reflexivity.
Qed.

Lemma reports_for_ok (s e : Z) (table : list Reporting.Tx) (users : list string) :
  reports_for s e table users
  = Ok (map (fun u => (u, Reporting.order_by_timestamp
                            (filter (fun t => Reporting.involves u t
                                              && Reporting.opt_filter (Some s) Z.geb t
                                              && Reporting.opt_filter (Some e) Z.leb t) table),
                       Reporting.merge_totals
                         (Reporting.group_sum_by_day
                            (ReportingSpec.sent_rows u (Some s) (Some e) table))
                         (Reporting.group_sum_by_day
                            (ReportingSpec.received_rows u (Some s) (Some e) table)))) users).
Proof.
  induction users as [|u us IH]; cbn [reports_for map]; [reflexivity|].
  cbn [Reporting.get_payments_by_user Reporting.get_payments_by_user_with Reporting.query bind].
  unfold Reporting.get_daily_totals, Reporting.get_daily_totals_with; cbn [Reporting.query bind].
  rewrite IH; reflexivity.
Qed.

Lemma reports_for_In (s e : Z) (table : list Reporting.Tx) (users : list string) (u : string) :
  In u users ->
  exists R p d, reports_for s e table users = Ok R /\ In (u, p, d) R
    /\ Reporting.get_payments_by_user u (Some s) (Some e) (Some table) = Ok p
    /\ Reporting.get_daily_totals u (Some s) (Some e) (Some table) = Ok d.
Proof.
  intros Hu; rewrite reports_for_ok.
  do 3 eexists; split; [reflexivity|]; split; [apply in_map_iff; eexists; split; [reflexivity|exact Hu]|].
  split; reflexivity.
Qed.

Lemma monthly_reports_valid (today : Z * Z * Z) (y m : Z) (users : list string) (table : list Reporting.Tx) :
  1 <= y <= 9999 -> 1 <= m <= 12 -> ~ (y = 9999 /\ m = 12) ->
  monthly_reports today (Some (ym_text y m)) users table
  = reports_for (days_from_civil y m 1) (days_from_civil y m 1 + days_in_month y m) table users.
Proof. intros Hy Hm Hn; unfold monthly_reports; rewrite get_month_range_valid by assumption; reflexivity. Qed.

Lemma date_of_midnight (d : Z) : Reporting.date_of (Reporting.midnight d) = d.
Proof. unfold Reporting.date_of, Reporting.midnight; apply Z.div_mul; lia. Qed.

(** A transaction at the midnight that starts a month is in the payments
    report of that month and of the month before, and only the later
    month's daily totals count it. *)
Theorem monthly_reports_boundary (today : Z * Z * Z) (y m : Z) (users : list string)
      (table : list Reporting.Tx) (u : string) (t : Reporting.Tx) :
  1 <= y <= 9998 -> 1 <= m <= 12 ->
  In u users -> In t table -> (Reporting.sender_id t = u \/ Reporting.receiver_id t = u) ->
  Reporting.timestamp t = Reporting.midnight (days_from_civil y m 1 + days_in_month y m) ->
  exists R1 p1 d1 R2 p2 d2,
    monthly_reports today (Some (ym_text y m)) users table = Ok R1
    /\ In (u, p1, d1) R1 /\ In t p1
    /\ (forall r, In r d1 -> Reporting.day r <> Reporting.date_of (Reporting.timestamp t))
    /\ monthly_reports today (Some (ym_text (fst (next_month y m)) (snd (next_month y m)))) users table
       = Ok R2
    /\ In (u, p2, d2) R2 /\ In t p2
    /\ (exists r, In r d2 /\ Reporting.day r = Reporting.date_of (Reporting.timestamp t)).
Proof.
  intros Hy Hm Hu Ht Hin Hts.
  set (s1 := days_from_civil y m 1); set (e1 := s1 + days_in_month y m).
  set (y' := fst (next_month y m)); set (m' := snd (next_month y m)).
  assert (Hy' : 1 <= y' <= 9998 + 1 /\ 1 <= m' <= 12 /\ ~ (y' = 9999 /\ m' = 12)).
  { unfold y', m', next_month; destruct (Z.eqb_spec m 12); cbn [fst snd]; lia. }
  assert (Hs2 : days_from_civil y' m' 1 = e1) by (apply next_month_start; lia).
  set (e2 := days_from_civil y' m' 1 + days_in_month y' m').
  pose proof (days_in_month_pos y' m') as P2.
  pose proof (days_in_month_pos y m) as P1.
  destruct (reports_for_In s1 e1 table users u Hu) as (R1 & p1 & d1 & HR1 & H1 & Hp1 & Hd1).
  destruct (reports_for_In e1 e2 table users u Hu) as (R2 & p2 & d2 & HR2 & H2 & Hp2 & Hd2).
  exists R1, p1, d1, R2, p2, d2.
  rewrite Hts, date_of_midnight.
  split; [rewrite monthly_reports_valid by lia; exact HR1|].
  split; [exact H1|].
  split.
  { destruct (ReportingFacts.payments_by_user_with_db u (Some s1) (Some e1) table) as (res & Hres & _ & _ & Hi).
    rewrite Hp1 in Hres; injection Hres as <-.
    apply Hi; split; [exact Ht|]; split; [exact Hin|].
    split; intros d Hd; injection Hd as <-; rewrite Hts; unfold Reporting.midnight, e1; lia. }
  split.
  { intros r Hr.
    destruct (ReportingExtras.daily_totals_days_bounds u (Some s1) (Some e1) table) as (res & Hres & Hb).
    rewrite Hd1 in Hres; injection Hres as <-.
    destruct (Hb r Hr) as [_ Hlt]; specialize (Hlt e1 eq_refl); lia. }
  split.
  { rewrite monthly_reports_valid by lia.
    change (reports_for (days_from_civil y' m' 1) e2 table users = Ok R2); rewrite Hs2; exact HR2. }
  split; [exact H2|].
  split.
  { destruct (ReportingFacts.payments_by_user_with_db u (Some e1) (Some e2) table) as (res & Hres & _ & _ & Hi).
    rewrite Hp2 in Hres; injection Hres as <-.
    apply Hi; split; [exact Ht|]; split; [exact Hin|].
    split; intros d Hd; injection Hd as <-; rewrite Hts; unfold Reporting.midnight, e2; lia. }
  destruct (ReportingDbFacts.daily_totals_with_db u (Some e1) (Some e2) table) as (res & Hres & _ & _ & Hk & _).
  rewrite Hd2 in Hres; injection Hres as <-.
  assert (Hd : In e1 (map Reporting.day d2)).
  { apply Hk; exists t; split; [|rewrite Hts; apply date_of_midnight].
    unfold ReportingSpec.sent_rows, ReportingSpec.received_rows; rewrite !filter_In.
    assert (Hr : Reporting.opt_filter (Some e1) Z.geb t && Reporting.opt_filter (Some e2) Z.ltb t = true).
    { unfold Reporting.opt_filter, Reporting.midnight; rewrite Hts; unfold Reporting.midnight, e2.
      apply andb_true_iff; split; [apply Z.geb_le | apply Z.ltb_lt]; lia. }
    rewrite Hr, !andb_true_r.
    destruct Hin as [<-|<-]; [left|right]; (split; [exact Ht | apply String.eqb_refl]). }
  apply in_map_iff in Hd as (r & Hr & Hrin); exists r; split; [exact Hrin | exact Hr].
Qed.

(** Without a month (none given, or an empty string), [get_month_range]
    gives the range of today's month, the same as when today's month is
    passed as [YYYY-MM]. *)
Theorem get_month_range_default_is_today (ty tm td : Z) :
  1 <= ty <= 9999 -> 1 <= tm <= 12 ->
  get_month_range (ty, tm, td) None = get_month_range (ty, tm, td) (Some (ym_text ty tm))
  /\ get_month_range (ty, tm, td) (Some "") = get_month_range (ty, tm, td) (Some (ym_text ty tm)).
Proof.
  intros Hy Hm; unfold get_month_range.
  rewrite ym_text_nonempty, (strptime_ym_text ty tm tm []) by (lia || apply month_part_valid; lia).
  destruct (Z.eqb_spec ty 0) as [|_]; [lia|].
  split; reflexivity.
Qed.

Lemma str_of_digit (k : Z) : 0 <= k <= 9 -> lstr [chr (48 + Z.to_nat k)] = str_of_Z k.
Proof.
  intros Hk.
  assert (k = 0 \/ k = 1 \/ k = 2 \/ k = 3 \/ k = 4 \/ k = 5 \/ k = 6 \/ k = 7 \/ k = 8 \/ k = 9)
    as Hc by lia.
  repeat destruct Hc as [->|Hc]; try reflexivity; subst; reflexivity.
Qed.

(** A two-digit month above 12 is not reported as a bad month: the
    [%m] pattern takes its first digit alone, and the error is the
    unconverted last digit. *)
Theorem get_month_range_month_over_12 (today : Z * Z * Z) (y m : Z) :
  1 <= y <= 9999 -> 13 <= m <= 99 ->
  get_month_range today (Some (ym_text y m))
  = Raise ("unconverted data remains: " ++ str_of_Z (m mod 10)).
Proof.
  intros Hy Hm; destruct today as [[ty tm] td]; unfold get_month_range.
  rewrite ym_text_nonempty, (strptime_ym_text y m (m / 10) [chr (48 + Z.to_nat (m mod 10))])
    by (lia || apply month_part_over; lia).
  cbn [bind]; rewrite str_of_digit by (pose proof (Z.mod_pos_bound m 10); lia); reflexivity.
Qed.

(** [get_month_range] for a month [YYYY-MM] (year 1 to 9999, not
    December 9999) gives the first day of the month and the first day of
    the next one: a range of exactly the month's length. *)
Theorem get_month_range_one_month (today : Z * Z * Z) (y m : Z) :
  1 <= y <= 9999 -> 1 <= m <= 12 -> ~ (y = 9999 /\ m = 12) ->
  get_month_range today (Some (ym_text y m))
  = Ok (days_from_civil y m 1, days_from_civil y m 1 + days_in_month y m).
Proof. exact (get_month_range_valid today y m). Qed.

Lemma get_month_range_one_month_witness :
  (1 <= 2024 <= 9999 /\ 1 <= 2 <= 12 /\ ~ (2024 = 9999 /\ 2 = 12))
  /\ get_month_range (2026, 10, 15) (Some (ym_text 2024 2))
     = Ok (days_from_civil 2024 2 1, days_from_civil 2024 2 1 + days_in_month 2024 2).
Proof.
  split; [lia|].
  apply (get_month_range_one_month (2026, 10, 15) 2024 2); lia.
Defined.

Lemma get_month_range_default_is_today_witness :
  (1 <= 2026 <= 9999 /\ 1 <= 10 <= 12)
  /\ get_month_range (2026, 10, 15) None = get_month_range (2026, 10, 15) (Some (ym_text 2026 10))
  /\ get_month_range (2026, 10, 15) (Some "") = get_month_range (2026, 10, 15) (Some (ym_text 2026 10)).
Proof.
  split; [lia|].
  apply (get_month_range_default_is_today 2026 10 15); lia.
Defined.

Lemma get_month_range_month_over_12_witness :
  (1 <= 2025 <= 9999 /\ 13 <= 13 <= 99)
  /\ get_month_range (2026, 10, 15) (Some (ym_text 2025 13))
     = Raise ("unconverted data remains: " ++ str_of_Z (13 mod 10)).
Proof.
  split; [lia|].
  apply (get_month_range_month_over_12 (2026, 10, 15) 2025 13); lia.
Defined.

Lemma monthly_reports_boundary_witness :
  let t := Reporting.mkTx "tx1" "user1" "user2" 100 "USD"
             (Reporting.midnight (days_from_civil 2025 5 1 + days_in_month 2025 5)) "completed" in
  (1 <= 2025 <= 9998 /\ 1 <= 5 <= 12 /\ In "user1" ["user1"] /\ In t [t]
   /\ (Reporting.sender_id t = "user1" \/ Reporting.receiver_id t = "user1")
   /\ Reporting.timestamp t = Reporting.midnight (days_from_civil 2025 5 1 + days_in_month 2025 5))
  /\ exists R1 p1 d1 R2 p2 d2,
    monthly_reports (2026, 10, 15) (Some (ym_text 2025 5)) ["user1"] [t] = Ok R1
    /\ In ("user1", p1, d1) R1 /\ In t p1
    /\ (forall r, In r d1 -> Reporting.day r <> Reporting.date_of (Reporting.timestamp t))
    /\ monthly_reports (2026, 10, 15)
         (Some (ym_text (fst (next_month 2025 5)) (snd (next_month 2025 5)))) ["user1"] [t] = Ok R2
    /\ In ("user1", p2, d2) R2 /\ In t p2
    /\ (exists r, In r d2 /\ Reporting.day r = Reporting.date_of (Reporting.timestamp t)).
Proof.
  intros t.
  split; [repeat split; try lia; first [left; reflexivity | reflexivity]|].
  apply monthly_reports_boundary; try lia; first [left; reflexivity | reflexivity].
Defined.

End SchedExtras.

(** The admin endpoints, the CLI commands and [seed]. *)
Module AdminExtras.
Import Py Admin.

Lemma texts_error_nil (l : list string) :
  Forall (fun s => Store.text_error s = None) l -> texts_error l = None.
Proof.
  induction 1 as [|s l Hs _ IH]; [reflexivity|]. cbn [texts_error]. rewrite Hs. exact IH.
Qed.

Lemma texts_error_one (k : string) : Store.text_error k = None -> texts_error [k] = None.
Proof. intros H; apply texts_error_nil; repeat constructor; exact H. Qed.

Lemma texts_error_two (a b : string) :
  Store.text_error a = None -> Store.text_error b = None -> texts_error [a; b] = None.
Proof. intros Ha Hb; apply texts_error_nil; repeat constructor; assumption. Qed.

Lemma texts_error_head (k : string) (l : list string) :
  texts_error (k :: l) = None -> Store.text_error k = None.
Proof. cbn [texts_error]; destruct (Store.text_error k); [discriminate|reflexivity]. Qed.

Lemma find_map_user (k : string) (F : User.t -> User.t) (l : list User.t) :
  (forall u, User.id (F u) = User.id u) ->
  find (fun u => String.eqb (User.id u) k) (map (fun u => if String.eqb (User.id u) k then F u else u) l)
  = option_map F (find (fun u => String.eqb (User.id u) k) l).
Proof.
  intros HF. induction l as [|u l IH]; [reflexivity|].
  simpl. destruct (String.eqb (User.id u) k) eqn:E; simpl.
  - rewrite HF, E. reflexivity.
  - rewrite E. exact IH.
Qed.

Lemma find_map_currency (k : string) (F : Currency.t -> Currency.t) (l : list Currency.t) :
  (forall c, Currency.code (F c) = Currency.code c) ->
  find (fun c => String.eqb (Currency.code c) k) (map (fun c => if String.eqb (Currency.code c) k then F c else c) l)
  = option_map F (find (fun c => String.eqb (Currency.code c) k) l).
Proof.
  intros HF. induction l as [|u l IH]; [reflexivity|].
  simpl. destruct (String.eqb (Currency.code u) k) eqn:E; simpl.
  - rewrite HF, E. reflexivity.
  - rewrite E. exact IH.
Qed.

Lemma active_after_user_delete (k : string) (l : list User.t) :
  filter (fun u => negb (User.deleted u))
    (map (fun u => if String.eqb (User.id u) k then set_user_deleted u else u) l)
  = filter (fun u => negb (User.deleted u) && negb (String.eqb (User.id u) k)) l.
Proof.
  induction l as [|u l IH]; [reflexivity|].
  simpl. destruct (String.eqb (User.id u) k) eqn:E; simpl.
  - rewrite andb_false_r. exact IH.
  - rewrite andb_true_r. destruct (User.deleted u); simpl; rewrite IH; reflexivity.
Qed.

Lemma active_after_currency_delete (k : string) (l : list Currency.t) :
  filter (fun c => negb (Currency.deleted c))
    (map (fun c => if String.eqb (Currency.code c) k then set_currency_deleted c else c) l)
  = filter (fun c => negb (Currency.deleted c) && negb (String.eqb (Currency.code c) k)) l.
Proof.
  induction l as [|u l IH]; [reflexivity|].
  simpl. destruct (String.eqb (Currency.code u) k) eqn:E; simpl.
  - rewrite andb_false_r. exact IH.
  - rewrite andb_true_r. destruct (Currency.deleted u); simpl; rewrite IH; reflexivity.
Qed.

Lemma delete_user_ok (d d' : tables) (k : string) :
  delete_user d k = (d', Done 204 VNone) ->
  Store.text_error k = None /\
  (exists u, find (fun u => String.eqb (User.id u) k) (user_rows d) = Some u) /\
  d' = mkTables (map (fun v => if String.eqb (User.id v) k then set_user_deleted v else v) (user_rows d))
                (currency_rows d).
Proof.
  unfold delete_user, get_user. destruct (texts_error [k]) eqn:Hk; [discriminate|].
  destruct (find _ _) as [u|] eqn:Hf; [|discriminate].
  destruct (User.deleted u); [discriminate|].
  pose proof (find_some _ _ Hf) as [_ Hu]. apply String.eqb_eq in Hu. rewrite Hu.
  unfold update_user_row. rewrite Hk.
  intros H. inversion H. split; [exact (texts_error_head k [] Hk)|]. split; [exists u; reflexivity|reflexivity].
Qed.

Lemma delete_currency_ok (d d' : tables) (k : string) :
  delete_currency d k = (d', Done 204 VNone) ->
  Store.text_error k = None /\
  (exists c, find (fun c => String.eqb (Currency.code c) k) (currency_rows d) = Some c) /\
  d' = mkTables (user_rows d)
                (map (fun v => if String.eqb (Currency.code v) k then set_currency_deleted v else v) (currency_rows d)).
Proof.
  unfold delete_currency, get_currency. destruct (texts_error [k]) eqn:Hk; [discriminate|].
  destruct (find _ _) as [u|] eqn:Hf; [|discriminate].
  destruct (Currency.deleted u); [discriminate|].
  pose proof (find_some _ _ Hf) as [_ Hu]. apply String.eqb_eq in Hu. rewrite Hu.
  unfold update_currency_row. rewrite Hk.
  intros H. inversion H. split; [exact (texts_error_head k [] Hk)|]. split; [exists u; reflexivity|reflexivity].
Qed.

(** After a successful [DELETE /users/{id}] the id is retired: creating it again answers 409, updating or deleting it answers 404, each leaving the tables as they are, and [GET /users] lists the other active users as before. *)
Theorem delete_user_retires (d d' : tables) (k : string) :
  delete_user d k = (d', Done 204 VNone) ->
  (forall name, create_user d' k name = (d', HTTPError 409 "User already exists")) /\
  (forall body, update_user d' k body = (d', HTTPError 404 "User not found or deleted")) /\
  delete_user d' k = (d', HTTPError 404 "User not found or already deleted") /\
  list_users d' = (d', Done 200 (VList (map (fun u => user_json (User.id u) (User.name u))
                     (filter (fun u => negb (User.deleted u) && negb (String.eqb (User.id u) k)) (user_rows d))))).
Proof.
  intros H. apply delete_user_ok in H as (Hk & [u Hf] & ->).
  assert (Hg : get_user (mkTables (map (fun v => if String.eqb (User.id v) k then set_user_deleted v else v) (user_rows d)) (currency_rows d)) k
               = Ok (Some (set_user_deleted u))).
  { unfold get_user. rewrite (texts_error_one _ Hk). simpl. rewrite find_map_user by reflexivity. rewrite Hf. reflexivity. }
  unfold create_user, update_user, delete_user, list_users. rewrite Hg. simpl.
  split; [reflexivity|]. split; [reflexivity|]. split; [reflexivity|].
  rewrite active_after_user_delete. reflexivity.
Qed.

(** After a successful [DELETE /currencies/{code}] the code is retired: creating it again answers 409, updating or deleting it answers 404, each leaving the tables as they are, and [GET /currencies] lists the other active currencies as before. *)
Theorem delete_currency_retires (d d' : tables) (k : string) :
  delete_currency d k = (d', Done 204 VNone) ->
  (forall name, create_currency d' k name = (d', HTTPError 409 "Currency already exists")) /\
  (forall body, update_currency d' k body = (d', HTTPError 404 "Currency not found or deleted")) /\
  delete_currency d' k = (d', HTTPError 404 "Currency not found or already deleted") /\
  list_currencies d' = (d', Done 200 (VList (map (fun c => currency_json (Currency.code c) (Currency.name c))
                     (filter (fun c => negb (Currency.deleted c) && negb (String.eqb (Currency.code c) k)) (currency_rows d))))).
Proof.
  intros H. apply delete_currency_ok in H as (Hk & [u Hf] & ->).
  assert (Hg : get_currency (mkTables (user_rows d) (map (fun v => if String.eqb (Currency.code v) k then set_currency_deleted v else v) (currency_rows d))) k
               = Ok (Some (set_currency_deleted u))).
  { unfold get_currency. rewrite (texts_error_one _ Hk). simpl. rewrite find_map_currency by reflexivity. rewrite Hf. reflexivity. }
  unfold create_currency, update_currency, delete_currency, list_currencies. rewrite Hg. simpl.
  split; [reflexivity|]. split; [reflexivity|]. split; [reflexivity|].
  rewrite active_after_currency_delete. reflexivity.
Qed.

Lemma find_none_rows {A} (f : A -> bool) (l : list A) :
  (forall x, In x l -> f x = false) -> find f l = None.
Proof.
  induction l as [|x l IH]; intros H; [reflexivity|]. simpl.
  rewrite (H x (or_introl eq_refl)). apply IH. intros y Hy. apply H. right. exact Hy.
Qed.

Lemma existsb_none_rows {A} (f : A -> bool) (l : list A) :
  find f l = None -> existsb f l = false.
Proof.
  induction l as [|x l IH]; [reflexivity|]. simpl.
  destruct (f x); [discriminate|]. exact IH.
Qed.

Lemma find_app_none {A} (f : A -> bool) (l r : list A) :
  find f l = None -> find f (l ++ r) = find f r.
Proof.
  induction l as [|x l IH]; [reflexivity|]. simpl.
  destruct (f x); [discriminate|]. exact IH.
Qed.



(** Creating a user whose id (one the driver can send) has a row, also a soft-deleted one, answers 409 in the API and prints [User <id> already exists.] in the CLI, leaving the tables unchanged. *)
Theorem create_user_existing (d : tables) (k name : string) (u : User.t) :
  Store.text_error k = None -> In u (user_rows d) -> User.id u = k ->
  create_user d k name = (d, HTTPError 409 "User already exists") /\
  cli_add_user d k name = (d, ["User " ++ k ++ " already exists."], None).
Proof.
  intros Hk Hin Hu. unfold create_user, cli_add_user, get_user. rewrite (texts_error_one _ Hk).
  destruct (find _ _) eqn:Hf; [split; reflexivity|].
  pose proof (find_none _ _ Hf u Hin) as E. simpl in E. rewrite Hu, String.eqb_refl in E. discriminate.
Qed.

(** Creating a currency whose code (one the driver can send) has a row, also a soft-deleted one, answers 409 in the API and prints [Currency <code> already exists.] in the CLI, leaving the tables unchanged. *)
Theorem create_currency_existing (d : tables) (k name : string) (c : Currency.t) :
  Store.text_error k = None -> In c (currency_rows d) -> Currency.code c = k ->
  create_currency d k name = (d, HTTPError 409 "Currency already exists") /\
  cli_add_currency d k name = (d, ["Currency " ++ k ++ " already exists."], None).
Proof.
  intros Hk Hin Hu. unfold create_currency, cli_add_currency, get_currency. rewrite (texts_error_one _ Hk).
  destruct (find _ _) eqn:Hf; [split; reflexivity|].
  pose proof (find_none _ _ Hf c Hin) as E. simpl in E. rewrite Hu, String.eqb_refl in E. discriminate.
Qed.

Lemma currency_code_absent (d : tables) (k : string) :
  (forall c, In c (currency_rows d) -> Currency.code c <> k) ->
  find (fun c => String.eqb (Currency.code c) k) (currency_rows d) = None.
Proof.
  intros H. apply find_none_rows. intros c Hc. apply String.eqb_neq. exact (H c Hc).
Qed.

(** [POST /currencies] with a code of at most three characters and a
    name the driver can send (no lone surrogate, no NUL byte), the code
    not yet in the table, answers 201 with the code and name;
    [GET /currencies] then lists the new currency besides those it listed
    before (in an order the query leaves open). *)
Theorem create_currency_fresh (d : tables) (k name : string) :
  Store.text_error k = None -> Store.text_error name = None -> (char_count (chars k) <= 3)%nat ->
  (forall c, In c (currency_rows d) -> Currency.code c <> k) ->
  let d' := mkTables (user_rows d) (currency_rows d ++ [Currency.mk k name false]) in
  create_currency d k name = (d', Done 201 (currency_json k name)) /\
  exists L, list_currencies d' = (d', Done 200 (VList L)) /\
    Permutation L (currency_json k name :: map (fun c => currency_json (Currency.code c) (Currency.name c))
                                               (filter (fun c => negb (Currency.deleted c)) (currency_rows d))).
Proof.
  intros Hk Hn Hlen Habs d'. pose proof (currency_code_absent d k Habs) as Hf.
  assert (Hv : varchar3 k = Ok k).
  { unfold varchar3. apply Nat.leb_le in Hlen. rewrite Hlen. reflexivity. }
  unfold create_currency, get_currency, insert_currency. rewrite (texts_error_one _ Hk), Hf. cbn [bind].
  cbn [Currency.code Currency.name Currency.deleted]. rewrite (texts_error_two _ _ Hk Hn), Hv. cbn [bind].
  rewrite (existsb_none_rows _ _ Hf). cbn [currency_rows].
  rewrite (find_app_none _ _ _ Hf). cbn [find Currency.code Currency.name]. rewrite String.eqb_refl.
  split; [reflexivity|].
  eexists; split; [reflexivity|].
  unfold d'. cbn [currency_rows]. rewrite filter_app, map_app. cbn [filter Currency.deleted negb map Currency.code Currency.name].
  apply Permutation_sym, Permutation_cons_append.
Qed.

(** Each command of [manage_cli.py] leaves the tables exactly as the endpoint of [api.py] doing the same operation (with a request body) does. *)
Theorem cli_same_tables_as_api (d : tables) (k name : string) :
  fst (fst (cli_add_user d k name)) = fst (create_user d k name) /\
  fst (fst (cli_edit_user d k name)) = fst (update_user d k (Some name)) /\
  fst (fst (cli_delete_user d k)) = fst (delete_user d k) /\
  fst (fst (cli_add_currency d k name)) = fst (create_currency d k name) /\
  fst (fst (cli_edit_currency d k name)) = fst (update_currency d k (Some name)) /\
  fst (fst (cli_delete_currency d k)) = fst (delete_currency d k) /\
  fst (fst (cli_list_users d)) = fst (list_users d) /\
  fst (fst (cli_list_currencies d)) = fst (list_currencies d).
Proof.
  unfold cli_add_user, create_user, cli_edit_user, update_user, cli_delete_user, delete_user,
    cli_add_currency, create_currency, cli_edit_currency, update_currency,
    cli_delete_currency, delete_currency, cli_error.
  repeat split;
  repeat match goal with
         | |- context [match ?x with _ => _ end] => destruct x
         | |- context [if ?x then _ else _] => destruct x
         end; reflexivity.
Qed.

Lemma seed_user_rows_adds (l : list (string * string)) (d : tables) :
  (forall k n, In (k, n) l -> Store.text_error k = None /\ Store.text_error n = None) ->
  exists U, seed_user_rows d l = Ok (mkTables (user_rows d ++ U) (currency_rows d)) /\
    (forall u, In u U -> User.deleted u = false /\ In (User.id u, User.name u) l) /\
    (forall k n, In (k, n) l -> exists u, In u (user_rows d ++ U) /\ User.id u = k).
Proof.
  revert d. induction l as [|[k n] r IH]; intros d Hl.
  - exists []. rewrite app_nil_r. destruct d. split; [reflexivity|]. split; [intros u []|intros ? ? []].
  - destruct (Hl k n (or_introl eq_refl)) as [Hk Hn].
    assert (Hr : forall k' n', In (k', n') r -> Store.text_error k' = None /\ Store.text_error n' = None)
      by (intros k' n' H; apply Hl; right; exact H).
    simpl. unfold get_user. rewrite (texts_error_one _ Hk). simpl.
    destruct (find (fun u => String.eqb (User.id u) k) (user_rows d)) as [u|] eqn:Hf.
    + simpl. destruct (IH d Hr) as (U & HU & Hadd & Hin). exists U.
      split; [exact HU|]. split; [intros v Hv; destruct (Hadd v Hv); split; [assumption|right; assumption]|].
      intros k' n' [E|E].
      * inversion E; subst. apply find_some in Hf as [Hu Hid]. apply String.eqb_eq in Hid.
        exists u. split; [apply in_or_app; left; exact Hu|exact Hid].
      * exact (Hin k' n' E).
    + unfold insert_user. cbn [User.id User.name]. rewrite (texts_error_two _ _ Hk Hn). simpl. rewrite (existsb_none_rows _ _ Hf). simpl.
      destruct (IH (mkTables (user_rows d ++ [User.mk k n false]) (currency_rows d)) Hr) as (U & HU & Hadd & Hin).
      exists (User.mk k n false :: U). simpl in HU. rewrite <- app_assoc in HU. simpl in HU.
      split; [exact HU|]. split.
      * intros v [<-|Hv]; [split; [reflexivity|left; reflexivity]|].
        destruct (Hadd v Hv). split; [assumption|right; assumption].
      * intros k' n' [E|E].
        -- inversion E; subst. exists (User.mk k' n' false). split; [|reflexivity].
           apply in_or_app. right. left. reflexivity.
        -- destruct (Hin k' n' E) as (v & Hv & Hid). exists v. split; [|exact Hid].
           simpl in Hv. rewrite <- app_assoc in Hv. exact Hv.
Qed.

Lemma seed_currency_rows_adds (l : list (string * string)) (d : tables) :
  (forall k n, In (k, n) l -> Store.text_error k = None /\ Store.text_error n = None /\ varchar3 k = Ok k) ->
  exists C, seed_currency_rows d l = Ok (mkTables (user_rows d) (currency_rows d ++ C)) /\
    (forall c, In c C -> Currency.deleted c = false /\ In (Currency.code c, Currency.name c) l) /\
    (forall k n, In (k, n) l -> exists c, In c (currency_rows d ++ C) /\ Currency.code c = k).
Proof.
  revert d. induction l as [|[k n] r IH]; intros d Hl.
  - exists []. rewrite app_nil_r. destruct d. split; [reflexivity|]. split; [intros u []|intros ? ? []].
  - destruct (Hl k n (or_introl eq_refl)) as (Hk & Hn & Hv).
    assert (Hr : forall k' n', In (k', n') r -> Store.text_error k' = None /\ Store.text_error n' = None /\ varchar3 k' = Ok k')
      by (intros k' n' H; apply Hl; right; exact H).
    simpl. unfold get_currency. rewrite (texts_error_one _ Hk). simpl.
    destruct (find (fun c => String.eqb (Currency.code c) k) (currency_rows d)) as [u|] eqn:Hf.
    + simpl. destruct (IH d Hr) as (U & HU & Hadd & Hin). exists U.
      split; [exact HU|]. split; [intros v Hw; destruct (Hadd v Hw); split; [assumption|right; assumption]|].
      intros k' n' [E|E].
      * inversion E; subst. apply find_some in Hf as [Hu Hid]. apply String.eqb_eq in Hid.
        exists u. split; [apply in_or_app; left; exact Hu|exact Hid].
      * exact (Hin k' n' E).
    + unfold insert_currency. cbn [Currency.code Currency.name]. rewrite (texts_error_two _ _ Hk Hn). simpl. rewrite Hv. simpl.
      rewrite (existsb_none_rows _ _ Hf). simpl.
      destruct (IH (mkTables (user_rows d) (currency_rows d ++ [Currency.mk k n false])) Hr) as (U & HU & Hadd & Hin).
      exists (Currency.mk k n false :: U). simpl in HU. rewrite <- app_assoc in HU. simpl in HU.
      split; [exact HU|]. split.
      * intros v [<-|Hw]; [split; [reflexivity|left; reflexivity]|].
        destruct (Hadd v Hw). split; [assumption|right; assumption].
      * intros k' n' [E|E].
        -- inversion E; subst. exists (Currency.mk k' n' false). split; [|reflexivity].
           apply in_or_app. right. left. reflexivity.
        -- destruct (Hin k' n' E) as (v & Hw & Hid). exists v. split; [|exact Hid].
           simpl in Hw. rewrite <- app_assoc in Hw. exact Hw.
Qed.

Lemma seed_user_rows_present (l : list (string * string)) (d : tables) :
  (forall k n, In (k, n) l -> Store.text_error k = None /\ exists u, In u (user_rows d) /\ User.id u = k) ->
  seed_user_rows d l = Ok d.
Proof.
  induction l as [|[k n] r IH]; intros Hl; [reflexivity|].
  destruct (Hl k n (or_introl eq_refl)) as (Hk & u & Hu & Hid).
  simpl. unfold get_user. rewrite (texts_error_one _ Hk). simpl.
  destruct (find _ _) eqn:Hf.
  - simpl. apply IH. intros k' n' H. apply (Hl k' n'). right. exact H.
  - pose proof (find_none _ _ Hf u Hu) as E. simpl in E. rewrite Hid, String.eqb_refl in E. discriminate.
Qed.

Lemma seed_currency_rows_present (l : list (string * string)) (d : tables) :
  (forall k n, In (k, n) l -> Store.text_error k = None /\ exists c, In c (currency_rows d) /\ Currency.code c = k) ->
  seed_currency_rows d l = Ok d.
Proof.
  induction l as [|[k n] r IH]; intros Hl; [reflexivity|].
  destruct (Hl k n (or_introl eq_refl)) as (Hk & u & Hu & Hid).
  simpl. unfold get_currency. rewrite (texts_error_one _ Hk). simpl.
  destruct (find _ _) eqn:Hf.
  - simpl. apply IH. intros k' n' H. apply (Hl k' n'). right. exact H.
  - pose proof (find_none _ _ Hf u Hu) as E. simpl in E. rewrite Hid, String.eqb_refl in E. discriminate.
Qed.

Lemma seed_users_clean (k n : string) :
  In (k, n) seed_users -> Store.text_error k = None /\ Store.text_error n = None.
Proof.
  intros H. repeat (destruct H as [H|H]; [inversion H; subst; split; reflexivity|]). destruct H.
Qed.

Lemma seed_currencies_clean (k n : string) :
  In (k, n) seed_currencies -> Store.text_error k = None /\ Store.text_error n = None /\ varchar3 k = Ok k.
Proof.
  intros H. repeat (destruct H as [H|H]; [inversion H; subst; vm_compute; repeat split; reflexivity|]). destruct H.
Qed.

(** [seed] never fails and never changes an existing row (a soft-deleted sample row stays deleted): it appends active sample rows for the ids and codes that have no row, so every sample id and code has a row afterwards, and a second run changes nothing. *)
Theorem seed_appends_and_is_idempotent (d : tables) :
  exists U C,
    seed d = Ok (mkTables (user_rows d ++ U) (currency_rows d ++ C)) /\
    (forall u, In u U -> User.deleted u = false /\ In (User.id u, User.name u) seed_users) /\
    (forall c, In c C -> Currency.deleted c = false /\ In (Currency.code c, Currency.name c) seed_currencies) /\
    (forall k n, In (k, n) seed_users -> exists u, In u (user_rows d ++ U) /\ User.id u = k) /\
    (forall k n, In (k, n) seed_currencies -> exists c, In c (currency_rows d ++ C) /\ Currency.code c = k) /\
    seed (mkTables (user_rows d ++ U) (currency_rows d ++ C)) = Ok (mkTables (user_rows d ++ U) (currency_rows d ++ C)).
Proof.
  destruct (seed_user_rows_adds seed_users d seed_users_clean) as (U & HU & HaddU & HinU).
  destruct (seed_currency_rows_adds seed_currencies (mkTables (user_rows d ++ U) (currency_rows d)) seed_currencies_clean)
    as (C & HC & HaddC & HinC).
  assert (Hidem : seed (mkTables (user_rows d ++ U) (currency_rows d ++ C))
                  = Ok (mkTables (user_rows d ++ U) (currency_rows d ++ C))).
  { unfold seed. rewrite seed_user_rows_present.
    - apply seed_currency_rows_present. intros k n H. split; [apply (seed_currencies_clean k n H)|].
      exact (HinC k n H).
    - intros k n H. split; [apply (seed_users_clean k n H)|]. exact (HinU k n H). }
  exists U, C. split; [unfold seed; rewrite HU; exact HC|].
  split; [exact HaddU|]. split; [exact HaddC|].
  split; [exact HinU|]. split; [exact HinC|exact Hidem].
Qed.

Lemma char_count_app (a b : list ascii) : char_count (a ++ b) = (char_count a + char_count b)%nat.
Proof. unfold char_count. rewrite filter_app, length_app. reflexivity. Qed.

Lemma char_count_cons (c : ascii) (a : list ascii) :
  char_count (c :: a) = if continues c then char_count a else S (char_count a).
Proof. unfold char_count. cbn [filter]. destruct (continues c); reflexivity. Qed.

Lemma split_chars_cons (n : nat) (c : ascii) (r : list ascii) :
  split_chars n (c :: r) =
  if continues c then let '(a, b) := split_chars n r in (c :: a, b)
  else match n with
       | O => ([], c :: r)
       | S n' => let '(a, b) := split_chars n' r in (c :: a, b)
       end.
Proof. reflexivity. Qed.

Lemma split_chars_app (a b : list ascii) (n : nat) :
  char_count a = n ->
  match b with [] => True | c :: _ => continues c = false end ->
  split_chars n (a ++ b) = (a, b).
Proof.
  revert n. induction a as [|c a IH]; intros n Hn Hb.
  - simpl in Hn. subst n. destruct b as [|c r]; [reflexivity|].
    rewrite app_nil_l, split_chars_cons, Hb. reflexivity.
  - rewrite char_count_cons in Hn. rewrite <- app_comm_cons, split_chars_cons.
    destruct (continues c) eqn:Hc.
    + rewrite (IH n Hn Hb). reflexivity.
    + destruct n as [|n]; [discriminate|]. injection Hn as Hn. rewrite (IH n Hn Hb). reflexivity.
Qed.

(** Creating a currency whose code and name the driver can send (no lone surrogate, no NUL byte), the code new and of more than three characters, the ones after the third not all spaces, fails with the database's [value too long for type character varying(3)] error in the API and the CLI, leaving the tables unchanged. *)
Theorem create_currency_code_too_long (d : tables) (k name : string) :
  Store.text_error k = None -> Store.text_error name = None ->
  (forall c, In c (currency_rows d) -> Currency.code c <> k) ->
  (3 < char_count (chars k))%nat ->
  existsb (fun c => negb (Ascii.eqb c " "%char)) (snd (split_chars 3 (chars k))) = true ->
  create_currency d k name = (d, Failure varchar3_error) /\
  cli_add_currency d k name = (d, ["Error: " ++ varchar3_error], Some varchar3_error).
Proof.
  intros Hk Hn Habs Hlen Hex. pose proof (currency_code_absent d k Habs) as Hf.
  assert (Hv : varchar3 k = Raise varchar3_error).
  { unfold varchar3. destruct (Nat.leb_spec (char_count (chars k)) 3); [lia|].
    destruct (split_chars 3 (chars k)) as [x y]. simpl in Hex.
    destruct (forallb _ y) eqn:Hall; [|reflexivity].
    rewrite forallb_forall in Hall. apply existsb_exists in Hex as (c & Hc & Hne).
    rewrite (Hall c Hc) in Hne. discriminate. }
  unfold create_currency, cli_add_currency, get_currency, insert_currency.
  rewrite (texts_error_one _ Hk), Hf. cbn [bind Currency.code Currency.name].
  rewrite (texts_error_two _ _ Hk Hn), Hv. split; reflexivity.
Qed.

(** A new code of three characters followed by spaces, with a code and name the driver can send, is stored without the spaces; the CLI reports the code as added with the spaces, while the API answers with an error (500) although the row was committed, since reloading the row by the code with spaces finds nothing. *)
Theorem create_currency_trailing_spaces (d : tables) (a sp : list ascii) (name : string) :
  let k := lstr (a ++ sp)%list in
  Store.text_error k = None -> Store.text_error name = None ->
  char_count a = 3%nat -> sp <> [] -> (forall c, In c sp -> c = " "%char) ->
  (forall c, In c (currency_rows d) -> Currency.code c <> k /\ Currency.code c <> lstr a) ->
  let d' := mkTables (user_rows d) (currency_rows d ++ [Currency.mk (lstr a) name false]) in
  create_currency d k name = (d', Failure object_deleted_error) /\
  cli_add_currency d k name = (d', ["Added currency " ++ k ++ ": " ++ name], None).
Proof.
  intros k Hk Hn Ha Hsp Hsps Habs d'.
  assert (Hck : chars k = (a ++ sp)%list) by apply list_ascii_of_string_of_list_ascii.
  assert (Hf : find (fun c => String.eqb (Currency.code c) k) (currency_rows d) = None)
    by (apply currency_code_absent; intros c Hc; apply (Habs c Hc)).
  assert (Hfa : find (fun c => String.eqb (Currency.code c) (lstr a)) (currency_rows d) = None)
    by (apply currency_code_absent; intros c Hc; apply (Habs c Hc)).
  assert (Hv : varchar3 k = Ok (lstr a)).
  { unfold varchar3. rewrite Hck. rewrite char_count_app, Ha.
    destruct sp as [|s r]; [congruence|].
    assert (Hs : s = " "%char) by (apply Hsps; left; reflexivity).
    assert (Hcs : (0 < char_count (s :: r))%nat) by (rewrite char_count_cons; subst s; simpl; lia).
    destruct (Nat.leb_spec (3 + char_count (s :: r)) 3); [lia|].
    rewrite split_chars_app by (try exact Ha; subst s; reflexivity).
    replace (forallb (fun c => Ascii.eqb c " "%char) (s :: r)) with true; [reflexivity|].
    symmetry. apply forallb_forall. intros c Hc. rewrite (Hsps c Hc). reflexivity. }
  assert (Hne : String.eqb (lstr a) k = false).
  { apply String.eqb_neq. intros E. apply (f_equal chars) in E. rewrite Hck in E.
    unfold chars, lstr in E. rewrite list_ascii_of_string_of_list_ascii in E.
    apply (f_equal (@List.length ascii)) in E. rewrite length_app in E.
    destruct sp; [congruence|]. simpl in E. lia. }
  unfold create_currency, cli_add_currency, get_currency, insert_currency.
  rewrite (texts_error_one _ Hk), Hf. cbn [bind Currency.code Currency.name].
  rewrite (texts_error_two _ _ Hk Hn), Hv. cbn [bind].
  rewrite (existsb_none_rows _ _ Hfa). simpl.
  rewrite (find_app_none _ _ _ Hf). simpl. rewrite Hne. split; reflexivity.
Qed.

Lemma delete_user_retires_witness :
  delete_user (mkTables [User.mk "user1" "Alice" false; User.mk "user2" "Bob" false] []) "user1"
    = (mkTables [User.mk "user1" "Alice" true; User.mk "user2" "Bob" false] [], Done 204 VNone) /\
  ((forall name, create_user (mkTables [User.mk "user1" "Alice" true; User.mk "user2" "Bob" false] []) "user1" name
                 = (mkTables [User.mk "user1" "Alice" true; User.mk "user2" "Bob" false] [], HTTPError 409 "User already exists")) /\
   (forall body, update_user (mkTables [User.mk "user1" "Alice" true; User.mk "user2" "Bob" false] []) "user1" body
                 = (mkTables [User.mk "user1" "Alice" true; User.mk "user2" "Bob" false] [], HTTPError 404 "User not found or deleted")) /\
   delete_user (mkTables [User.mk "user1" "Alice" true; User.mk "user2" "Bob" false] []) "user1"
     = (mkTables [User.mk "user1" "Alice" true; User.mk "user2" "Bob" false] [], HTTPError 404 "User not found or already deleted") /\
   list_users (mkTables [User.mk "user1" "Alice" true; User.mk "user2" "Bob" false] [])
     = (mkTables [User.mk "user1" "Alice" true; User.mk "user2" "Bob" false] [],
        Done 200 (VList (map (fun u => user_json (User.id u) (User.name u))
          (filter (fun u => negb (User.deleted u) && negb (String.eqb (User.id u) "user1"))
                  [User.mk "user1" "Alice" false; User.mk "user2" "Bob" false]))))).
Proof.
  split; [reflexivity|].
  apply (delete_user_retires (mkTables [User.mk "user1" "Alice" false; User.mk "user2" "Bob" false] [])).
  reflexivity.
Defined.

Lemma delete_currency_retires_witness :
  delete_currency (mkTables [] [Currency.mk "USD" "US Dollar" false; Currency.mk "EUR" "Euro" false]) "EUR"
    = (mkTables [] [Currency.mk "USD" "US Dollar" false; Currency.mk "EUR" "Euro" true], Done 204 VNone) /\
  ((forall name, create_currency (mkTables [] [Currency.mk "USD" "US Dollar" false; Currency.mk "EUR" "Euro" true]) "EUR" name
                 = (mkTables [] [Currency.mk "USD" "US Dollar" false; Currency.mk "EUR" "Euro" true], HTTPError 409 "Currency already exists")) /\
   (forall body, update_currency (mkTables [] [Currency.mk "USD" "US Dollar" false; Currency.mk "EUR" "Euro" true]) "EUR" body
                 = (mkTables [] [Currency.mk "USD" "US Dollar" false; Currency.mk "EUR" "Euro" true], HTTPError 404 "Currency not found or deleted")) /\
   delete_currency (mkTables [] [Currency.mk "USD" "US Dollar" false; Currency.mk "EUR" "Euro" true]) "EUR"
     = (mkTables [] [Currency.mk "USD" "US Dollar" false; Currency.mk "EUR" "Euro" true], HTTPError 404 "Currency not found or already deleted") /\
   list_currencies (mkTables [] [Currency.mk "USD" "US Dollar" false; Currency.mk "EUR" "Euro" true])
     = (mkTables [] [Currency.mk "USD" "US Dollar" false; Currency.mk "EUR" "Euro" true],
        Done 200 (VList (map (fun c => currency_json (Currency.code c) (Currency.name c))
          (filter (fun c => negb (Currency.deleted c) && negb (String.eqb (Currency.code c) "EUR"))
                  [Currency.mk "USD" "US Dollar" false; Currency.mk "EUR" "Euro" false]))))).
Proof.
  split; [reflexivity|].
  apply (delete_currency_retires (mkTables [] [Currency.mk "USD" "US Dollar" false; Currency.mk "EUR" "Euro" false])).
  reflexivity.
Defined.


Lemma create_user_existing_witness :
  Store.text_error "user2" = None /\ In (User.mk "user2" "Bob" true) (user_rows (mkTables [User.mk "user1" "Alice" false; User.mk "user2" "Bob" true] [])) /\
  User.id (User.mk "user2" "Bob" true) = "user2" /\
  create_user (mkTables [User.mk "user1" "Alice" false; User.mk "user2" "Bob" true] []) "user2" "Robert"
    = (mkTables [User.mk "user1" "Alice" false; User.mk "user2" "Bob" true] [], HTTPError 409 "User already exists") /\
  cli_add_user (mkTables [User.mk "user1" "Alice" false; User.mk "user2" "Bob" true] []) "user2" "Robert"
    = (mkTables [User.mk "user1" "Alice" false; User.mk "user2" "Bob" true] [], ["User " ++ "user2" ++ " already exists."], None).
Proof.
  assert (Hin : In (User.mk "user2" "Bob" true) (user_rows (mkTables [User.mk "user1" "Alice" false; User.mk "user2" "Bob" true] [])))
    by (right; left; reflexivity).
  split; [reflexivity|]. split; [exact Hin|]. split; [reflexivity|].
  exact (create_user_existing _ "user2" "Robert" _ eq_refl Hin eq_refl).
Defined.

Lemma create_currency_existing_witness :
  Store.text_error "GBP" = None /\ In (Currency.mk "GBP" "British Pound" true) (currency_rows (mkTables [] [Currency.mk "GBP" "British Pound" true])) /\
  Currency.code (Currency.mk "GBP" "British Pound" true) = "GBP" /\
  create_currency (mkTables [] [Currency.mk "GBP" "British Pound" true]) "GBP" "Pound"
    = (mkTables [] [Currency.mk "GBP" "British Pound" true], HTTPError 409 "Currency already exists") /\
  cli_add_currency (mkTables [] [Currency.mk "GBP" "British Pound" true]) "GBP" "Pound"
    = (mkTables [] [Currency.mk "GBP" "British Pound" true], ["Currency " ++ "GBP" ++ " already exists."], None).
Proof.
  assert (Hin : In (Currency.mk "GBP" "British Pound" true) (currency_rows (mkTables [] [Currency.mk "GBP" "British Pound" true])))
    by (left; reflexivity).
  split; [reflexivity|]. split; [exact Hin|]. split; [reflexivity|].
  exact (create_currency_existing _ "GBP" "Pound" _ eq_refl Hin eq_refl).
Defined.

Lemma create_currency_fresh_witness :
  Store.text_error "JPY" = None /\ Store.text_error "Yen" = None /\ (char_count (chars "JPY") <= 3)%nat /\
  (forall c, In c (currency_rows (mkTables [] [Currency.mk "USD" "US Dollar" false])) -> Currency.code c <> "JPY") /\
  (let d' := mkTables [] [Currency.mk "USD" "US Dollar" false; Currency.mk "JPY" "Yen" false] in
   create_currency (mkTables [] [Currency.mk "USD" "US Dollar" false]) "JPY" "Yen"
     = (d', Done 201 (currency_json "JPY" "Yen")) /\
   exists L, list_currencies d' = (d', Done 200 (VList L)) /\
     Permutation L [currency_json "JPY" "Yen"; currency_json "USD" "US Dollar"]).
Proof.
  assert (Habs : forall c, In c (currency_rows (mkTables [] [Currency.mk "USD" "US Dollar" false])) -> Currency.code c <> "JPY")
    by (intros c Hc; destruct Hc as [<-|[]]; discriminate).
  assert (Hl : (char_count (chars "JPY") <= 3)%nat) by (vm_compute; lia).
  split; [reflexivity|]. split; [reflexivity|]. split; [exact Hl|]. split; [exact Habs|].
  exact (create_currency_fresh _ "JPY" "Yen" eq_refl eq_refl Hl Habs).
Defined.

Lemma create_currency_code_too_long_witness :
  Store.text_error "EURO" = None /\ Store.text_error "Euro" = None /\
  (forall c, In c (currency_rows (mkTables [] [])) -> Currency.code c <> "EURO") /\
  (3 < char_count (chars "EURO"))%nat /\
  existsb (fun c => negb (Ascii.eqb c " "%char)) (snd (split_chars 3 (chars "EURO"))) = true /\
  create_currency (mkTables [] []) "EURO" "Euro" = (mkTables [] [], Failure varchar3_error) /\
  cli_add_currency (mkTables [] []) "EURO" "Euro" = (mkTables [] [], ["Error: " ++ varchar3_error], Some varchar3_error).
Proof.
  assert (Habs : forall c, In c (currency_rows (mkTables [] [])) -> Currency.code c <> "EURO") by (intros c []).
  assert (Hl : (3 < char_count (chars "EURO"))%nat) by (vm_compute; lia).
  split; [reflexivity|]. split; [reflexivity|]. split; [exact Habs|]. split; [exact Hl|]. split; [reflexivity|].
  exact (create_currency_code_too_long _ "EURO" "Euro" eq_refl eq_refl Habs Hl eq_refl).
Defined.

Lemma create_currency_trailing_spaces_witness :
  Store.text_error (lstr (["C"; "H"; "F"] ++ [" "; " "])%char%list) = None /\ Store.text_error "Swiss Franc" = None /\
  char_count ["C"; "H"; "F"]%char = 3%nat /\ [" "; " "]%char <> [] /\
  (forall c, In c [" "; " "]%char -> c = " "%char) /\
  (forall c, In c (currency_rows (mkTables [] [Currency.mk "USD" "US Dollar" false])) ->
             Currency.code c <> lstr (["C"; "H"; "F"] ++ [" "; " "])%char%list /\ Currency.code c <> lstr ["C"; "H"; "F"]%char) /\
  create_currency (mkTables [] [Currency.mk "USD" "US Dollar" false]) (lstr (["C"; "H"; "F"] ++ [" "; " "])%char%list) "Swiss Franc"
    = (mkTables [] [Currency.mk "USD" "US Dollar" false; Currency.mk "CHF" "Swiss Franc" false], Failure object_deleted_error) /\
  cli_add_currency (mkTables [] [Currency.mk "USD" "US Dollar" false]) (lstr (["C"; "H"; "F"] ++ [" "; " "])%char%list) "Swiss Franc"
    = (mkTables [] [Currency.mk "USD" "US Dollar" false; Currency.mk "CHF" "Swiss Franc" false],
       ["Added currency " ++ "CHF  " ++ ": " ++ "Swiss Franc"], None).
Proof.
  assert (Hsp : [" "; " "]%char <> []) by discriminate.
  assert (Hsps : forall c, In c [" "; " "]%char -> c = " "%char) by (intros c [<-|[<-|[]]]; reflexivity).
  assert (Habs : forall c, In c (currency_rows (mkTables [] [Currency.mk "USD" "US Dollar" false])) ->
             Currency.code c <> lstr (["C"; "H"; "F"] ++ [" "; " "])%char%list /\ Currency.code c <> lstr ["C"; "H"; "F"]%char)
    by (intros c [<-|[]]; split; discriminate).
  split; [reflexivity|]. split; [reflexivity|]. split; [reflexivity|]. split; [exact Hsp|].
  split; [exact Hsps|]. split; [exact Habs|].
  exact (create_currency_trailing_spaces _ ["C"; "H"; "F"]%char [" "; " "]%char "Swiss Franc" eq_refl eq_refl eq_refl Hsp Hsps Habs).
Defined.

End AdminExtras.
